(** * E-commerce API: cart, checkout and identity handlers

    A shallow embedding of the request handlers of [main.py]
    ([register_user], [login_user], [add_to_cart], [get_cart], [checkout])
    over an explicit model of the four document collections, followed by
    the properties the specification states about them.

    The handlers are written in a state-and-exception monad over the
    store.  Whatever lies outside the handlers (the identifier
    predicate and constructor of [bson], the helpers of [utils], the clock,
    the identifier the driver generates on insertion, a store call that
    raises) is a field of the environment [Env]; nothing is assumed about
    these fields. *)

From Stdlib Require Import ZArith NArith String HexString List Bool Lia.
From Stdlib Require Import Ascii Permutation Sorted.
Import ListNotations.

Local Open Scope Z_scope.

(** ** Documents *)

(** An [ObjectId] is a 12-byte value; it is kept as the number it encodes. *)
Definition oid := N.

(** An entry of a cart's [items] list: [{"product_id": ..., "quantity": ...}].
    The quantity is a Python [int]. *)
Record CartItem := mkCartItem {
  item_product_id : oid;
  item_quantity : Z
}.

Record Cart := mkCart {
  cart_id : oid;
  cart_user_id : oid;
  cart_items : list CartItem;
  cart_updated_at : string
}.

Record User := mkUser {
  u_id : oid;
  u_username : string;
  u_email : string;
  u_password : string;
  u_created_at : string
}.

Section Documents.

(** The type of prices and amounts.  The seed data of [db.py] uses Python
    floats, the store accepts any number; the handlers only add amounts
    and multiply a price by an integer quantity. *)
Variable num : Type.

Record Product := mkProduct {
  p_id : oid;
  p_name : string;
  p_description : string;
  p_price : num;
  p_image : string;
  p_category : string
}.

(** A line of an order: the snapshot built by [checkout]. *)
Record OrderItem := mkOrderItem {
  ol_product_id : oid;
  ol_product_name : string;
  ol_quantity : Z;
  ol_price : num;
  ol_subtotal : num
}.

Record Order := mkOrder {
  o_id : oid;
  o_user_id : oid;
  o_items : list OrderItem;
  o_total_amount : num;
  o_status : string;
  o_created_at : string
}.

(** The four collections, each in its natural (insertion) order, and the
    number of calls made so far to the outside (store calls and clock
    reads), which indexes the environment's oracles. *)
Record World := mkWorld {
  products : list Product;
  users : list User;
  carts : list Cart;
  orders : list Order;
  steps : nat
}.

End Documents.

Arguments mkProduct {num}.
Arguments p_id {num}.
Arguments p_name {num}.
Arguments p_description {num}.
Arguments p_price {num}.
Arguments p_image {num}.
Arguments p_category {num}.
Arguments mkOrderItem {num}.
Arguments ol_product_id {num}.
Arguments ol_product_name {num}.
Arguments ol_quantity {num}.
Arguments ol_price {num}.
Arguments ol_subtotal {num}.
Arguments mkOrder {num}.
Arguments o_id {num}.
Arguments o_user_id {num}.
Arguments o_items {num}.
Arguments o_total_amount {num}.
Arguments o_status {num}.
Arguments o_created_at {num}.
Arguments mkWorld {num}.
Arguments products {num}.
Arguments users {num}.
Arguments carts {num}.
Arguments orders {num}.
Arguments steps {num}.

(** ** Exceptions and results *)

Inductive Coll := Products | Users | Carts | Orders.

Inductive StoreOp :=
| FindOne (c : Coll)
| InsertOne (c : Coll)
| UpdateOne (c : Coll).

(** What a handler can raise: the [HTTPException]s of [main.py], an error
    of the store call [op], the store's refusal of an [_id] that is
    already in the collection, and the driver's refusal to encode an
    integer that does not fit eight bytes. *)
Inductive Exc :=
| HTTPException (status_code : Z) (detail : string)
| PyMongoError (op : StoreOp)
| DuplicateKeyError (c : Coll)
| OverflowError.

Inductive Result (A : Type) :=
| Ok (a : A)
| Raise (e : Exc).

Arguments Ok {A}.
Arguments Raise {A}.

Definition HTTP_400_BAD_REQUEST : Z := 400.
Definition HTTP_401_UNAUTHORIZED : Z := 401.
Definition HTTP_404_NOT_FOUND : Z := 404.
Definition HTTP_409_CONFLICT : Z := 409.
Definition HTTP_422_UNPROCESSABLE_ENTITY : Z := 422.

(** ** The environment of the handlers *)

Class Env := {
  num : Type;
  (** the [int] 0 that [grand_total] starts from, [+] and [price * quantity] *)
  num_zero : num;
  num_add : num -> num -> num;
  num_mul : num -> Z -> num;
  (** [ObjectId.is_valid], [ObjectId(...)] and [str(...)] of [bson] *)
  is_valid : string -> bool;
  ObjectId : string -> oid;
  str : oid -> string;
  (** [utils]: not among the sources *)
  hash_password : string -> string;
  verify_password : string -> string -> bool;
  ProductOut : Type;
  replace_mongo_id : Product num -> ProductOut;
  (** [datetime.utcnow().isoformat()] read at the n-th outside call *)
  utcnow : nat -> string;
  (** the [_id] the driver generates when the n-th outside call inserts *)
  gen_id : nat -> oid;
  (** whether the n-th outside call, a store call, raises *)
  faulty : nat -> bool
}.

Section Handlers.

Context {E : Env}.

Definition W := World num.

(** ** The monad: state passing with exceptions; what was written before
    an exception stays written *)

Definition M (A : Type) := W -> Result A * W.

Definition ret {A} (a : A) : M A := fun w => (Ok a, w).

Definition raise {A} (e : Exc) : M A := fun w => (Raise e, w).

Definition bind {A B} (m : M A) (k : A -> M B) : M B :=
  fun w =>
    match m w with
    | (Ok a, w') => k a w'
    | (Raise e, w') => (Raise e, w')
    end.

Notation "x <- m ;; k" := (bind m (fun x => k))
  (at level 61, m at next level, right associativity).
Notation "m ;;; k" := (bind m (fun _ => k))
  (at level 61, right associativity).

Definition set_steps (w : W) (n : nat) : W :=
  mkWorld (products w) (users w) (carts w) (orders w) n.

Definition set_users (w : W) (l : list User) : W :=
  mkWorld (products w) l (carts w) (orders w) (steps w).

Definition set_carts (w : W) (l : list Cart) : W :=
  mkWorld (products w) (users w) l (orders w) (steps w).

Definition set_orders (w : W) (l : list (Order num)) : W :=
  mkWorld (products w) (users w) (carts w) l (steps w).

(** One call to the outside: yields its index and counts it. *)
Definition tick : M nat :=
  fun w => (Ok (steps w), set_steps w (S (steps w))).

Definition gets {A} (f : W -> A) : M A := fun w => (Ok (f w), w).

Definition modify (f : W -> W) : M unit := fun w => (Ok tt, f w).

(** [datetime.utcnow().isoformat()] *)
Definition now : M string :=
  n <- tick ;; ret (utcnow n).

(** A store call: it raises when the environment says so, and then
    leaves the store as it was. *)
Definition store_call (op : StoreOp) : M nat :=
  n <- tick ;;
  if faulty n then raise (PyMongoError op) else ret n.

(** ** The store operations the handlers use *)

(** What [find_one] selects: the first document, in the collection's
    order, that the filter matches. *)
Definition product_by_id (l : list (Product num)) (pid : oid)
  : option (Product num) :=
  find (fun p => N.eqb (p_id p) pid) l.

Definition user_matching (l : list User) (a b : string) : option User :=
  find (fun u => String.eqb (u_username u) a || String.eqb (u_email u) b) l.

Definition cart_of_user (l : list Cart) (uid : oid) : option Cart :=
  find (fun c => N.eqb (cart_user_id c) uid) l.

(** [products_collection.find_one({"_id": pid})] *)
Definition find_product (pid : oid) : M (option (Product num)) :=
  store_call (FindOne Products) ;;;
  gets (fun w => product_by_id (products w) pid).

(** [users_collection.find_one({"$or": [{"username": a}, {"email": b}]})] *)
Definition find_user (a b : string) : M (option User) :=
  store_call (FindOne Users) ;;;
  gets (fun w => user_matching (users w) a b).

(** [carts_collection.find_one({"user_id": uid})] *)
Definition find_cart (uid : oid) : M (option Cart) :=
  store_call (FindOne Carts) ;;;
  gets (fun w => cart_of_user (carts w) uid).

(** [users_collection.insert_one(user_data)]: the document gets a
    generated [_id], which the result carries as [inserted_id]. *)
Definition insert_user (username email password created_at : string)
  : M oid :=
  n <- store_call (InsertOne Users) ;;
  l <- gets users ;;
  if existsb (fun u => N.eqb (u_id u) (gen_id n)) l
  then raise (DuplicateKeyError Users)
  else
    modify (fun w => set_users w
      (l ++ [mkUser (gen_id n) username email password created_at])) ;;;
    ret (gen_id n).

(** [carts_collection.insert_one({"user_id": ..., "items": ...,
    "updated_at": ...})] *)
Definition insert_cart (uid : oid) (items : list CartItem)
  (updated_at : string) : M oid :=
  n <- store_call (InsertOne Carts) ;;
  l <- gets carts ;;
  if existsb (fun c => N.eqb (cart_id c) (gen_id n)) l
  then raise (DuplicateKeyError Carts)
  else
    modify (fun w => set_carts w
      (l ++ [mkCart (gen_id n) uid items updated_at])) ;;;
    ret (gen_id n).

(** [orders_collection.insert_one(order_data)] *)
Definition insert_order (uid : oid) (items : list (OrderItem num))
  (total_amount : num) (status created_at : string) : M oid :=
  n <- store_call (InsertOne Orders) ;;
  l <- gets orders ;;
  if existsb (fun o => N.eqb (o_id o) (gen_id n)) l
  then raise (DuplicateKeyError Orders)
  else
    modify (fun w => set_orders w
      (l ++ [mkOrder (gen_id n) uid items total_amount status created_at])) ;;;
    ret (gen_id n).

(** [update_one(filter, {"$set": {"items": ..., "updated_at": ...}})]:
    the first cart the filter selects is rewritten, the others and a
    collection without a match are left as they are. *)
Fixpoint set_first (sel : Cart -> bool) (items : list CartItem)
  (updated_at : string) (l : list Cart) : list Cart :=
  match l with
  | [] => []
  | c :: rest =>
      if sel c
      then mkCart (cart_id c) (cart_user_id c) items updated_at :: rest
      else c :: set_first sel items updated_at rest
  end.

Definition update_cart (sel : Cart -> bool) (items : list CartItem)
  (updated_at : string) : M unit :=
  store_call (UpdateOne Carts) ;;;
  modify (fun w => set_carts w (set_first sel items updated_at (carts w))).

(** ** register_user *)

Record RegisterResponse := mkRegisterResponse {
  reg_message : string;
  reg_user_id : string
}.

Definition register_user (username email password : string)
  : M RegisterResponse :=
  existing_user <- find_user username email ;;
  match existing_user with
  | Some _ =>
      raise (HTTPException HTTP_409_CONFLICT
               "Username or email already exists")
  | None =>
      created_at <- now ;;
      inserted_id <-
        insert_user username email (hash_password password) created_at ;;
      updated_at <- now ;;
      insert_cart inserted_id [] updated_at ;;;
      ret (mkRegisterResponse "User registered successfully"
             (str inserted_id))
  end.

(** ** login_user *)

Record LoginResponse := mkLoginResponse {
  login_message : string;
  login_user_id : string;
  login_username : string
}.

Definition login_user (username_or_email password : string)
  : M LoginResponse :=
  user <- find_user username_or_email username_or_email ;;
  match user with
  | None =>
      raise (HTTPException HTTP_401_UNAUTHORIZED "Invalid credentials")
  | Some u =>
      if negb (verify_password password (u_password u))
      then raise (HTTPException HTTP_401_UNAUTHORIZED "Invalid credentials")
      else ret (mkLoginResponse "Login successful" (str (u_id u))
                  (u_username u))
  end.

(** ** add_to_cart

    [quantity] is the parsed form field; its default, 1, is filled in by
    the routing layer before the handler runs. *)

(** The loop over [cart["items"]]: the first entry of the product gets
    [quantity] added in place and the loop breaks; the flag is
    [item_exists]. *)
Fixpoint bump (pid : oid) (quantity : Z) (items : list CartItem)
  : list CartItem * bool :=
  match items with
  | [] => ([], false)
  | item :: rest =>
      if N.eqb (item_product_id item) pid
      then (mkCartItem (item_product_id item)
              (item_quantity item + quantity) :: rest, true)
      else let (rest', item_exists) := bump pid quantity rest in
           (item :: rest', item_exists)
  end.

Definition merge_item (pid : oid) (quantity : Z) (items : list CartItem)
  : list CartItem :=
  let (items', item_exists) := bump pid quantity items in
  if negb item_exists
  then items' ++ [mkCartItem pid quantity]
  else items'.

Definition add_to_cart (user_id product_id : string) (quantity : Z)
  : M string :=
  if negb (is_valid user_id)
  then raise (HTTPException HTTP_422_UNPROCESSABLE_ENTITY "Invalid user ID")
  else
  if negb (is_valid product_id)
  then raise (HTTPException HTTP_422_UNPROCESSABLE_ENTITY
                "Invalid product ID")
  else
  product <- find_product (ObjectId product_id) ;;
  match product with
  | None => raise (HTTPException HTTP_404_NOT_FOUND "Product not found")
  | Some _ =>
      cart <- find_cart (ObjectId user_id) ;;
      match cart with
      | None =>
          updated_at <- now ;;
          insert_cart (ObjectId user_id)
            [mkCartItem (ObjectId product_id) quantity] updated_at ;;;
          ret "Product added to cart successfully"%string
      | Some c =>
          let items := merge_item (ObjectId product_id) quantity
                         (cart_items c) in
          updated_at <- now ;;
          update_cart (fun d => N.eqb (cart_id d) (cart_id c))
            items updated_at ;;;
          ret "Product added to cart successfully"%string
      end
  end.

(** ** get_cart *)

Record CartLine := mkCartLine {
  cl_product : ProductOut;
  cl_quantity : Z;
  cl_subtotal : num
}.

Inductive CartResponse :=
| CartEmpty (message : string) (items : list CartLine)
| CartContents (user_id : string) (items : list CartLine) (total_items : Z).

(** [sum(item["quantity"] for item in ...)] *)
Definition sum_Z (l : list Z) : Z := fold_left Z.add l 0.

Fixpoint get_cart_loop (items : list CartItem) (cart_items : list CartLine)
  : M (list CartLine) :=
  match items with
  | [] => ret cart_items
  | item :: rest =>
      product <- find_product (item_product_id item) ;;
      match product with
      | Some p =>
          get_cart_loop rest
            (cart_items ++
               [mkCartLine (replace_mongo_id p) (item_quantity item)
                  (num_mul (p_price p) (item_quantity item))])
      | None => get_cart_loop rest cart_items
      end
  end.

Definition is_empty {A} (l : list A) : bool :=
  match l with [] => true | _ => false end.

Definition get_cart (user_id : string) : M CartResponse :=
  if negb (is_valid user_id)
  then raise (HTTPException HTTP_422_UNPROCESSABLE_ENTITY "Invalid user ID")
  else
  cart <- find_cart (ObjectId user_id) ;;
  match cart with
  | None => ret (CartEmpty "Cart is empty" [])
  | Some c =>
      if is_empty (cart_items c)
      then ret (CartEmpty "Cart is empty" [])
      else
        cart_lines <- get_cart_loop (cart_items c) [] ;;
        ret (CartContents user_id cart_lines
               (sum_Z (map item_quantity (cart_items c))))
  end.

(** ** checkout *)

Record OrderSummary := mkOrderSummary {
  sum_items : list (OrderItem num);
  sum_total_amount : num;
  sum_total_items : Z
}.

Record CheckoutResponse := mkCheckoutResponse {
  co_message : string;
  co_order_id : string;
  co_order_summary : OrderSummary
}.

Fixpoint checkout_loop (items : list CartItem)
  (order_items : list (OrderItem num)) (grand_total : num)
  : M (list (OrderItem num) * num) :=
  match items with
  | [] => ret (order_items, grand_total)
  | item :: rest =>
      product <- find_product (item_product_id item) ;;
      match product with
      | Some p =>
          let subtotal := num_mul (p_price p) (item_quantity item) in
          checkout_loop rest
            (order_items ++
               [mkOrderItem (item_product_id item) (p_name p)
                  (item_quantity item) (p_price p) subtotal])
            (num_add grand_total subtotal)
      | None => checkout_loop rest order_items grand_total
      end
  end.

Definition checkout (user_id : string) : M CheckoutResponse :=
  if negb (is_valid user_id)
  then raise (HTTPException HTTP_422_UNPROCESSABLE_ENTITY "Invalid user ID")
  else
  cart <- find_cart (ObjectId user_id) ;;
  match cart with
  | None => raise (HTTPException HTTP_400_BAD_REQUEST "Cart is empty")
  | Some c =>
      if is_empty (cart_items c)
      then raise (HTTPException HTTP_400_BAD_REQUEST "Cart is empty")
      else
        r <- checkout_loop (cart_items c) [] num_zero ;;
        let (order_items, grand_total) := r in
        created_at <- now ;;
        inserted_id <-
          insert_order (ObjectId user_id) order_items grand_total
            "completed" created_at ;;
        updated_at <- now ;;
        update_cart (fun d => N.eqb (cart_user_id d) (ObjectId user_id))
          [] updated_at ;;;
        ret (mkCheckoutResponse "Checkout successful" (str inserted_id)
               (mkOrderSummary order_items grand_total
                  (sum_Z (map ol_quantity order_items))))
  end.

(** ** get_all_products and get_product *)

(** [products_collection.find().to_list()]: the whole collection, read in
    one store call.  When the call raises, the exception carries the tag
    of a read of the collection, as those of [find_one] do. *)
Definition find_products : M (list (Product num)) :=
  store_call (FindOne Products) ;;;
  gets products.

Definition get_all_products : M (list ProductOut) :=
  products <- find_products ;;
  ret (map replace_mongo_id products).

Definition get_product (product_id : string) : M ProductOut :=
  if negb (is_valid product_id)
  then raise (HTTPException HTTP_422_UNPROCESSABLE_ENTITY
                "Invalid product ID format")
  else
  product <- find_product (ObjectId product_id) ;;
  match product with
  | None => raise (HTTPException HTTP_404_NOT_FOUND "Product not found")
  | Some p => ret (replace_mongo_id p)
  end.

(** ** Notions the statements use *)

(** No store call raises. *)
Definition no_faults : Prop := forall n, faulty n = false.

(** The driver never generates one of the identifiers [ids]. *)
Definition fresh_for (ids : list oid) : Prop :=
  forall n, ~ In (gen_id n) ids.

(** Amounts added up from 0 in list order, as [grand_total] is. *)
Definition sum_num (l : list num) : num := fold_left num_add l num_zero.

(** The data model's invariant of a cart: at most one entry per
    [product_id]. *)
Definition cart_inv (c : Cart) : Prop :=
  NoDup (map item_product_id (cart_items c)).

Definition carts_inv (w : W) : Prop := Forall cart_inv (carts w).

(** The quantity a cart stores for a product: that of its first entry
    for it, 0 when it has none. *)
Definition stored_quantity (pid : oid) (items : list CartItem) : Z :=
  match find (fun i => N.eqb (item_product_id i) pid) items with
  | Some i => item_quantity i
  | None => 0
  end.

(** The entries a cart has for a product. *)
Definition entries_of (pid : oid) (items : list CartItem) : list CartItem :=
  filter (fun i => N.eqb (item_product_id i) pid) items.

(** The stored entries whose product resolves, and those whose product
    does not. *)
Definition resolving (ps : list (Product num)) (items : list CartItem)
  : list CartItem :=
  filter (fun i => match product_by_id ps (item_product_id i) with
                   | Some _ => true | None => false end) items.

Definition stale (ps : list (Product num)) (items : list CartItem)
  : list CartItem :=
  filter (fun i => match product_by_id ps (item_product_id i) with
                   | Some _ => false | None => true end) items.

(** The snapshot [checkout] takes of entry [i] with product [p], and the
    line [get_cart] builds for it. *)
Definition snapshot (p : Product num) (i : CartItem) : OrderItem num :=
  mkOrderItem (item_product_id i) (p_name p) (item_quantity i) (p_price p)
    (num_mul (p_price p) (item_quantity i)).

Definition cart_line (p : Product num) (i : CartItem) : CartLine :=
  mkCartLine (replace_mongo_id p) (item_quantity i)
    (num_mul (p_price p) (item_quantity i)).

(** The lines of the entries that resolve, in the cart's order. *)
Fixpoint joined {L} (mk : Product num -> CartItem -> L)
  (ps : list (Product num)) (items : list CartItem) : list L :=
  match items with
  | [] => []
  | i :: rest =>
      match product_by_id ps (item_product_id i) with
      | Some p => mk p i :: joined mk ps rest
      | None => joined mk ps rest
      end
  end.

(** How a line of an order relates to the stored entry it was taken
    from. *)
Definition is_snapshot (ps : list (Product num)) (i : CartItem)
  (l : OrderItem num) : Prop :=
  exists p,
    product_by_id ps (item_product_id i) = Some p /\
    ol_product_id l = item_product_id i /\
    ol_product_name l = p_name p /\
    ol_quantity l = item_quantity i /\
    ol_price l = p_price p /\
    ol_subtotal l = num_mul (p_price p) (item_quantity i).

(** How a line of the cart view relates to its stored entry. *)
Definition is_cart_line (ps : list (Product num)) (i : CartItem)
  (l : CartLine) : Prop :=
  exists p,
    product_by_id ps (item_product_id i) = Some p /\
    cl_product l = replace_mongo_id p /\
    cl_quantity l = item_quantity i /\
    cl_subtotal l = num_mul (p_price p) (item_quantity i).

(** The message of a successful [add_to_cart]. *)
Definition added : string := "Product added to cart successfully".

(** A computation keeps the carts' invariant, whatever it returns or
    raises, and establishes [Q] of the value it returns. *)
Definition establishes {A} (m : M A) (Q : A -> Prop) : Prop :=
  forall w r w',
    Forall cart_inv (carts w) -> m w = (r, w') ->
    Forall cart_inv (carts w') /\ forall a, r = Ok a -> Q a.

(** Two worlds with the same four collections. *)
Definition same_store (w w' : W) : Prop :=
  products w' = products w /\ users w' = users w /\
  carts w' = carts w /\ orders w' = orders w.

End Handlers.

(** ** get_user_orders *)

(** What the order history needs from outside the handlers:
    [replace_mongo_id] applied to an order document, and the order in
    which the store returns documents for [.sort("created_at", -1)]
    (among documents with equal keys the store is free to choose). *)
Class OrdersEnv {E : Env} := {
  OrderOut : Type;
  replace_mongo_id_order : Order num -> OrderOut;
  sort_created_at_desc : list (Order num) -> list (Order num)
}.

Section OrderHistory.

Context {E : Env} {OE : OrdersEnv}.

Notation "x <- m ;; k" := (bind m (fun x => k))
  (at level 61, m at next level, right associativity).
Notation "m ;;; k" := (bind m (fun _ => k))
  (at level 61, right associativity).

(** The documents the filter [{"user_id": uid}] selects, in the
    collection's order. *)
Definition orders_of_user (l : list (Order num)) (uid : oid)
  : list (Order num) :=
  filter (fun o => N.eqb (o_user_id o) uid) l.

(** [orders_collection.find({"user_id": uid}).sort("created_at", -1)
    .to_list()] *)
Definition find_orders (uid : oid) : M (list (Order num)) :=
  store_call (FindOne Orders) ;;;
  gets (fun w => sort_created_at_desc (orders_of_user (orders w) uid)).

Record OrdersResponse := mkOrdersResponse {
  or_user_id : string;
  or_orders : list OrderOut;
  or_total_orders : Z
}.

Definition get_user_orders (user_id : string) : M OrdersResponse :=
  if negb (is_valid user_id)
  then raise (HTTPException HTTP_422_UNPROCESSABLE_ENTITY "Invalid user ID")
  else
  orders <- find_orders (ObjectId user_id) ;;
  ret (mkOrdersResponse user_id (map replace_mongo_id_order orders)
         (Z.of_nat (length orders))).

(** Strings as the store compares them, byte by byte; [a] is listed
    before [b] when [b] was not created after [a]. *)
Definition not_older (a b : Order num) : Prop :=
  String.leb (o_created_at b) (o_created_at a) = true.

(** The sort the store performs: a rearrangement in which every document
    is followed by one that is not newer. *)
Definition sorts_newest_first : Prop :=
  forall l, Permutation l (sort_created_at_desc l) /\
            Sorted not_older (sort_created_at_desc l).

End OrderHistory.

Section MoreNotions.

Context {E : Env}.

(** Every user has at most one cart. *)
Definition one_cart_per_user (w : W) : Prop :=
  NoDup (map cart_user_id (carts w)).

(** [l'] is [l] with documents added at the end. *)
Definition extends {A} (l l' : list A) : Prop := exists more, l' = l ++ more.

(** The identifier strings the handlers hand out are accepted back:
    [str] of an identifier is well formed and reads as that identifier. *)
Definition id_round_trip (i : oid) : Prop :=
  is_valid (str i) = true /\ ObjectId (str i) = i.

(** Every run of [m] relates the store before to the store after by
    [R], whatever is returned or raised. *)
Definition preserves {A} (R : W -> W -> Prop) (m : M A) : Prop :=
  forall w r w', m w = (r, w') -> R w w'.

(** Only carts may differ. *)
Definition same_but_carts (w w' : W) : Prop :=
  products w' = products w /\ users w' = users w /\ orders w' = orders w.

(** Products and orders are the same; users and carts may differ. *)
Definition same_catalog_and_orders (w w' : W) : Prop :=
  products w' = products w /\ orders w' = orders w.

(** Products and users are the same; carts and orders may differ. *)
Definition same_catalog_and_users (w w' : W) : Prop :=
  products w' = products w /\ users w' = users w.

End MoreNotions.

(** ** The integers the store can hold *)

(** The sum of a list of integers, by recursion on the list. *)
Fixpoint Zsum (l : list Z) : Z :=
  match l with
  | [] => 0
  | x :: rest => x + Zsum rest
  end.

(** A document's integers are written as signed 64-bit values; the
    driver raises [OverflowError] for any other. *)
Definition int64 (z : Z) : bool :=
  (- 2 ^ 63 <=? z) && (z <? 2 ^ 63).

(** Every quantity of the list can be written. *)
Definition encodable (items : list CartItem) : bool :=
  forallb (fun i => int64 (item_quantity i)) items.

Section Int64Store.

Context {E : Env}.

Notation "x <- m ;; k" := (bind m (fun x => k))
  (at level 61, m at next level, right associativity).
Notation "m ;;; k" := (bind m (fun _ => k))
  (at level 61, right associativity).

(** [insert_one] and [update_one] of a cart document, with the encoding
    of the document's integers: the call is made, and a list with a
    quantity that does not fit raises before anything is written. *)
Definition insert_cart_int64 (uid : oid) (items : list CartItem)
  (updated_at : string) : M oid :=
  if encodable items
  then insert_cart uid items updated_at
  else store_call (InsertOne Carts) ;;; raise OverflowError.

Definition update_cart_int64 (sel : Cart -> bool) (items : list CartItem)
  (updated_at : string) : M unit :=
  if encodable items
  then update_cart sel items updated_at
  else store_call (UpdateOne Carts) ;;; raise OverflowError.

(** [add_to_cart] over the store that encodes integers: the handler of
    [main.py] as above, its two writes going through the encoding. *)
Definition add_to_cart_int64 (user_id product_id : string) (quantity : Z)
  : M string :=
  if negb (is_valid user_id)
  then raise (HTTPException HTTP_422_UNPROCESSABLE_ENTITY "Invalid user ID")
  else
  if negb (is_valid product_id)
  then raise (HTTPException HTTP_422_UNPROCESSABLE_ENTITY
                "Invalid product ID")
  else
  product <- find_product (ObjectId product_id) ;;
  match product with
  | None => raise (HTTPException HTTP_404_NOT_FOUND "Product not found")
  | Some _ =>
      cart <- find_cart (ObjectId user_id) ;;
      match cart with
      | None =>
          updated_at <- now ;;
          insert_cart_int64 (ObjectId user_id)
            [mkCartItem (ObjectId product_id) quantity] updated_at ;;;
          ret "Product added to cart successfully"%string
      | Some c =>
          let items := merge_item (ObjectId product_id) quantity
                         (cart_items c) in
          updated_at <- now ;;
          update_cart_int64 (fun d => N.eqb (cart_id d) (cart_id c))
            items updated_at ;;;
          ret "Product added to cart successfully"%string
      end
  end.

End Int64Store.

(** ** A concrete environment and store

    Amounts are integers (cents); an identifier is valid when it has 24
    characters and is read as a hexadecimal number; store call number [n]
    raises when [bad n]. *)

Definition demo_env (bad : nat -> bool) : Env := {|
  num := Z;
  num_zero := 0;
  num_add := Z.add;
  num_mul := Z.mul;
  is_valid := fun s => Nat.eqb (String.length s) 24;
  ObjectId := fun s => HexString.Raw.to_N s 0%N;
  str := HexString.of_N;
  hash_password := fun s => String.append "hash:" s;
  verify_password := fun p h => String.eqb h (String.append "hash:" p);
  ProductOut := Product Z;
  replace_mongo_id := fun p => p;
  utcnow := fun n => String.append "2024-01-01T00:00:0" (HexString.of_nat n);
  gen_id := fun n => (4096 + N.of_nat n)%N;
  faulty := bad
|}.

Definition never : nat -> bool := fun _ => false.

Definition alice_id : string := "0000000000000000000000a1".
Definition bob_id : string := "0000000000000000000000b2".
Definition laptop_id : string := "000000000000000000000001".
Definition mug_id : string := "000000000000000000000002".
Definition gone_id : string := "000000000000000000000003".

Definition demo_products : list (Product Z) :=
  [ mkProduct 1%N "Laptop" "High-performance gaming laptop" 99999
      "https://example.com/laptop.jpg" "Electronics";
    mkProduct 2%N "Coffee Mug" "Ceramic coffee mug with handle" 1299
      "https://example.com/mug.jpg" "Home" ].

Definition demo_users : list User :=
  [ mkUser 161%N "alice" "alice@example.com" "hash:secret" "2023-12-31" ].

(** Alice's cart holds two laptops and three of a product that is gone. *)
Definition demo_world : World Z :=
  mkWorld demo_products demo_users
    [ mkCart 500%N 161%N [mkCartItem 1%N 2; mkCartItem 3%N 3] "2023-12-31" ]
    [] 0.

(** Alice's cart holds two laptops and one mug. *)
Definition demo_world_full : World Z :=
  mkWorld demo_products demo_users
    [ mkCart 500%N 161%N [mkCartItem 1%N 2; mkCartItem 2%N 1] "2023-12-31" ]
    [] 0.

(** Alice's cart only holds a product that is gone. *)
Definition demo_world_stale : World Z :=
  mkWorld demo_products demo_users
    [ mkCart 500%N 161%N [mkCartItem 3%N 3] "2023-12-31" ]
    [] 0.

(** Alice's cart is empty. *)
Definition demo_world_empty : World Z :=
  mkWorld demo_products demo_users
    [ mkCart 500%N 161%N [] "2023-12-31" ]
    [] 0.

(** The order history at the concrete store: documents are sorted by
    insertion, newest first. *)

Fixpoint insert_newest_first (o : Order Z) (l : list (Order Z))
  : list (Order Z) :=
  match l with
  | [] => [o]
  | x :: rest =>
      if String.leb (o_created_at x) (o_created_at o)
      then o :: l
      else x :: insert_newest_first o rest
  end.

Fixpoint sort_newest_first (l : list (Order Z)) : list (Order Z) :=
  match l with
  | [] => []
  | o :: rest => insert_newest_first o (sort_newest_first rest)
  end.

Definition demo_orders_env (bad : nat -> bool)
  : OrdersEnv (E := demo_env bad) :=
  @Build_OrdersEnv (demo_env bad) (Order Z) (fun o => o) sort_newest_first.

(** Alice has two orders, Bob one. *)
Definition demo_orders : list (Order Z) :=
  [ mkOrder 900%N 161%N [] 0 "completed" "2023-11-01";
    mkOrder 901%N 178%N [] 0 "completed" "2023-11-15";
    mkOrder 902%N 161%N [] 0 "completed" "2023-12-24" ].

Definition demo_world_history : World Z :=
  mkWorld demo_products demo_users
    [ mkCart 500%N 161%N [mkCartItem 1%N 2; mkCartItem 3%N 3] "2023-12-31" ]
    demo_orders 0.

(** A second concrete environment, in which the identifier strings
    handed out are accepted back: [str] writes 24 hexadecimal digits. *)

Fixpoint zeros (k : nat) : string :=
  match k with
  | O => EmptyString
  | S k' => String "0"%char (zeros k')
  end.

Definition str24 (n : N) : string :=
  let digits :=
    match n with
    | N0 => EmptyString
    | Npos p => HexString.Raw.of_pos p EmptyString
    end in
  String.append (zeros (24 - String.length digits)) digits.

Definition demo_env_rt (bad : nat -> bool) : Env := {|
  num := Z;
  num_zero := 0;
  num_add := Z.add;
  num_mul := Z.mul;
  is_valid := fun s => Nat.eqb (String.length s) 24;
  ObjectId := fun s => HexString.Raw.to_N s 0%N;
  str := str24;
  hash_password := fun s => String.append "hash:" s;
  verify_password := fun p h => String.eqb h (String.append "hash:" p);
  ProductOut := Product Z;
  replace_mongo_id := fun p => p;
  utcnow := fun n => String.append "2024-01-01T00:00:0" (HexString.of_nat n);
  gen_id := fun n => (4096 + N.of_nat n)%N;
  faulty := bad
|}.

(** Alice and Bob both have a cart. *)
Definition demo_world_two : World Z :=
  mkWorld demo_products demo_users
    [ mkCart 500%N 161%N [mkCartItem 1%N 2; mkCartItem 3%N 3] "2023-12-31";
      mkCart 501%N 178%N [mkCartItem 2%N 1] "2023-12-31" ]
    [] 0.

(** Alice's cart holds a number of laptops close to the largest the
    store can hold. *)
Definition demo_world_big : World Z :=
  mkWorld demo_products demo_users
    [ mkCart 500%N 161%N [mkCartItem 1%N 9223372036854775800] "2023-12-31" ]
    [] 0.

(** * Properties *)

Section Properties.

Context {E : Env}.

(** ** Running the monad *)

Lemma bind_ok {A B} (m : M A) (k : A -> M B) w a w' :
  m w = (Ok a, w') -> bind m k w = k a w'.
Proof. intros H. unfold bind. rewrite H. reflexivity. Qed.

(** Every run of [bind] is a failed first part or a second part run
    after a successful first part. *)
Lemma bind_inv {A B} (m : M A) (k : A -> M B) w r w' :
  bind m k w = (r, w') ->
  (exists e, m w = (Raise e, w') /\ r = Raise e) \/
  (exists a w1, m w = (Ok a, w1) /\ k a w1 = (r, w')).
Proof.
  unfold bind. destruct (m w) as [[a|e] w1]; intros H.
  - right. eauto.
  - left. inversion H; subst. eauto.
Qed.

(** ** The store operations when no call raises *)

Section NoFaults.

Hypothesis NF : no_faults.

Lemma run_store_call op w :
  store_call op w = (Ok (steps w), set_steps w (S (steps w))).
Proof.
  unfold store_call, bind, tick. rewrite NF. reflexivity.
Qed.

Lemma run_find_product pid w :
  find_product pid w =
  (Ok (product_by_id (products w) pid), set_steps w (S (steps w))).
Proof.
  unfold find_product. rewrite (bind_ok _ _ _ _ _ (run_store_call _ w)).
  reflexivity.
Qed.

Lemma run_find_user a b w :
  find_user a b w =
  (Ok (user_matching (users w) a b), set_steps w (S (steps w))).
Proof.
  unfold find_user. rewrite (bind_ok _ _ _ _ _ (run_store_call _ w)).
  reflexivity.
Qed.

Lemma run_find_cart uid w :
  find_cart uid w =
  (Ok (cart_of_user (carts w) uid), set_steps w (S (steps w))).
Proof.
  unfold find_cart. rewrite (bind_ok _ _ _ _ _ (run_store_call _ w)).
  reflexivity.
Qed.

Lemma run_update_cart sel items t w :
  update_cart sel items t w =
  (Ok tt, set_carts (set_steps w (S (steps w)))
            (set_first sel items t (carts w))).
Proof.
  unfold update_cart. rewrite (bind_ok _ _ _ _ _ (run_store_call _ w)).
  reflexivity.
Qed.

End NoFaults.

Lemma run_now w :
  now w = (Ok (utcnow (steps w)), set_steps w (S (steps w))).
Proof. reflexivity. Qed.

Lemma existsb_fresh {A} (f : A -> oid) (l : list A) (i : oid) :
  ~ In i (map f l) -> existsb (fun x => N.eqb (f x) i) l = false.
Proof.
  intros H. destruct (existsb _ l) eqn:Ex; [|reflexivity].
  apply existsb_exists in Ex. destruct Ex as [x [Hx Hi]].
  apply N.eqb_eq in Hi. exfalso. apply H. rewrite <- Hi.
  apply in_map. exact Hx.
Qed.

Lemma run_insert_user (NF : no_faults) a b p t w :
  ~ In (gen_id (steps w)) (map u_id (users w)) ->
  insert_user a b p t w =
  (Ok (gen_id (steps w)),
   set_users (set_steps w (S (steps w)))
     (users w ++ [mkUser (gen_id (steps w)) a b p t])).
Proof.
  intros F. unfold insert_user.
  rewrite (bind_ok _ _ _ _ _ (run_store_call NF _ w)).
  unfold bind, gets. simpl. rewrite (existsb_fresh _ _ _ F). reflexivity.
Qed.

Lemma run_insert_cart (NF : no_faults) uid items t w :
  ~ In (gen_id (steps w)) (map cart_id (carts w)) ->
  insert_cart uid items t w =
  (Ok (gen_id (steps w)),
   set_carts (set_steps w (S (steps w)))
     (carts w ++ [mkCart (gen_id (steps w)) uid items t])).
Proof.
  intros F. unfold insert_cart.
  rewrite (bind_ok _ _ _ _ _ (run_store_call NF _ w)).
  unfold bind, gets. simpl. rewrite (existsb_fresh _ _ _ F). reflexivity.
Qed.

Lemma run_insert_order (NF : no_faults) uid items total st t w :
  ~ In (gen_id (steps w)) (map o_id (orders w)) ->
  insert_order uid items total st t w =
  (Ok (gen_id (steps w)),
   set_orders (set_steps w (S (steps w)))
     (orders w ++ [mkOrder (gen_id (steps w)) uid items total st t])).
Proof.
  intros F. unfold insert_order.
  rewrite (bind_ok _ _ _ _ _ (run_store_call NF _ w)).
  unfold bind, gets. simpl. rewrite (existsb_fresh _ _ _ F). reflexivity.
Qed.

(** ** The loops of [checkout] and [get_cart] when no call raises *)

Lemma run_checkout_loop (NF : no_faults) items :
  forall acc tot (w : W),
    checkout_loop items acc tot w =
    (Ok (acc ++ joined snapshot (products w) items,
         fold_left num_add
           (map ol_subtotal (joined snapshot (products w) items)) tot),
     set_steps w (steps w + length items)).
Proof.
  induction items as [|i rest IH]; intros acc tot w.
  - simpl. unfold ret. rewrite app_nil_r, Nat.add_0_r.
    destruct w; reflexivity.
  - cbn [checkout_loop joined].
    rewrite (bind_ok _ _ _ _ _ (run_find_product NF _ w)).
    destruct (product_by_id (products w) (item_product_id i)) as [p|];
      rewrite IH; cbn [products set_steps steps length map fold_left];
      rewrite <- ?app_assoc; cbn [app];
      replace (S (steps w) + length rest)%nat
        with (steps w + S (length rest))%nat by lia;
      reflexivity.
Qed.

Lemma run_get_cart_loop (NF : no_faults) items :
  forall acc (w : W),
    get_cart_loop items acc w =
    (Ok (acc ++ joined cart_line (products w) items),
     set_steps w (steps w + length items)).
Proof.
  induction items as [|i rest IH]; intros acc w.
  - simpl. unfold ret. rewrite app_nil_r, Nat.add_0_r.
    destruct w; reflexivity.
  - cbn [get_cart_loop joined].
    rewrite (bind_ok _ _ _ _ _ (run_find_product NF _ w)).
    destruct (product_by_id (products w) (item_product_id i)) as [p|];
      rewrite IH; cbn [products set_steps steps length];
      rewrite <- ?app_assoc; cbn [app];
      replace (S (steps w) + length rest)%nat
        with (steps w + S (length rest))%nat by lia;
      reflexivity.
Qed.

Lemma is_empty_false {A} (l : list A) : l <> [] -> is_empty l = false.
Proof. destruct l; [congruence | reflexivity]. Qed.

(** What [checkout] returns and writes on a non-empty cart when no store
    call raises and the generated order identifier is new. *)
Lemma run_checkout (NF : no_faults) (w : W) user_id c :
  is_valid user_id = true ->
  cart_of_user (carts w) (ObjectId user_id) = Some c ->
  cart_items c <> [] ->
  fresh_for (map o_id (orders w)) ->
  let lines := joined snapshot (products w) (cart_items c) in
  let total := sum_num (map ol_subtotal lines) in
  let n := (steps w + length (cart_items c))%nat in
  checkout user_id w =
  (Ok (mkCheckoutResponse "Checkout successful" (str (gen_id (n + 2)))
         (mkOrderSummary lines total (sum_Z (map ol_quantity lines)))),
   mkWorld (products w) (users w)
     (set_first (fun d => N.eqb (cart_user_id d) (ObjectId user_id)) []
        (utcnow (n + 3)) (carts w))
     (orders w ++
        [mkOrder (gen_id (n + 2)) (ObjectId user_id) lines total
           "completed" (utcnow (n + 1))])
     (n + 5)).
Proof.
  intros V Hc Hne F lines total n. unfold checkout. rewrite V. cbn [negb].
  rewrite (bind_ok _ _ _ _ _ (run_find_cart NF _ w)), Hc.
  rewrite (is_empty_false _ Hne).
  rewrite (bind_ok _ _ _ _ _ (run_checkout_loop NF _ _ _ _)).
  cbn [app products set_steps steps].
  rewrite (bind_ok _ _ _ _ _ (run_now _)).
  cbn [products set_steps steps orders users carts].
  erewrite bind_ok; [|apply (run_insert_order NF); apply F].
  rewrite (bind_ok _ _ _ _ _ (run_now _)).
  rewrite (bind_ok _ _ _ _ _ (run_update_cart NF _ _ _ _)).
  unfold ret, set_carts, set_orders, set_steps, sum_num.
  cbn [products steps orders users carts].
  subst lines total n.
  replace (S (S (steps w) + length (cart_items c)))%nat
    with (steps w + length (cart_items c) + 2)%nat by lia.
  replace (S (steps w) + length (cart_items c))%nat
    with (steps w + length (cart_items c) + 1)%nat by lia.
  replace (S (steps w + length (cart_items c) + 2))%nat
    with (steps w + length (cart_items c) + 3)%nat by lia.
  replace (S (steps w + length (cart_items c) + 3))%nat
    with (steps w + length (cart_items c) + 4)%nat by lia.
  replace (S (steps w + length (cart_items c) + 4))%nat
    with (steps w + length (cart_items c) + 5)%nat by lia.
  reflexivity.
Qed.

(** ** Sums and joins *)

Lemma fold_add_from l : forall a, fold_left Z.add l a = a + sum_Z l.
Proof.
  unfold sum_Z. induction l as [|x l IH]; intros a; simpl.
  - lia.
  - rewrite IH, (IH x). lia.
Qed.

Lemma sum_Z_cons x l : sum_Z (x :: l) = x + sum_Z l.
Proof. unfold sum_Z at 1. simpl. apply fold_add_from. Qed.

Lemma joined_snapshot_resolving ps items :
  Forall2 (is_snapshot ps) (resolving ps items) (joined snapshot ps items).
Proof.
  induction items as [|i rest IH]; simpl.
  - constructor.
  - destruct (product_by_id ps (item_product_id i)) as [p|] eqn:Hp.
    + constructor; [|exact IH]. exists p. simpl. tauto.
    + exact IH.
Qed.

Lemma joined_cart_line_resolving ps items :
  Forall2 (is_cart_line ps) (resolving ps items)
    (joined cart_line ps items).
Proof.
  induction items as [|i rest IH]; simpl.
  - constructor.
  - destruct (product_by_id ps (item_product_id i)) as [p|] eqn:Hp.
    + constructor; [|exact IH]. exists p. simpl. tauto.
    + exact IH.
Qed.

Lemma resolving_all ps items :
  (forall i, In i items -> product_by_id ps (item_product_id i) <> None) ->
  resolving ps items = items.
Proof.
  induction items as [|i rest IH]; intros H; simpl.
  - reflexivity.
  - destruct (product_by_id ps (item_product_id i)) eqn:Hp.
    + f_equal. apply IH. intros j Hj. apply H. right. exact Hj.
    + exfalso. apply (H i); [left; reflexivity | exact Hp].
Qed.

Lemma joined_none {L} (mk : Product num -> CartItem -> L) ps items :
  (forall i, In i items -> product_by_id ps (item_product_id i) = None) ->
  joined mk ps items = [].
Proof.
  induction items as [|i rest IH]; intros H; simpl.
  - reflexivity.
  - rewrite (H i (or_introl eq_refl)). apply IH.
    intros j Hj. apply H. right. exact Hj.
Qed.

Lemma joined_quantities ps items :
  sum_Z (map item_quantity items) =
  sum_Z (map cl_quantity (joined cart_line ps items)) +
  sum_Z (map item_quantity (stale ps items)).
Proof.
  induction items as [|i rest IH]; simpl.
  - reflexivity.
  - destruct (product_by_id ps (item_product_id i)); simpl;
      rewrite !sum_Z_cons, IH; lia.
Qed.

(** ** Rewriting the first cart of a user *)

Lemma cart_of_user_set_first uid items t l c :
  cart_of_user l uid = Some c ->
  cart_of_user
    (set_first (fun d => N.eqb (cart_user_id d) uid) items t l) uid =
  Some (mkCart (cart_id c) (cart_user_id c) items t).
Proof.
  unfold cart_of_user. induction l as [|d rest IH]; simpl; intros H.
  - discriminate.
  - destruct (N.eqb (cart_user_id d) uid) eqn:Hd; simpl.
    + inversion H; subst. rewrite Hd. reflexivity.
    + rewrite Hd. apply IH. exact H.
Qed.

(** ** Checkout of a cart whose products all resolve *)

(** What [sum(...)] computes is the sum of the list. *)
Lemma sum_Z_Zsum l : sum_Z l = Zsum l.
Proof.
  induction l as [|x rest IH].
  - reflexivity.
  - rewrite sum_Z_cons, IH. reflexivity.
Qed.

Lemma joined_snapshot_Zsum ps items :
  Zsum (map ol_quantity (joined snapshot ps items)) =
  Zsum (map item_quantity (resolving ps items)).
Proof.
  induction items as [|i rest IH]; simpl.
  - reflexivity.
  - destruct (product_by_id ps (item_product_id i)); simpl;
      rewrite ?IH; reflexivity.
Qed.

(** C1.  On a cart with N stored entries (N >= 1, the cart [checkout]
    accepts), each of whose products resolves, when no store call raises
    and the generated order identifier is new, [checkout] succeeds and
    appends one order to the collection; the order has exactly N lines,
    the k-th line is the snapshot of the k-th stored entry with subtotal
    = the product's current price times the stored quantity; the
    order's [total_amount] is the sum of its lines' subtotals (added
    from 0 in order); the response repeats lines and total, and its
    [total_items] is the sum of the lines' quantities, which here is the
    sum of the stored quantities. *)
Theorem checkout_all_resolving (w : W) user_id c :
  no_faults ->
  fresh_for (map o_id (orders w)) ->
  is_valid user_id = true ->
  cart_of_user (carts w) (ObjectId user_id) = Some c ->
  cart_items c <> [] ->
  (forall i, In i (cart_items c) ->
             product_by_id (products w) (item_product_id i) <> None) ->
  exists resp o w',
    checkout user_id w = (Ok resp, w') /\
    orders w' = orders w ++ [o] /\
    o_user_id o = ObjectId user_id /\
    co_order_id resp = str (o_id o) /\
    length (o_items o) = length (cart_items c) /\
    Forall2 (is_snapshot (products w)) (cart_items c) (o_items o) /\
    o_total_amount o = sum_num (map ol_subtotal (o_items o)) /\
    sum_items (co_order_summary resp) = o_items o /\
    sum_total_amount (co_order_summary resp) = o_total_amount o /\
    sum_total_items (co_order_summary resp) =
      Zsum (map ol_quantity (o_items o)) /\
    sum_total_items (co_order_summary resp) =
      Zsum (map item_quantity (cart_items c)).
Proof.
  intros NF F V Hc Hne Hall.
  pose proof (run_checkout NF w user_id c V Hc Hne F) as R.
  cbv zeta in R.
  pose proof (joined_snapshot_resolving (products w) (cart_items c)) as J.
  rewrite (resolving_all _ _ Hall) in J.
  eexists _, _, _. split; [exact R|].
  cbn [orders o_user_id o_id o_items o_total_amount co_order_id
       co_order_summary sum_items sum_total_amount sum_total_items].
  split; [reflexivity|]. split; [reflexivity|]. split; [reflexivity|].
  split; [symmetry; eapply Forall2_length; exact J|].
  split; [exact J|].
  split; [reflexivity|]. split; [reflexivity|]. split; [reflexivity|].
  split; [apply sum_Z_Zsum|].
  rewrite sum_Z_Zsum, joined_snapshot_Zsum, (resolving_all _ _ Hall).
  reflexivity.
Qed.

(** ** Checkout of a cart all of whose products are gone *)

(** C9.  On a non-empty cart none of whose entries resolves, when no
    store call raises and the generated order identifier is new,
    [checkout] does not fail: it appends an order with no lines and
    [total_amount] 0, reports no lines, total 0 and [total_items] 0, and
    the user's cart is left with an empty [items] list. *)
Theorem checkout_all_stale (w : W) user_id c :
  no_faults ->
  fresh_for (map o_id (orders w)) ->
  is_valid user_id = true ->
  cart_of_user (carts w) (ObjectId user_id) = Some c ->
  cart_items c <> [] ->
  (forall i, In i (cart_items c) ->
             product_by_id (products w) (item_product_id i) = None) ->
  exists resp o w' c',
    checkout user_id w = (Ok resp, w') /\
    orders w' = orders w ++ [o] /\
    o_user_id o = ObjectId user_id /\
    o_items o = [] /\
    o_total_amount o = num_zero /\
    sum_items (co_order_summary resp) = [] /\
    sum_total_amount (co_order_summary resp) = num_zero /\
    sum_total_items (co_order_summary resp) = 0 /\
    cart_of_user (carts w') (ObjectId user_id) = Some c' /\
    cart_id c' = cart_id c /\
    cart_items c' = [].
Proof.
  intros NF F V Hc Hne Hall.
  pose proof (run_checkout NF w user_id c V Hc Hne F) as R.
  cbv zeta in R. rewrite (joined_none snapshot _ _ Hall) in R.
  eexists _, _, _, (mkCart (cart_id c) (cart_user_id c) [] _).
  split; [exact R|]. cbn [orders carts].
  split; [reflexivity|]. cbn.
  repeat split; try reflexivity.
  apply cart_of_user_set_first. exact Hc.
Qed.

(** ** The cart view *)

Lemma run_get_cart (NF : no_faults) (w : W) user_id c :
  is_valid user_id = true ->
  cart_of_user (carts w) (ObjectId user_id) = Some c ->
  cart_items c <> [] ->
  get_cart user_id w =
  (Ok (CartContents user_id
         (joined cart_line (products w) (cart_items c))
         (sum_Z (map item_quantity (cart_items c)))),
   set_steps w (steps w + length (cart_items c) + 1)).
Proof.
  intros V Hc Hne. unfold get_cart. rewrite V. cbn [negb].
  rewrite (bind_ok _ _ _ _ _ (run_find_cart NF _ w)), Hc.
  rewrite (is_empty_false _ Hne).
  rewrite (bind_ok _ _ _ _ _ (run_get_cart_loop NF _ _ _)).
  unfold ret. cbn [app products set_steps steps].
  replace (S (steps w) + length (cart_items c))%nat
    with (steps w + length (cart_items c) + 1)%nat by lia.
  reflexivity.
Qed.

(** C5.  On a non-empty cart, when no store call raises, [get_cart]
    succeeds and changes no collection; its lines are, in order, those
    of the stored entries whose product resolves (the others are left
    out), each with subtotal = the product's current price times the
    stored quantity; [total_items] is the sum of the quantities of all
    stored entries, which is the sum over the returned lines plus the
    quantities of the entries left out. *)
Theorem get_cart_joins_and_counts_stored (w : W) user_id c :
  no_faults ->
  is_valid user_id = true ->
  cart_of_user (carts w) (ObjectId user_id) = Some c ->
  cart_items c <> [] ->
  exists lines total w',
    get_cart user_id w = (Ok (CartContents user_id lines total), w') /\
    same_store w w' /\
    Forall2 (is_cart_line (products w))
      (resolving (products w) (cart_items c)) lines /\
    total = sum_Z (map item_quantity (cart_items c)) /\
    total = sum_Z (map cl_quantity lines) +
            sum_Z (map item_quantity (stale (products w) (cart_items c))).
Proof.
  intros NF V Hc Hne.
  eexists _, _, _. split; [apply (run_get_cart NF _ _ _ V Hc Hne)|].
  split; [repeat split|].
  split; [apply joined_cart_line_resolving|].
  split; [reflexivity | apply joined_quantities].
Qed.

(** ** The merge of [add_to_cart] *)

Lemma bump_fst_ids pid q items :
  map item_product_id (fst (bump pid q items)) = map item_product_id items.
Proof.
  induction items as [|i rest IH]; simpl.
  - reflexivity.
  - destruct (N.eqb (item_product_id i) pid).
    + reflexivity.
    + destruct (bump pid q rest) as [r b]. simpl in *. now rewrite IH.
Qed.

Lemma bump_absent pid q items :
  ~ In pid (map item_product_id items) -> bump pid q items = (items, false).
Proof.
  induction items as [|i rest IH]; simpl; intros H.
  - reflexivity.
  - destruct (N.eqb (item_product_id i) pid) eqn:Hi.
    + apply N.eqb_eq in Hi. tauto.
    + rewrite IH by tauto. reflexivity.
Qed.

Lemma bump_present pid q items :
  In pid (map item_product_id items) -> snd (bump pid q items) = true.
Proof.
  induction items as [|i rest IH]; simpl; intros H.
  - contradiction.
  - destruct (N.eqb (item_product_id i) pid) eqn:Hi.
    + reflexivity.
    + apply N.eqb_neq in Hi. destruct H as [H|H]; [congruence|].
      specialize (IH H). destruct (bump pid q rest). exact IH.
Qed.

Lemma merge_item_absent pid q items :
  ~ In pid (map item_product_id items) ->
  merge_item pid q items = items ++ [mkCartItem pid q].
Proof.
  intros H. unfold merge_item. rewrite (bump_absent _ _ _ H). reflexivity.
Qed.

Lemma merge_item_present_ids pid q items :
  In pid (map item_product_id items) ->
  map item_product_id (merge_item pid q items) = map item_product_id items.
Proof.
  intros H. unfold merge_item.
  pose proof (bump_present pid q items H) as Hb.
  pose proof (bump_fst_ids pid q items) as Hf.
  destruct (bump pid q items) as [r b]. simpl in *. subst b. exact Hf.
Qed.

(** The merge keeps a list without repeated products such. *)
Lemma merge_item_NoDup pid q items :
  NoDup (map item_product_id items) ->
  NoDup (map item_product_id (merge_item pid q items)).
Proof.
  intros H. destruct (in_dec N.eq_dec pid (map item_product_id items)) as [Hin|Hn].
  - rewrite merge_item_present_ids; assumption.
  - rewrite merge_item_absent by assumption.
    rewrite map_app. simpl. apply NoDup_app; [exact H | | ].
    + constructor; [simpl; tauto | constructor].
    + intros x Hx [Hy|[]]. subst x. simpl in Hn. tauto.
Qed.

Lemma bump_entries pid q items :
  entries_of pid (fst (bump pid q items)) =
    match entries_of pid items with
    | [] => []
    | e :: es => mkCartItem (item_product_id e) (item_quantity e + q) :: es
    end /\
  snd (bump pid q items) = negb (is_empty (entries_of pid items)).
Proof.
  unfold entries_of. induction items as [|i rest [IH1 IH2]]; simpl.
  - split; reflexivity.
  - destruct (N.eqb (item_product_id i) pid) eqn:Hi; simpl.
    + rewrite Hi. split; reflexivity.
    + destruct (bump pid q rest) as [r b]. simpl in *. rewrite Hi.
      split; assumption.
Qed.

Lemma entries_of_app pid l1 l2 :
  entries_of pid (l1 ++ l2) = entries_of pid l1 ++ entries_of pid l2.
Proof. apply filter_app. Qed.

(** The entries of the merged product: a new one when there was none,
    otherwise the first one with the quantity added. *)
Lemma merge_item_entries pid q items :
  entries_of pid (merge_item pid q items) =
    match entries_of pid items with
    | [] => [mkCartItem pid q]
    | e :: es => mkCartItem (item_product_id e) (item_quantity e + q) :: es
    end.
Proof.
  unfold merge_item. destruct (bump_entries pid q items) as [H1 H2].
  destruct (bump pid q items) as [r b]. simpl in *. subst b.
  destruct (entries_of pid items) as [|e es] eqn:He; simpl.
  - rewrite entries_of_app, H1. unfold entries_of. simpl.
    rewrite N.eqb_refl. reflexivity.
  - exact H1.
Qed.

Lemma bump_other pid pid' q items :
  pid' <> pid ->
  entries_of pid' (fst (bump pid q items)) = entries_of pid' items.
Proof.
  intros Hne. unfold entries_of.
  induction items as [|i rest IH]; simpl.
  - reflexivity.
  - destruct (N.eqb (item_product_id i) pid) eqn:Hi; simpl.
    + apply N.eqb_eq in Hi.
      assert (Hf : N.eqb (item_product_id i) pid' = false)
        by (apply N.eqb_neq; congruence).
      rewrite Hf. reflexivity.
    + destruct (bump pid q rest) as [r b]. simpl in *. rewrite IH.
      reflexivity.
Qed.

(** The entries of the other products are not touched. *)
Lemma merge_item_other pid pid' q items :
  pid' <> pid ->
  entries_of pid' (merge_item pid q items) = entries_of pid' items.
Proof.
  intros Hne. unfold merge_item.
  pose proof (bump_other pid pid' q items Hne) as H.
  destruct (bump pid q items) as [r b]. simpl in *.
  destruct b; simpl; [exact H|].
  rewrite entries_of_app, H. unfold entries_of at 2. simpl.
  assert (Hf : N.eqb pid pid' = false) by (apply N.eqb_neq; congruence).
  rewrite Hf. apply app_nil_r.
Qed.

Lemma stored_quantity_entries pid items :
  stored_quantity pid items =
  match entries_of pid items with
  | [] => 0
  | e :: _ => item_quantity e
  end.
Proof.
  unfold stored_quantity, entries_of.
  induction items as [|i rest IH]; simpl.
  - reflexivity.
  - destruct (N.eqb (item_product_id i) pid); [reflexivity | exact IH].
Qed.

(** The quantity stored for the merged product grows by the amount
    added. *)
Lemma merge_item_stored pid q items :
  stored_quantity pid (merge_item pid q items) =
  stored_quantity pid items + q.
Proof.
  rewrite !stored_quantity_entries, merge_item_entries.
  destruct (entries_of pid items); simpl; lia.
Qed.

Lemma entries_of_nil pid items :
  ~ In pid (map item_product_id items) -> entries_of pid items = [].
Proof.
  unfold entries_of. induction items as [|i rest IH]; simpl; intros H.
  - reflexivity.
  - destruct (N.eqb (item_product_id i) pid) eqn:Hi.
    + apply N.eqb_eq in Hi. tauto.
    + apply IH. tauto.
Qed.

Lemma entries_of_NoDup pid items :
  NoDup (map item_product_id items) ->
  (length (entries_of pid items) <= 1)%nat.
Proof.
  induction items as [|i rest IH]; simpl; intros H.
  - lia.
  - inversion H as [|x l Hx Hl]; subst.
    unfold entries_of in *. simpl.
    destruct (N.eqb (item_product_id i) pid) eqn:Hi.
    + apply N.eqb_eq in Hi. subst pid.
      fold (entries_of (item_product_id i) rest).
      rewrite (entries_of_nil _ _ Hx). simpl. lia.
    + apply IH. exact Hl.
Qed.

(** After a merge into a cart without repeated products, the product
    has exactly one entry. *)
Lemma merge_item_single pid q items :
  NoDup (map item_product_id items) ->
  length (entries_of pid (merge_item pid q items)) = 1%nat.
Proof.
  intros H. rewrite merge_item_entries.
  pose proof (entries_of_NoDup pid items H) as L.
  destruct (entries_of pid items) as [|e es]; simpl in *; lia.
Qed.

(** ** Rewriting a cart selected by its [_id] *)

Lemma set_first_ids sel items t l :
  map cart_id (set_first sel items t l) = map cart_id l.
Proof.
  induction l as [|d rest IH]; simpl.
  - reflexivity.
  - destruct (sel d); simpl; [reflexivity | now rewrite IH].
Qed.

Lemma cart_of_user_in l uid c :
  cart_of_user l uid = Some c -> In c l /\ cart_user_id c = uid.
Proof.
  unfold cart_of_user. intros H. apply find_some in H.
  destruct H as [H1 H2]. apply N.eqb_eq in H2. tauto.
Qed.

(** With distinct [_id]s, the update by [_id] of the cart found for a
    user rewrites that very cart. *)
Lemma cart_of_user_set_first_id uid items t l c :
  NoDup (map cart_id l) ->
  cart_of_user l uid = Some c ->
  cart_of_user
    (set_first (fun d => N.eqb (cart_id d) (cart_id c)) items t l) uid =
  Some (mkCart (cart_id c) (cart_user_id c) items t).
Proof.
  unfold cart_of_user. induction l as [|d rest IH]; simpl; intros ND H.
  - discriminate.
  - inversion ND as [|x l' Hx Hl]; subst.
    destruct (N.eqb (cart_user_id d) uid) eqn:Hd.
    + inversion H; subst. rewrite N.eqb_refl. simpl. rewrite Hd.
      reflexivity.
    + destruct (N.eqb (cart_id d) (cart_id c)) eqn:Hid.
      * exfalso. apply N.eqb_eq in Hid. apply Hx. rewrite Hid.
        apply in_map. apply (cart_of_user_in rest uid c). exact H.
      * simpl. rewrite Hd. apply IH; assumption.
Qed.

Lemma cart_of_user_app_none l uid c :
  cart_of_user l uid = None ->
  cart_user_id c = uid ->
  cart_of_user (l ++ [c]) uid = Some c.
Proof.
  unfold cart_of_user. induction l as [|d rest IH]; simpl; intros H Hu.
  - subst uid. rewrite N.eqb_refl. reflexivity.
  - destruct (N.eqb (cart_user_id d) uid); [discriminate|].
    apply IH; assumption.
Qed.

(** ** [add_to_cart] when no call raises *)

Lemma run_add_to_cart_existing (NF : no_faults) (w : W)
  user_id product_id q pr c :
  is_valid user_id = true ->
  is_valid product_id = true ->
  product_by_id (products w) (ObjectId product_id) = Some pr ->
  cart_of_user (carts w) (ObjectId user_id) = Some c ->
  add_to_cart user_id product_id q w =
  (Ok added,
   mkWorld (products w) (users w)
     (set_first (fun d => N.eqb (cart_id d) (cart_id c))
        (merge_item (ObjectId product_id) q (cart_items c))
        (utcnow (steps w + 2)) (carts w))
     (orders w) (steps w + 4)).
Proof.
  intros Vu Vp Hp Hc. unfold add_to_cart. rewrite Vu, Vp. cbn [negb].
  rewrite (bind_ok _ _ _ _ _ (run_find_product NF _ w)), Hp.
  rewrite (bind_ok _ _ _ _ _ (run_find_cart NF _ _)).
  cbn [carts set_steps]. rewrite Hc.
  rewrite (bind_ok _ _ _ _ _ (run_now _)).
  rewrite (bind_ok _ _ _ _ _ (run_update_cart NF _ _ _ _)).
  unfold ret, set_carts, set_steps. cbn [products steps orders users carts].
  replace (S (S (steps w))) with (steps w + 2)%nat by lia.
  replace (S (S (steps w + 2))) with (steps w + 4)%nat by lia.
  reflexivity.
Qed.

Lemma run_add_to_cart_missing (NF : no_faults) (w : W)
  user_id product_id q pr :
  is_valid user_id = true ->
  is_valid product_id = true ->
  product_by_id (products w) (ObjectId product_id) = Some pr ->
  cart_of_user (carts w) (ObjectId user_id) = None ->
  fresh_for (map cart_id (carts w)) ->
  add_to_cart user_id product_id q w =
  (Ok added,
   mkWorld (products w) (users w)
     (carts w ++
        [mkCart (gen_id (steps w + 3)) (ObjectId user_id)
           [mkCartItem (ObjectId product_id) q] (utcnow (steps w + 2))])
     (orders w) (steps w + 4)).
Proof.
  intros Vu Vp Hp Hc F. unfold add_to_cart. rewrite Vu, Vp. cbn [negb].
  rewrite (bind_ok _ _ _ _ _ (run_find_product NF _ w)), Hp.
  rewrite (bind_ok _ _ _ _ _ (run_find_cart NF _ _)).
  cbn [carts set_steps]. rewrite Hc.
  rewrite (bind_ok _ _ _ _ _ (run_now _)).
  erewrite bind_ok; [|apply (run_insert_cart NF); apply F].
  unfold ret, set_carts, set_steps. cbn [products steps orders users carts].
  replace (S (S (steps w))) with (steps w + 2)%nat by lia.
  replace (S (steps w + 2)) with (steps w + 3)%nat by lia.
  replace (S (steps w + 3)) with (steps w + 4)%nat by lia.
  reflexivity.
Qed.

(** Two additions in a row, when neither write raises (in particular
    when the store takes both lists): with valid identifiers, an existing
    product and a cart that has at most one entry per product (carts
    having distinct [_id]s), [add_to_cart] of [q1] and then of [q2] for
    the same product leave the user's cart with exactly one entry for the
    product, whose quantity is what was stored before (0 when there was no
    entry) plus [q1] plus [q2]; the other products' entries are as before;
    and when the product was not in the cart the first call appends the
    entry [{product_id, q1}] at the end. *)
Lemma add_to_cart_twice_when_written (w : W) user_id product_id q1 q2 pr c :
  no_faults ->
  is_valid user_id = true ->
  is_valid product_id = true ->
  product_by_id (products w) (ObjectId product_id) = Some pr ->
  NoDup (map cart_id (carts w)) ->
  cart_of_user (carts w) (ObjectId user_id) = Some c ->
  cart_inv c ->
  exists w1 w2 c1 c2,
    add_to_cart user_id product_id q1 w = (Ok added, w1) /\
    add_to_cart user_id product_id q2 w1 = (Ok added, w2) /\
    cart_of_user (carts w1) (ObjectId user_id) = Some c1 /\
    cart_of_user (carts w2) (ObjectId user_id) = Some c2 /\
    cart_id c1 = cart_id c /\ cart_id c2 = cart_id c /\
    length (entries_of (ObjectId product_id) (cart_items c2)) = 1%nat /\
    stored_quantity (ObjectId product_id) (cart_items c2) =
      stored_quantity (ObjectId product_id) (cart_items c) + q1 + q2 /\
    (forall pid', pid' <> ObjectId product_id ->
       entries_of pid' (cart_items c2) = entries_of pid' (cart_items c)) /\
    cart_inv c2 /\
    (~ In (ObjectId product_id) (map item_product_id (cart_items c)) ->
     cart_items c1 =
       cart_items c ++ [mkCartItem (ObjectId product_id) q1]).
Proof.
  intros NF Vu Vp Hp ND Hc Inv.
  pose proof (run_add_to_cart_existing NF w _ _ q1 pr c Vu Vp Hp Hc) as R1.
  set (w1 := snd (add_to_cart user_id product_id q1 w)).
  set (items1 := merge_item (ObjectId product_id) q1 (cart_items c)).
  set (c1 := mkCart (cart_id c) (cart_user_id c) items1
               (utcnow (steps w + 2))).
  assert (Hc1 : cart_of_user (carts w1) (ObjectId user_id) = Some c1).
  { subst w1. rewrite R1. cbn [snd carts].
    apply cart_of_user_set_first_id; assumption. }
  assert (ND1 : NoDup (map cart_id (carts w1))).
  { subst w1. rewrite R1. cbn [snd carts]. rewrite set_first_ids.
    exact ND. }
  assert (Hp1 : product_by_id (products w1) (ObjectId product_id) = Some pr).
  { subst w1. rewrite R1. exact Hp. }
  pose proof (run_add_to_cart_existing NF w1 _ _ q2 pr c1 Vu Vp Hp1 Hc1)
    as R2.
  set (items2 := merge_item (ObjectId product_id) q2 items1).
  exists w1, (snd (add_to_cart user_id product_id q2 w1)), c1,
    (mkCart (cart_id c) (cart_user_id c) items2 (utcnow (steps w1 + 2))).
  split; [subst w1; rewrite R1; reflexivity|].
  split; [rewrite R2; reflexivity|].
  split; [exact Hc1|].
  split.
  { rewrite R2. cbn [snd carts].
    apply (cart_of_user_set_first_id _ _ _ _ c1 ND1 Hc1). }
  split; [reflexivity|]. split; [reflexivity|].
  cbn [cart_items]. subst items2 items1.
  split.
  { apply merge_item_single. apply merge_item_NoDup. exact Inv. }
  split.
  { rewrite !merge_item_stored. lia. }
  split.
  { intros pid' Hne. rewrite !merge_item_other by assumption.
    reflexivity. }
  split.
  { unfold cart_inv. cbn [cart_items].
    apply merge_item_NoDup. apply merge_item_NoDup. exact Inv. }
  intros Hn. subst c1. cbn [cart_items]. apply merge_item_absent. exact Hn.
Qed.


(** One addition, when the write does not raise (in particular when the
    store takes the list): with valid identifiers and an existing product
    (the generated identifier being new and carts having distinct
    [_id]s), [add_to_cart] succeeds, and the quantity the user's cart then
    stores for the product is the one stored before (0 without a cart or
    an entry) plus [q]; without a cart or an entry before, the cart ends
    with the entry [{product_id, q}] itself. *)
Lemma add_to_cart_when_written (w : W) user_id product_id (q : Z) pr :
  no_faults ->
  fresh_for (map cart_id (carts w)) ->
  NoDup (map cart_id (carts w)) ->
  is_valid user_id = true ->
  is_valid product_id = true ->
  product_by_id (products w) (ObjectId product_id) = Some pr ->
  let before :=
    match cart_of_user (carts w) (ObjectId user_id) with
    | Some c => cart_items c
    | None => []
    end in
  exists w' c',
    add_to_cart user_id product_id q w = (Ok added, w') /\
    cart_of_user (carts w') (ObjectId user_id) = Some c' /\
    stored_quantity (ObjectId product_id) (cart_items c') =
      stored_quantity (ObjectId product_id) before + q /\
    (~ In (ObjectId product_id) (map item_product_id before) ->
     cart_items c' = before ++ [mkCartItem (ObjectId product_id) q]).
Proof.
  intros NF F ND Vu Vp Hp before.
  destruct (cart_of_user (carts w) (ObjectId user_id)) as [c|] eqn:Hc;
    subst before.
  - eexists _, _.
    split;
      [apply (run_add_to_cart_existing NF w _ _ q pr c Vu Vp Hp Hc)|].
    cbn [carts].
    split; [apply cart_of_user_set_first_id; assumption|].
    cbn [cart_items].
    split; [apply merge_item_stored|].
    intros Hn. apply merge_item_absent. exact Hn.
  - eexists _, _.
    split; [apply (run_add_to_cart_missing NF w _ _ q pr Vu Vp Hp Hc F)|].
    cbn [carts].
    split; [apply cart_of_user_app_none; [exact Hc | reflexivity]|].
    cbn [cart_items]. split; [|reflexivity].
    unfold stored_quantity. simpl. rewrite N.eqb_refl. reflexivity.
Qed.

(** ** The store operations, whether or not a call raises *)

Lemma run_store_call_at op (w : W) :
  faulty (steps w) = false ->
  store_call op w = (Ok (steps w), set_steps w (S (steps w))).
Proof.
  intros H. unfold store_call, bind, tick. rewrite H. reflexivity.
Qed.

Lemma run_find_cart_at uid (w : W) :
  faulty (steps w) = false ->
  find_cart uid w =
  (Ok (cart_of_user (carts w) uid), set_steps w (S (steps w))).
Proof.
  intros H. unfold find_cart.
  rewrite (bind_ok _ _ _ _ _ (run_store_call_at _ w H)). reflexivity.
Qed.

Lemma run_find_user_at a b (w : W) :
  faulty (steps w) = false ->
  find_user a b w =
  (Ok (user_matching (users w) a b), set_steps w (S (steps w))).
Proof.
  intros H. unfold find_user.
  rewrite (bind_ok _ _ _ _ _ (run_store_call_at _ w H)). reflexivity.
Qed.

Lemma same_store_refl (w : W) : same_store w w.
Proof. repeat split. Qed.

Lemma same_store_trans (w1 w2 w3 : W) :
  same_store w1 w2 -> same_store w2 w3 -> same_store w1 w3.
Proof.
  unfold same_store. intros (A1 & A2 & A3 & A4) (B1 & B2 & B3 & B4).
  repeat split; congruence.
Qed.

Lemma same_store_set_steps (w : W) n : same_store w (set_steps w n).
Proof. repeat split. Qed.

Lemma store_call_inv op (w : W) r w' :
  store_call op w = (r, w') ->
  w' = set_steps w (S (steps w)) /\
  (r = Raise (PyMongoError op) \/ r = Ok (steps w)).
Proof.
  unfold store_call, bind, tick, raise, ret.
  destruct (faulty (steps w)); intros H; inversion H; subst; auto.
Qed.

Lemma find_cart_inv uid (w : W) r w' :
  find_cart uid w = (r, w') ->
  same_store w w' /\
  (r = Raise (PyMongoError (FindOne Carts)) \/
   r = Ok (cart_of_user (carts w) uid)).
Proof.
  unfold find_cart. intros H. apply bind_inv in H.
  destruct H as [(e & H & Hr) | (a & w1 & H & Hk)];
    apply store_call_inv in H; destruct H as [Hw Hres]; subst.
  - split; [apply same_store_set_steps|].
    destruct Hres as [Hres|Hres]; inversion Hres; subst; auto.
  - unfold gets in Hk. inversion Hk; subst.
    split; [apply same_store_set_steps | auto].
Qed.

Lemma find_product_inv pid (w : W) r w' :
  find_product pid w = (r, w') ->
  same_store w w' /\
  (r = Raise (PyMongoError (FindOne Products)) \/
   r = Ok (product_by_id (products w) pid)).
Proof.
  unfold find_product. intros H. apply bind_inv in H.
  destruct H as [(e & H & Hr) | (a & w1 & H & Hk)];
    apply store_call_inv in H; destruct H as [Hw Hres]; subst.
  - split; [apply same_store_set_steps|].
    destruct Hres as [Hres|Hres]; inversion Hres; subst; auto.
  - unfold gets in Hk. inversion Hk; subst.
    split; [apply same_store_set_steps | auto].
Qed.

Lemma checkout_loop_inv items :
  forall acc tot (w : W) r w',
    checkout_loop items acc tot w = (r, w') ->
    same_store w w' /\
    (r = Raise (PyMongoError (FindOne Products)) \/ exists v, r = Ok v).
Proof.
  induction items as [|i rest IH]; intros acc tot w r w' H.
  - simpl in H. unfold ret in H. inversion H; subst.
    split; [apply same_store_refl | eauto].
  - cbn [checkout_loop] in H. apply bind_inv in H.
    destruct H as [(e & H & Hr) | (a & w1 & H & Hk)];
      apply find_product_inv in H; destruct H as [Hs Hres].
    + subst r. split; [exact Hs|].
      destruct Hres as [Hres|Hres]; inversion Hres; subst; auto.
    + destruct a as [p|]; apply IH in Hk; destruct Hk as [Hs' Hr'];
        (split; [eapply same_store_trans; eassumption | exact Hr']).
Qed.

Lemma now_inv (w : W) r w' :
  now w = (r, w') -> same_store w w' /\ exists t, r = Ok t.
Proof.
  rewrite run_now. intros H. inversion H; subst.
  split; [apply same_store_set_steps | eauto].
Qed.

Lemma insert_order_inv uid items total st t (w : W) r w' :
  insert_order uid items total st t w = (r, w') ->
  products w' = products w /\ users w' = users w /\ carts w' = carts w /\
  ((exists o, r = Ok (o_id o) /\ orders w' = orders w ++ [o] /\
              o_user_id o = uid /\ o_items o = items /\
              o_total_amount o = total) \/
   ((r = Raise (PyMongoError (InsertOne Orders)) \/
     r = Raise (DuplicateKeyError Orders)) /\
    orders w' = orders w)).
Proof.
  unfold insert_order. intros H. apply bind_inv in H.
  destruct H as [(e & H & Hr) | (a & w1 & H & Hk)];
    apply store_call_inv in H; destruct H as [Hw Hres]; subst.
  - repeat split. right.
    destruct Hres as [Hres|Hres]; inversion Hres; subst; auto.
  - unfold bind, gets, modify, raise, ret in Hk. cbn in Hk.
    destruct (existsb _ (orders w)); inversion Hk; subst; cbn.
    + repeat split. right. auto.
    + repeat split. left.
      exists (mkOrder (gen_id a) uid items total st t). repeat split.
Qed.

Lemma update_cart_inv sel items t (w : W) r w' :
  update_cart sel items t w = (r, w') ->
  products w' = products w /\ users w' = users w /\ orders w' = orders w /\
  ((r = Ok tt /\ carts w' = set_first sel items t (carts w)) \/
   (r = Raise (PyMongoError (UpdateOne Carts)) /\ carts w' = carts w)).
Proof.
  unfold update_cart. intros H. apply bind_inv in H.
  destruct H as [(e & H & Hr) | (a & w1 & H & Hk)];
    apply store_call_inv in H; destruct H as [Hw Hres]; subst.
  - repeat split. right.
    destruct Hres as [Hres|Hres]; inversion Hres; subst; auto.
  - unfold modify in Hk. inversion Hk; subst. cbn. repeat split. auto.
Qed.

(** The three ways a run of [checkout] can end: nothing written; the
    order written and the cart not, the clearing write having raised;
    the order written and then the cart cleared. *)
Lemma checkout_cases (w : W) user_id r w' :
  checkout user_id w = (r, w') ->
  (same_store w w' /\
   exists e, r = Raise e /\ e <> PyMongoError (UpdateOne Carts)) \/
  (exists o, orders w' = orders w ++ [o] /\ carts w' = carts w /\
             r = Raise (PyMongoError (UpdateOne Carts))) \/
  (exists o resp t, orders w' = orders w ++ [o] /\
     carts w' =
       set_first (fun d => N.eqb (cart_user_id d) (ObjectId user_id))
         [] t (carts w) /\
     r = Ok resp).
Proof.
  unfold checkout. destruct (is_valid user_id); cbn [negb].
  2:{ unfold raise. intros H. inversion H; subst. left.
      split; [apply same_store_refl|]. eexists. split; [reflexivity|].
      discriminate. }
  intros H. apply bind_inv in H.
  destruct H as [(e & H & Hr) | (oc & w1 & H & Hk)];
    apply find_cart_inv in H; destruct H as [S1 R1].
  { left. split; [exact S1|]. subst r. exists e. split; [reflexivity|].
    destruct R1 as [R1|R1]; inversion R1; discriminate. }
  destruct oc as [c|].
  2:{ unfold raise in Hk. inversion Hk; subst. left. split; [exact S1|].
      eexists. split; [reflexivity | discriminate]. }
  destruct (is_empty (cart_items c)).
  { unfold raise in Hk. inversion Hk; subst. left. split; [exact S1|].
    eexists. split; [reflexivity | discriminate]. }
  apply bind_inv in Hk.
  destruct Hk as [(e & H & Hr) | ([lines total] & w2 & H & Hk)];
    apply checkout_loop_inv in H; destruct H as [S2 R2].
  { left. split; [eapply same_store_trans; eassumption|]. subst r.
    exists e. split; [reflexivity|].
    destruct R2 as [R2|[v R2]]; inversion R2; discriminate. }
  apply bind_inv in Hk.
  destruct Hk as [(e & H & Hr) | (created & w3 & H & Hk)];
    apply now_inv in H; destruct H as [S3 [t3 R3]]; [discriminate|].
  pose proof (same_store_trans _ _ _ (same_store_trans _ _ _ S1 S2) S3)
    as S13.
  destruct S13 as (P13 & U13 & C13 & O13).
  apply bind_inv in Hk.
  destruct Hk as [(e & H & Hr) | (oid' & w4 & H & Hk)];
    apply insert_order_inv in H;
    destruct H as (P4 & U4 & C4 & [(o & R4 & O4 & _) | [R4 O4]]).
  - discriminate.
  - left. split; [repeat split; congruence|]. subst r. exists e.
    split; [reflexivity|]. destruct R4 as [R4|R4]; inversion R4; discriminate.
  - apply bind_inv in Hk.
    destruct Hk as [(e & H & Hr) | (updated & w5 & H & Hk)];
      apply now_inv in H; destruct H as [S5 [t5 R5]]; [discriminate|].
    destruct S5 as (P5 & U5 & C5 & O5).
    apply bind_inv in Hk.
    destruct Hk as [(e & H & Hr) | (u & w6 & H & Hk)];
      apply update_cart_inv in H;
      destruct H as (P6 & U6 & O6 & [[R6 C6] | [R6 C6]]).
    + discriminate.
    + right. left. exists o. subst r. inversion R6; subst.
      repeat split; congruence.
    + unfold ret in Hk. inversion Hk; subst. right. right.
      eexists o, _, updated. repeat split; congruence.
    + discriminate.
  - destruct R4 as [R4|R4]; discriminate.
Qed.

(** ** No partial effect of [checkout] *)

(** C3.  (1) With a valid identifier, when the cart lookup does not
    raise and the user has no cart or a cart with an empty [items] list,
    [checkout] raises the 400 "Cart is empty" and leaves the four
    collections as they were.  (2) Whatever raises, a [checkout] that
    raises leaves every cart as it was.  (3) When the insertion of the
    order raises, nothing at all was written: the cart is not cleared.
    (4) A run of [checkout] that changes the carts has appended the order
    before: the order is written first, the cart cleared after. *)
Theorem checkout_no_partial_effect (w : W) user_id :
  (is_valid user_id = true ->
   faulty (steps w) = false ->
   (cart_of_user (carts w) (ObjectId user_id) = None \/
    exists c, cart_of_user (carts w) (ObjectId user_id) = Some c /\
              cart_items c = []) ->
   exists w',
     checkout user_id w =
       (Raise (HTTPException HTTP_400_BAD_REQUEST "Cart is empty"), w') /\
     same_store w w') /\
  (forall e w', checkout user_id w = (Raise e, w') -> carts w' = carts w) /\
  (forall e w',
     checkout user_id w = (Raise e, w') ->
     e = PyMongoError (InsertOne Orders) \/ e = DuplicateKeyError Orders ->
     same_store w w') /\
  (forall r w',
     checkout user_id w = (r, w') ->
     carts w' <> carts w ->
     exists o, orders w' = orders w ++ [o]).
Proof.
  split; [|split; [|split]].
  - intros V NFs Hc. exists (set_steps w (S (steps w))).
    split; [|apply same_store_set_steps].
    unfold checkout. rewrite V. cbn [negb].
    rewrite (bind_ok _ _ _ _ _ (run_find_cart_at _ w NFs)).
    destruct Hc as [Hc | (c & Hc & Hi)]; rewrite Hc; [reflexivity|].
    rewrite Hi. reflexivity.
  - intros e w' H. apply checkout_cases in H.
    destruct H as [[S _] | [(o & _ & C & _) | (o & resp & t & _ & _ & R)]].
    + apply S.
    + exact C.
    + discriminate.
  - intros e w' H He. apply checkout_cases in H.
    destruct H as [[S _] | [(o & _ & _ & R) | (o & resp & t & _ & _ & R)]].
    + exact S.
    + inversion R; subst. destruct He; discriminate.
    + discriminate.
  - intros r w' H Hne. apply checkout_cases in H.
    destruct H as [[S _] | [(o & O & C & _) | (o & resp & t & O & _ & _)]].
    + exfalso. apply Hne. apply S.
    + congruence.
    + exists o. exact O.
Qed.

(** ** The carts' invariant *)

Lemma est_ret {A} (a : A) (Q : A -> Prop) : Q a -> establishes (ret a) Q.
Proof.
  intros Ha w r w' I H. unfold ret in H. inversion H; subst.
  split; [exact I|]. intros b Hb. inversion Hb; subst. exact Ha.
Qed.

Lemma est_raise {A} e (Q : A -> Prop) : establishes (raise e) Q.
Proof.
  intros w r w' I H. unfold raise in H. inversion H; subst.
  split; [exact I|]. intros b Hb. discriminate.
Qed.

Lemma est_bind {A B} (m : M A) (k : A -> M B) P Q :
  establishes m P ->
  (forall a, P a -> establishes (k a) Q) ->
  establishes (bind m k) Q.
Proof.
  intros Hm Hk w r w' I H. apply bind_inv in H.
  destruct H as [(e & H & Hr) | (a & w1 & H & Hka)].
  - destruct (Hm _ _ _ I H) as [I' _]. split; [exact I'|].
    intros b Hb. subst r. discriminate.
  - destruct (Hm _ _ _ I H) as [I' Pa].
    apply (Hk a (Pa a eq_refl) _ _ _ I' Hka).
Qed.

(** A computation that leaves the carts as they are. *)
Lemma est_same_carts {A} (m : M A) :
  (forall w r w', m w = (r, w') -> carts w' = carts w) ->
  establishes m (fun _ => True).
Proof.
  intros Hm w r w' I H. rewrite (Hm _ _ _ H). split; [exact I | trivial].
Qed.

Lemma est_store_call op : establishes (store_call op) (fun _ => True).
Proof.
  apply est_same_carts. intros w r w' H.
  apply store_call_inv in H. destruct H as [H _]. subst. reflexivity.
Qed.

Lemma est_now : establishes now (fun _ => True).
Proof.
  apply est_same_carts. intros w r w' H. apply now_inv in H. apply H.
Qed.

Lemma est_find_product pid : establishes (find_product pid) (fun _ => True).
Proof.
  apply est_same_carts. intros w r w' H.
  apply find_product_inv in H. apply H.
Qed.

Lemma est_find_user a b : establishes (find_user a b) (fun _ => True).
Proof.
  unfold find_user. eapply est_bind; [apply est_store_call|].
  intros _ _. apply est_same_carts. intros w r w' H.
  unfold gets in H. inversion H; reflexivity.
Qed.

Lemma est_find_cart uid :
  establishes (find_cart uid) (fun oc => forall c, oc = Some c -> cart_inv c).
Proof.
  intros w r w' I H. apply find_cart_inv in H.
  destruct H as [(_ & _ & C & _) R]. rewrite C. split; [exact I|].
  intros oc Hr c Hc. subst r oc.
  destruct R as [R|R]; inversion R as [Hf].
  symmetry in Hf. apply cart_of_user_in in Hf.
  rewrite Forall_forall in I. apply I. apply Hf.
Qed.

Lemma est_insert_user a b p t :
  establishes (insert_user a b p t) (fun _ => True).
Proof.
  apply est_same_carts. intros w r w' H. unfold insert_user in H.
  apply bind_inv in H.
  destruct H as [(e & H & Hr) | (n & w1 & H & Hk)];
    apply store_call_inv in H; destruct H as [Hw _]; subst.
  - reflexivity.
  - unfold bind, gets, modify, raise, ret in Hk. cbn in Hk.
    destruct (existsb _ (users w)); inversion Hk; subst; reflexivity.
Qed.

Lemma est_insert_order uid items total st t :
  establishes (insert_order uid items total st t) (fun _ => True).
Proof.
  apply est_same_carts. intros w r w' H.
  apply insert_order_inv in H. apply H.
Qed.

Lemma est_insert_cart uid items t :
  NoDup (map item_product_id items) ->
  establishes (insert_cart uid items t) (fun _ => True).
Proof.
  intros ND w r w' I H. split; [|trivial]. unfold insert_cart in H.
  apply bind_inv in H.
  destruct H as [(e & H & Hr) | (n & w1 & H & Hk)];
    apply store_call_inv in H; destruct H as [Hw _]; subst.
  - exact I.
  - unfold bind, gets, modify, raise, ret in Hk. cbn in Hk.
    destruct (existsb _ (carts w)); inversion Hk; subst; cbn.
    + exact I.
    + apply Forall_app. split; [exact I|].
      constructor; [exact ND | constructor].
Qed.

Lemma set_first_inv sel items t l :
  NoDup (map item_product_id items) ->
  Forall cart_inv l -> Forall cart_inv (set_first sel items t l).
Proof.
  intros ND. induction l as [|d rest IH]; simpl; intros I.
  - constructor.
  - inversion I; subst. destruct (sel d); constructor; auto.
Qed.

Lemma est_update_cart sel items t :
  NoDup (map item_product_id items) ->
  establishes (update_cart sel items t) (fun _ => True).
Proof.
  intros ND w r w' I H. split; [|trivial].
  apply update_cart_inv in H.
  destruct H as (_ & _ & _ & [[_ C] | [_ C]]); rewrite C.
  - apply set_first_inv; assumption.
  - exact I.
Qed.

Lemma est_checkout_loop items acc tot :
  establishes (checkout_loop items acc tot) (fun _ => True).
Proof.
  apply est_same_carts. intros w r w' H.
  apply checkout_loop_inv in H. apply H.
Qed.

Lemma est_register_user username email password :
  establishes (register_user username email password) (fun _ => True).
Proof.
  unfold register_user. eapply est_bind; [apply est_find_user|].
  intros [u|] _; [apply est_raise|].
  eapply est_bind; [apply est_now|]. intros created _.
  eapply est_bind; [apply est_insert_user|]. intros uid _.
  eapply est_bind; [apply est_now|]. intros updated _.
  eapply est_bind; [apply est_insert_cart; constructor|]. intros cid _.
  apply est_ret. trivial.
Qed.

Lemma est_add_to_cart user_id product_id q :
  establishes (add_to_cart user_id product_id q) (fun _ => True).
Proof.
  unfold add_to_cart.
  destruct (is_valid user_id); cbn [negb]; [|apply est_raise].
  destruct (is_valid product_id); cbn [negb]; [|apply est_raise].
  eapply est_bind; [apply est_find_product|].
  intros [p|] _; [|apply est_raise].
  eapply est_bind; [apply est_find_cart|].
  intros [c|] Hc.
  - eapply est_bind; [apply est_now|]. intros updated _.
    eapply est_bind; [|intros; apply est_ret; trivial].
    apply est_update_cart. apply merge_item_NoDup.
    apply (Hc c eq_refl).
  - eapply est_bind; [apply est_now|]. intros updated _.
    eapply est_bind; [|intros; apply est_ret; trivial].
    apply est_insert_cart. simpl.
    constructor; [simpl; tauto | constructor].
Qed.

Lemma est_checkout user_id :
  establishes (checkout user_id) (fun _ => True).
Proof.
  unfold checkout.
  destruct (is_valid user_id); cbn [negb]; [|apply est_raise].
  eapply est_bind; [apply est_find_cart|].
  intros [c|] _; [|apply est_raise].
  destruct (is_empty (cart_items c)); [apply est_raise|].
  eapply est_bind; [apply est_checkout_loop|]. intros [lines total] _.
  eapply est_bind; [apply est_now|]. intros created _.
  eapply est_bind; [apply est_insert_order|]. intros oid' _.
  eapply est_bind; [apply est_now|]. intros updated _.
  eapply est_bind; [apply est_update_cart; constructor|]. intros u _.
  apply est_ret. trivial.
Qed.

(** C4.  From a store in which every cart has at most one entry per
    product, whatever the arguments, whatever is in the collections and
    whichever store calls raise, each handler that writes a cart
    ([register_user], which inserts the empty cart; [add_to_cart], which
    inserts a one-entry cart or rewrites the merged list; [checkout],
    which clears the cart) ends in a store in which every cart has at
    most one entry per product. *)
Theorem cart_writes_preserve_invariant (w : W) :
  carts_inv w ->
  (forall username email password,
     carts_inv (snd (register_user username email password w))) /\
  (forall user_id product_id q,
     carts_inv (snd (add_to_cart user_id product_id q w))) /\
  (forall user_id, carts_inv (snd (checkout user_id w))).
Proof.
  unfold carts_inv. intros I. split; [|split]; intros.
  - eapply est_register_user; [exact I | apply surjective_pairing].
  - eapply est_add_to_cart; [exact I | apply surjective_pairing].
  - eapply est_checkout; [exact I | apply surjective_pairing].
Qed.

(** ** Registration *)

Lemma user_matching_some l a b :
  (exists u, In u l /\ (u_username u = a \/ u_email u = b)) ->
  exists u', user_matching l a b = Some u'.
Proof.
  intros (u & Hu & Hm). unfold user_matching.
  destruct (find _ l) as [u'|] eqn:Hf; [eauto|].
  exfalso. pose proof (find_none _ _ Hf u Hu) as Hn. cbv beta in Hn.
  apply orb_false_iff in Hn. destruct Hn as [H1 H2].
  apply String.eqb_neq in H1. apply String.eqb_neq in H2. tauto.
Qed.

Lemma user_matching_none l a b :
  (forall u, In u l -> u_username u <> a /\ u_email u <> b) ->
  user_matching l a b = None.
Proof.
  intros H. unfold user_matching.
  destruct (find _ l) as [u|] eqn:Hf; [|reflexivity].
  apply find_some in Hf. destruct Hf as [Hu Hm].
  apply orb_true_iff in Hm. destruct (H u Hu) as [H1 H2].
  destruct Hm as [Hm|Hm]; apply String.eqb_eq in Hm; tauto.
Qed.

Lemma find_user_inv a b (w : W) r w' :
  find_user a b w = (r, w') ->
  same_store w w' /\
  (r = Raise (PyMongoError (FindOne Users)) \/
   r = Ok (user_matching (users w) a b)).
Proof.
  unfold find_user. intros H. apply bind_inv in H.
  destruct H as [(e & H & Hr) | (n & w1 & H & Hk)];
    apply store_call_inv in H; destruct H as [Hw Hres]; subst.
  - split; [apply same_store_set_steps|].
    destruct Hres as [Hres|Hres]; inversion Hres; subst; auto.
  - unfold gets in Hk. inversion Hk; subst.
    split; [apply same_store_set_steps | auto].
Qed.

Lemma run_register_user (NF : no_faults) (w : W) username email password :
  user_matching (users w) username email = None ->
  fresh_for (map u_id (users w)) ->
  fresh_for (map cart_id (carts w)) ->
  register_user username email password w =
  (Ok (mkRegisterResponse "User registered successfully"
         (str (gen_id (steps w + 2)))),
   mkWorld (products w)
     (users w ++
        [mkUser (gen_id (steps w + 2)) username email
           (hash_password password) (utcnow (steps w + 1))])
     (carts w ++
        [mkCart (gen_id (steps w + 4)) (gen_id (steps w + 2)) []
           (utcnow (steps w + 3))])
     (orders w) (steps w + 5)).
Proof.
  intros Hn Fu Fc. unfold register_user.
  rewrite (bind_ok _ _ _ _ _ (run_find_user NF _ _ w)), Hn.
  rewrite (bind_ok _ _ _ _ _ (run_now _)).
  erewrite bind_ok; [|apply (run_insert_user NF); apply Fu].
  rewrite (bind_ok _ _ _ _ _ (run_now _)).
  erewrite bind_ok; [|apply (run_insert_cart NF); apply Fc].
  unfold ret, set_carts, set_users, set_steps.
  cbn [products steps orders users carts].
  replace (S (steps w)) with (steps w + 1)%nat by lia.
  replace (S (steps w + 1)) with (steps w + 2)%nat by lia.
  replace (S (steps w + 2)) with (steps w + 3)%nat by lia.
  replace (S (steps w + 3)) with (steps w + 4)%nat by lia.
  replace (S (steps w + 4)) with (steps w + 5)%nat by lia.
  reflexivity.
Qed.

(** C6.  (1) When some user already has the requested username or
    already has the requested email (and the lookup does not raise),
    [register_user] raises the 409 conflict and leaves the four
    collections as they were: no user and no cart is inserted.  (1') With
    such a user, no run of [register_user] inserts anything, whichever
    store calls raise.  (2) When no user has either (no store call raising, the generated
    identifiers being new), it succeeds, appends one user document whose
    [password] field is [hash_password password], the other fields being
    the identifier, the username, the email and the time, and appends
    one cart with that user's identifier and an empty [items] list; the
    response carries that identifier. *)
Theorem register_conflict_or_create (w : W) username email password :
  (faulty (steps w) = false ->
   (exists u, In u (users w) /\
              (u_username u = username \/ u_email u = email)) ->
   exists w',
     register_user username email password w =
       (Raise (HTTPException HTTP_409_CONFLICT
                 "Username or email already exists"), w') /\
     same_store w w') /\
  ((exists u, In u (users w) /\
              (u_username u = username \/ u_email u = email)) ->
   forall r w',
     register_user username email password w = (r, w') ->
     same_store w w') /\
  (no_faults ->
   fresh_for (map u_id (users w)) ->
   fresh_for (map cart_id (carts w)) ->
   (forall u, In u (users w) ->
              u_username u <> username /\ u_email u <> email) ->
   exists resp uid created cid updated w',
     register_user username email password w = (Ok resp, w') /\
     reg_user_id resp = str uid /\
     users w' =
       users w ++
         [mkUser uid username email (hash_password password) created] /\
     carts w' = carts w ++ [mkCart cid uid [] updated] /\
     products w' = products w /\ orders w' = orders w).
Proof.
  split; [|split].
  - intros NFs Hex. exists (set_steps w (S (steps w))).
    split; [|apply same_store_set_steps].
    apply user_matching_some in Hex. destruct Hex as [u' Hu'].
    unfold register_user.
    rewrite (bind_ok _ _ _ _ _ (run_find_user_at _ _ w NFs)), Hu'.
    reflexivity.
  - intros Hex r w' H.
    apply user_matching_some in Hex. destruct Hex as [u' Hu'].
    unfold register_user in H. apply bind_inv in H.
    destruct H as [(e & H & Hr) | (ou & w1 & H & Hk)];
      apply find_user_inv in H; destruct H as [S1 R1].
    + exact S1.
    + destruct R1 as [R1|R1]; inversion R1; subst ou.
      rewrite Hu' in Hk. unfold raise in Hk. inversion Hk; subst.
      exact S1.
  - intros NF Fu Fc Hn. apply user_matching_none in Hn.
    eexists _, _, _, _, _, _.
    split; [apply (run_register_user NF w _ _ _ Hn Fu Fc)|].
    cbn. repeat split.
Qed.

(** ** Login *)

(** C7.  A login whose identifier matches no user, by username or by
    email, and a login whose identifier matches a user but whose password
    fails verification against the stored hash (the lookups not
    raising), produce the same result: the 401 exception with the
    message "Invalid credentials". *)
Theorem login_failures_indistinguishable
  (w1 w2 : W) id1 id2 pw1 pw2 u :
  faulty (steps w1) = false ->
  faulty (steps w2) = false ->
  user_matching (users w1) id1 id1 = None ->
  user_matching (users w2) id2 id2 = Some u ->
  verify_password pw2 (u_password u) = false ->
  fst (login_user id1 pw1 w1) = fst (login_user id2 pw2 w2) /\
  fst (login_user id1 pw1 w1) =
    Raise (HTTPException HTTP_401_UNAUTHORIZED "Invalid credentials").
Proof.
  intros N1 N2 H1 H2 Hv. unfold login_user.
  rewrite (bind_ok _ _ _ _ _ (run_find_user_at _ _ w1 N1)), H1.
  rewrite (bind_ok _ _ _ _ _ (run_find_user_at _ _ w2 N2)), H2.
  rewrite Hv. split; reflexivity.
Qed.

End Properties.

(** * The properties at the concrete store *)

Ltac no_repeats :=
  repeat (apply NoDup_cons;
          [ simpl; let H := fresh in
            intros H; repeat (destruct H as [H|H]); try discriminate H;
            try contradiction
          | ]);
  apply NoDup_nil.

Lemma never_no_faults : no_faults (E := demo_env never).
Proof. intros n. reflexivity. Defined.

Lemma demo_fresh_orders : fresh_for (E := demo_env never) [].
Proof. intros n H. exact H. Defined.

Lemma demo_fresh_users : fresh_for (E := demo_env never) [161%N].
Proof.
  intros n [H|[]]. change (161 = 4096 + N.of_nat n)%N in H. lia.
Defined.

Lemma demo_fresh_carts : fresh_for (E := demo_env never) [500%N].
Proof.
  intros n [H|[]]. change (500 = 4096 + N.of_nat n)%N in H. lia.
Defined.

Lemma checkout_all_resolving_witness :
  exists resp o w',
    checkout (E := demo_env never) alice_id demo_world_full = (Ok resp, w') /\
    orders w' = [o] /\
    length (o_items o) = 2%nat /\
    map ol_subtotal (o_items o) = [199998; 1299] /\
    o_total_amount o = 201297 /\
    sum_total_amount (co_order_summary resp) = 201297 /\
    sum_total_items (co_order_summary resp) = 3.
Proof.
  destruct (checkout_all_resolving (E := demo_env never)
              demo_world_full alice_id
              (mkCart 500%N 161%N [mkCartItem 1%N 2; mkCartItem 2%N 1]
                 "2023-12-31"))
    as (resp & o & w' & H1 & H2 & _ & _ & H5 & _ & _ & _ & H9 & _ & H11).
  - exact never_no_faults.
  - exact demo_fresh_orders.
  - reflexivity.
  - reflexivity.
  - discriminate.
  - intros i [H|[H|[]]]; subst i; discriminate.
  - exists resp, o, w'. split; [exact H1|]. split; [exact H2|].
    split; [exact H5|].
    assert (Ho : o = mkOrder 4100%N 161%N
                       [mkOrderItem 1%N "Laptop" 2 99999 199998;
                        mkOrderItem 2%N "Coffee Mug" 1 1299 1299]
                       201297 "completed" "2024-01-01T00:00:00x3").
    { vm_compute in H1. inversion H1 as [[Hr Hw]]. subst w'.
      cbn in H2. inversion H2. reflexivity. }
    split; [rewrite Ho; reflexivity|].
    split; [rewrite Ho; reflexivity|].
    split; [rewrite H9, Ho; reflexivity | exact H11].
Defined.

Lemma checkout_no_partial_effect_witness :
  (exists w',
     checkout (E := demo_env never) alice_id demo_world_empty =
       (Raise (HTTPException HTTP_400_BAD_REQUEST "Cart is empty"), w') /\
     same_store (E := demo_env never) demo_world_empty w') /\
  fst (checkout (E := demo_env (Nat.eqb 4)) alice_id demo_world_full) =
    Raise (PyMongoError (InsertOne Orders)) /\
  same_store (E := demo_env (Nat.eqb 4)) demo_world_full
    (snd (checkout (E := demo_env (Nat.eqb 4)) alice_id demo_world_full)).
Proof.
  split; [|split].
  - apply (proj1 (checkout_no_partial_effect (E := demo_env never)
                    demo_world_empty alice_id)).
    + reflexivity.
    + reflexivity.
    + right. eexists. split; reflexivity.
  - reflexivity.
  - apply (proj1 (proj2 (proj2
             (checkout_no_partial_effect (E := demo_env (Nat.eqb 4))
                demo_world_full alice_id)))
             (PyMongoError (InsertOne Orders))).
    + reflexivity.
    + left. reflexivity.
Defined.

Lemma cart_writes_preserve_invariant_witness :
  carts_inv (E := demo_env never)
    (snd (add_to_cart (E := demo_env never) alice_id laptop_id 5 demo_world))
  /\
  carts_inv (E := demo_env never)
    (snd (checkout (E := demo_env never) alice_id demo_world)).
Proof.
  assert (I : carts_inv (E := demo_env never) demo_world).
  { unfold carts_inv, cart_inv. cbn. constructor; [|constructor].
    cbn. no_repeats. }
  destruct (cart_writes_preserve_invariant (E := demo_env never)
              demo_world I) as (_ & Ha & Hc).
  split; [apply Ha | apply Hc].
Defined.

Lemma get_cart_joins_and_counts_stored_witness :
  exists lines total w',
    get_cart (E := demo_env never) alice_id demo_world =
      (Ok (CartContents alice_id lines total), w') /\
    length lines = 1%nat /\
    total = 5 /\
    sum_Z (map cl_quantity lines) = 2.
Proof.
  destruct (get_cart_joins_and_counts_stored (E := demo_env never)
              demo_world alice_id
              (mkCart 500%N 161%N [mkCartItem 1%N 2; mkCartItem 3%N 3]
                 "2023-12-31"))
    as (lines & total & w' & H1 & _ & H3 & H4 & H5).
  - exact never_no_faults.
  - reflexivity.
  - reflexivity.
  - discriminate.
  - exists lines, total, w'. split; [exact H1|].
    split; [symmetry; apply (Forall2_length H3)|].
    split; [exact H4|].
    rewrite H4 in H5. cbn in H5. lia.
Defined.

Lemma register_conflict_or_create_witness :
  (exists w',
     register_user (E := demo_env never) "alice" "new@example.com" "pw"
       demo_world =
       (Raise (HTTPException HTTP_409_CONFLICT
                 "Username or email already exists"), w') /\
     same_store (E := demo_env never) demo_world w') /\
  (exists resp uid created cid updated w',
     register_user (E := demo_env never) "bob" "bob@example.com" "pw"
       demo_world = (Ok resp, w') /\
     reg_user_id resp = HexString.of_N uid /\
     users w' =
       demo_users ++ [mkUser uid "bob" "bob@example.com" "hash:pw" created] /\
     carts w' = carts demo_world ++ [mkCart cid uid [] updated]).
Proof.
  split.
  - apply (proj1 (register_conflict_or_create (E := demo_env never)
                    demo_world "alice" "new@example.com" "pw")).
    + reflexivity.
    + eexists. split; [left; reflexivity | left; reflexivity].
  - destruct (proj2 (proj2 (register_conflict_or_create (E := demo_env never)
                       demo_world "bob" "bob@example.com" "pw")))
      as (resp & uid & created & cid & updated & w' & H1 & H2 & H3 & H4 & _).
    + exact never_no_faults.
    + exact demo_fresh_users.
    + exact demo_fresh_carts.
    + intros u [H|[]]; subst u; split; discriminate.
    + exists resp, uid, created, cid, updated, w'.
      repeat split; assumption.
Defined.

Lemma login_failures_indistinguishable_witness :
  fst (login_user (E := demo_env never) "mallory" "guess" demo_world) =
  fst (login_user (E := demo_env never) "alice" "wrong" demo_world) /\
  fst (login_user (E := demo_env never) "mallory" "guess" demo_world) =
  Raise (HTTPException HTTP_401_UNAUTHORIZED "Invalid credentials").
Proof.
  apply (login_failures_indistinguishable (E := demo_env never)
           demo_world demo_world "mallory" "alice" "guess" "wrong"
           (mkUser 161%N "alice" "alice@example.com" "hash:secret"
              "2023-12-31"));
    reflexivity.
Defined.


Lemma checkout_all_stale_witness :
  exists resp o w' c',
    checkout (E := demo_env never) alice_id demo_world_stale = (Ok resp, w') /\
    orders w' = [o] /\
    o_items o = [] /\
    o_total_amount o = 0 /\
    sum_total_items (co_order_summary resp) = 0 /\
    cart_of_user (carts w') 161%N = Some c' /\
    cart_items c' = [].
Proof.
  destruct (checkout_all_stale (E := demo_env never)
              demo_world_stale alice_id
              (mkCart 500%N 161%N [mkCartItem 3%N 3] "2023-12-31"))
    as (resp & o & w' & c' & H1 & H2 & _ & H4 & H5 & _ & _ & H8 & H9 & _ & H11).
  - exact never_no_faults.
  - exact demo_fresh_orders.
  - reflexivity.
  - reflexivity.
  - discriminate.
  - intros i [H|[]]; subst i; reflexivity.
  - exists resp, o, w', c'. repeat split; assumption.
Defined.

(** * Further properties of the handlers *)

Section Frames.

Context {E : Env}.

(** ** Relations every run keeps *)

Section Preservation.

Variable R : W -> W -> Prop.
Hypothesis R_refl : forall w, R w w.
Hypothesis R_trans : forall w1 w2 w3, R w1 w2 -> R w2 w3 -> R w1 w3.
Hypothesis R_same : forall w w', same_store w w' -> R w w'.

Lemma pres_ret {A} (a : A) : preserves R (ret a).
Proof. intros w r w' H. unfold ret in H. inversion H; subst. apply R_refl. Qed.

Lemma pres_raise {A} e : preserves R (@raise E A e).
Proof.
  intros w r w' H. unfold raise in H. inversion H; subst. apply R_refl.
Qed.

Lemma pres_bind {A B} (m : M A) (k : A -> M B) :
  preserves R m -> (forall a, preserves R (k a)) -> preserves R (bind m k).
Proof.
  intros Hm Hk w r w' H. apply bind_inv in H.
  destruct H as [(e & H & _) | (a & w1 & H & Hka)].
  - apply (Hm _ _ _ H).
  - eapply R_trans; [apply (Hm _ _ _ H) | apply (Hk _ _ _ _ Hka)].
Qed.

Lemma pres_same {A} (m : M A) : preserves same_store m -> preserves R m.
Proof. intros Hm w r w' H. apply R_same. apply (Hm _ _ _ H). Qed.

End Preservation.

Lemma pres_store_call op : preserves same_store (store_call op).
Proof.
  intros w r w' H. apply store_call_inv in H. destruct H as [H _]. subst.
  apply same_store_set_steps.
Qed.

Lemma pres_now : preserves same_store now.
Proof. intros w r w' H. apply now_inv in H. apply H. Qed.

Lemma pres_gets {A} (f : W -> A) : preserves same_store (gets f).
Proof.
  intros w r w' H. unfold gets in H. inversion H; subst.
  apply same_store_refl.
Qed.

Lemma pres_find_product pid : preserves same_store (find_product pid).
Proof. intros w r w' H. apply find_product_inv in H. apply H. Qed.

Lemma pres_find_cart uid : preserves same_store (find_cart uid).
Proof. intros w r w' H. apply find_cart_inv in H. apply H. Qed.

Lemma pres_find_user a b : preserves same_store (find_user a b).
Proof. intros w r w' H. apply find_user_inv in H. apply H. Qed.

Lemma pres_find_products : preserves same_store find_products.
Proof.
  unfold find_products.
  apply (pres_bind same_store same_store_trans);
    [apply pres_store_call | intros; apply pres_gets].
Qed.

Lemma pres_checkout_loop items acc tot :
  preserves same_store (checkout_loop items acc tot).
Proof. intros w r w' H. apply checkout_loop_inv in H. apply H. Qed.

Lemma pres_get_cart_loop items :
  forall acc, preserves same_store (get_cart_loop items acc).
Proof.
  induction items as [|i rest IH]; intros acc; cbn [get_cart_loop].
  - apply (pres_ret same_store same_store_refl).
  - apply (pres_bind same_store same_store_trans);
      [apply pres_find_product|].
    intros [p|]; apply IH.
Qed.

(** ** The handlers that only read *)

Lemma pres_get_all_products : preserves same_store get_all_products.
Proof.
  unfold get_all_products.
  apply (pres_bind same_store same_store_trans);
    [apply pres_find_products|].
  intros l. apply (pres_ret same_store same_store_refl).
Qed.

Lemma pres_get_product product_id :
  preserves same_store (get_product product_id).
Proof.
  unfold get_product. destruct (is_valid product_id); cbn [negb];
    [|apply (pres_raise same_store same_store_refl)].
  apply (pres_bind same_store same_store_trans);
    [apply pres_find_product|].
  intros [p|];
    [apply (pres_ret same_store same_store_refl)
    |apply (pres_raise same_store same_store_refl)].
Qed.

Lemma pres_login_user x pw : preserves same_store (login_user x pw).
Proof.
  unfold login_user.
  apply (pres_bind same_store same_store_trans); [apply pres_find_user|].
  intros [u|]; [|apply (pres_raise same_store same_store_refl)].
  destruct (negb (verify_password pw (u_password u)));
    [apply (pres_raise same_store same_store_refl)
    |apply (pres_ret same_store same_store_refl)].
Qed.

Lemma pres_get_cart user_id : preserves same_store (get_cart user_id).
Proof.
  unfold get_cart. destruct (is_valid user_id); cbn [negb];
    [|apply (pres_raise same_store same_store_refl)].
  apply (pres_bind same_store same_store_trans); [apply pres_find_cart|].
  intros [c|]; [|apply (pres_ret same_store same_store_refl)].
  destruct (is_empty (cart_items c));
    [apply (pres_ret same_store same_store_refl)|].
  apply (pres_bind same_store same_store_trans);
    [apply pres_get_cart_loop|].
  intros l. apply (pres_ret same_store same_store_refl).
Qed.

Section ReadOnlyHistory.

Context {OE : OrdersEnv}.

Lemma pres_find_orders uid : preserves same_store (find_orders uid).
Proof.
  unfold find_orders.
  apply (pres_bind same_store same_store_trans);
    [apply pres_store_call | intros; apply pres_gets].
Qed.

Lemma pres_get_user_orders user_id :
  preserves same_store (get_user_orders user_id).
Proof.
  unfold get_user_orders. destruct (is_valid user_id); cbn [negb];
    [|apply (pres_raise same_store same_store_refl)].
  apply (pres_bind same_store same_store_trans); [apply pres_find_orders|].
  intros l. apply (pres_ret same_store same_store_refl).
Qed.

(** X1.  The five handlers that only read ([get_all_products],
    [get_product], [login_user], [get_cart], [get_user_orders]) leave the
    four collections exactly as they were, for all arguments, whatever they
    return and whichever store calls raise. *)
Theorem readers_never_write (w : W) :
  same_store w (snd (get_all_products w)) /\
  (forall product_id, same_store w (snd (get_product product_id w))) /\
  (forall x pw, same_store w (snd (login_user x pw w))) /\
  (forall user_id, same_store w (snd (get_cart user_id w))) /\
  (forall user_id, same_store w (snd (get_user_orders user_id w))).
Proof.
  repeat split; intros.
  all: first
    [ eapply pres_get_all_products; apply surjective_pairing
    | eapply pres_get_product; apply surjective_pairing
    | eapply pres_login_user; apply surjective_pairing
    | eapply pres_get_cart; apply surjective_pairing
    | eapply pres_get_user_orders; apply surjective_pairing ].
Qed.

End ReadOnlyHistory.

(** ** The catalog *)

Lemma run_find_product_at pid (w : W) :
  faulty (steps w) = false ->
  find_product pid w =
  (Ok (product_by_id (products w) pid), set_steps w (S (steps w))).
Proof.
  intros H. unfold find_product.
  rewrite (bind_ok _ _ _ _ _ (run_store_call_at _ w H)). reflexivity.
Qed.

Lemma product_by_id_in l pid (p : Product num) :
  product_by_id l pid = Some p -> In p l /\ p_id p = pid.
Proof.
  unfold product_by_id. intros H. apply find_some in H.
  destruct H as [H1 H2]. apply N.eqb_eq in H2. tauto.
Qed.

Lemma product_by_id_unique l (p : Product num) :
  NoDup (map p_id l) -> In p l -> product_by_id l (p_id p) = Some p.
Proof.
  unfold product_by_id. induction l as [|x rest IH]; simpl; intros ND Hin.
  - contradiction.
  - inversion ND as [|y l' Hx Hl]; subst.
    destruct Hin as [Hin|Hin].
    + subst x. rewrite N.eqb_refl. reflexivity.
    + destruct (N.eqb (p_id x) (p_id p)) eqn:Hid.
      * exfalso. apply N.eqb_eq in Hid. apply Hx. rewrite Hid.
        apply in_map. exact Hin.
      * apply IH; assumption.
Qed.

(** X2.  [get_product] has two distinct failures and one success.  A
    malformed identifier raises the 422 "Invalid product ID format" before
    any store call is made.  A well-formed identifier (the lookup not
    raising) raises the 404 "Product not found" when no product has it,
    and otherwise returns [replace_mongo_id] of a stored product whose
    [_id] is the identifier asked for. *)
Theorem get_product_outcomes (w : W) product_id :
  (is_valid product_id = false ->
   get_product product_id w =
     (Raise (HTTPException HTTP_422_UNPROCESSABLE_ENTITY
               "Invalid product ID format"), w)) /\
  (is_valid product_id = true ->
   faulty (steps w) = false ->
   (product_by_id (products w) (ObjectId product_id) = None ->
    fst (get_product product_id w) =
      Raise (HTTPException HTTP_404_NOT_FOUND "Product not found")) /\
   (forall out, fst (get_product product_id w) = Ok out ->
      exists p, In p (products w) /\ p_id p = ObjectId product_id /\
                out = replace_mongo_id p)).
Proof.
  split.
  - intros V. unfold get_product. rewrite V. reflexivity.
  - intros V NFs. unfold get_product. rewrite V. cbn [negb].
    rewrite (bind_ok _ _ _ _ _ (run_find_product_at _ w NFs)).
    split.
    + intros Hn. rewrite Hn. reflexivity.
    + intros out.
      destruct (product_by_id (products w) (ObjectId product_id))
        as [p|] eqn:Hp; cbn; intros H; inversion H; subst.
      apply product_by_id_in in Hp. exists p. tauto.
Qed.

(** X3.  The listing and the detail view agree.  When the listing call
    does not raise, [get_all_products] returns one entry per stored
    product, in the collection's order; and every stored product whose
    identifier string is accepted back (products having distinct [_id]s)
    is returned by [get_product] on that string as the very entry the
    listing shows for it. *)
Theorem listed_products_can_be_fetched (w : W) (p : Product num) :
  faulty (steps w) = false ->
  NoDup (map p_id (products w)) ->
  In p (products w) ->
  id_round_trip (p_id p) ->
  fst (get_all_products w) = Ok (map replace_mongo_id (products w)) /\
  In (replace_mongo_id p) (map replace_mongo_id (products w)) /\
  fst (get_product (str (p_id p)) w) = Ok (replace_mongo_id p).
Proof.
  intros NFs ND Hin [V RT]. split; [|split].
  - unfold get_all_products, find_products.
    rewrite (bind_ok _ _ _ _ _
               (bind_ok _ _ _ _ _ (run_store_call_at _ w NFs))).
    reflexivity.
  - apply in_map. exact Hin.
  - unfold get_product. rewrite V. cbn [negb].
    rewrite (bind_ok _ _ _ _ _ (run_find_product_at _ w NFs)).
    rewrite RT, (product_by_id_unique _ _ ND Hin). reflexivity.
Qed.

(** ** What [add_to_cart] writes *)

Lemma insert_cart_inv uid items t (w : W) r w' :
  insert_cart uid items t w = (r, w') ->
  same_but_carts w w' /\
  ((exists cid, r = Ok cid /\ carts w' = carts w ++ [mkCart cid uid items t])
   \/ (exists e, r = Raise e /\ carts w' = carts w /\
                 (e = PyMongoError (InsertOne Carts) \/
                  e = DuplicateKeyError Carts))).
Proof.
  unfold insert_cart. intros H. apply bind_inv in H.
  destruct H as [(e & H & Hr) | (n & w1 & H & Hk)];
    apply store_call_inv in H; destruct H as [Hw Hres]; subst.
  - split; [repeat split|]. right. exists e. repeat split.
    destruct Hres as [Hres|Hres]; inversion Hres; subst; auto.
  - unfold bind, gets, modify, raise, ret in Hk. cbn in Hk.
    destruct (existsb _ (carts w)); inversion Hk; subst; cbn.
    + split; [repeat split|]. right. eexists. repeat split. auto.
    + split; [repeat split|]. left. eexists. split; reflexivity.
Qed.

Lemma insert_user_inv a b pw t (w : W) r w' :
  insert_user a b pw t w = (r, w') ->
  products w' = products w /\ carts w' = carts w /\ orders w' = orders w /\
  ((exists uid n, r = Ok uid /\ uid = gen_id n /\
                  users w' = users w ++ [mkUser uid a b pw t])
   \/ (exists e, r = Raise e /\ users w' = users w)).
Proof.
  unfold insert_user. intros H. apply bind_inv in H.
  destruct H as [(e & H & Hr) | (n & w1 & H & Hk)];
    apply store_call_inv in H; destruct H as [Hw Hres]; subst.
  - repeat split. right. exists e. split; reflexivity.
  - unfold bind, gets, modify, raise, ret in Hk. cbn in Hk.
    destruct (existsb _ (users w)); inversion Hk; subst; cbn.
    + repeat split. right. eexists. split; reflexivity.
    + repeat split. left. exists (gen_id n), n. repeat split.
Qed.

Lemma same_but_carts_refl (w : W) : same_but_carts w w.
Proof. repeat split. Qed.

Lemma same_but_carts_trans (w1 w2 w3 : W) :
  same_but_carts w1 w2 -> same_but_carts w2 w3 -> same_but_carts w1 w3.
Proof.
  unfold same_but_carts. intros (A1 & A2 & A3) (B1 & B2 & B3).
  repeat split; congruence.
Qed.

Lemma same_but_carts_same (w w' : W) :
  same_store w w' -> same_but_carts w w'.
Proof. unfold same_store, same_but_carts. tauto. Qed.

(** The ways a run of [add_to_cart] can end: no write and an exception;
    the merged list written to the cart found for the user; a one-entry
    cart appended for a user without one. *)
Lemma add_to_cart_cases (w : W) user_id product_id q r w' :
  add_to_cart user_id product_id q w = (r, w') ->
  same_but_carts w w' /\
  ((carts w' = carts w /\ exists e, r = Raise e) \/
   (r = Ok added /\
    is_valid user_id = true /\ is_valid product_id = true /\
    (exists pr,
       product_by_id (products w) (ObjectId product_id) = Some pr) /\
    ((exists c t,
        cart_of_user (carts w) (ObjectId user_id) = Some c /\
        carts w' =
          set_first (fun d => N.eqb (cart_id d) (cart_id c))
            (merge_item (ObjectId product_id) q (cart_items c)) t (carts w))
     \/
     (cart_of_user (carts w) (ObjectId user_id) = None /\
      exists cid t,
        carts w' =
          carts w ++
            [mkCart cid (ObjectId user_id)
               [mkCartItem (ObjectId product_id) q] t])))).
Proof.
  unfold add_to_cart.
  destruct (is_valid user_id); cbn [negb].
  2:{ unfold raise. intros H. inversion H; subst.
      split; [apply same_but_carts_refl|]. left. eauto. }
  destruct (is_valid product_id); cbn [negb].
  2:{ unfold raise. intros H. inversion H; subst.
      split; [apply same_but_carts_refl|]. left. eauto. }
  intros H. apply bind_inv in H.
  destruct H as [(e & H & Hr) | (op & w1 & H & Hk)];
    apply find_product_inv in H; destruct H as [S1 R1].
  { split; [apply same_but_carts_same; exact S1|]. left.
    split; [apply S1 | eauto]. }
  destruct R1 as [R1|R1]; [discriminate|]. inversion R1; subst op.
  destruct (product_by_id (products w) (ObjectId product_id)) as [pr|] eqn:Hp.
  2:{ unfold raise in Hk. inversion Hk; subst.
      split; [apply same_but_carts_same; exact S1|]. left.
      split; [apply S1 | eauto]. }
  apply bind_inv in Hk.
  destruct Hk as [(e & H & Hr) | (oc & w2 & H & Hk)];
    apply find_cart_inv in H; destruct H as [S2 R2].
  { pose proof (same_store_trans _ _ _ S1 S2) as S12.
    split; [apply same_but_carts_same; exact S12|]. left.
    split; [apply S12 | eauto]. }
  destruct R2 as [R2|R2]; [discriminate|]. inversion R2; subst oc.
  pose proof (same_store_trans _ _ _ S1 S2) as S12.
  assert (C1 : carts w1 = carts w) by apply S1.
  rewrite C1 in Hk.
  destruct (cart_of_user (carts w) (ObjectId user_id)) as [c|] eqn:Hc.
  - apply bind_inv in Hk.
    destruct Hk as [(e & H & Hr) | (t & w3 & H & Hk)];
      apply now_inv in H; destruct H as [S3 [t3 R3]]; [discriminate|].
    pose proof (same_store_trans _ _ _ S12 S3) as S13.
    destruct S13 as (P13 & U13 & C13 & O13).
    apply bind_inv in Hk.
    destruct Hk as [(e & H & Hr) | (u & w4 & H & Hk)];
      apply update_cart_inv in H;
      destruct H as (P4 & U4 & O4 & [[R4 C4] | [R4 C4]]);
      try discriminate.
    + split; [repeat split; congruence|]. left.
      split; [congruence | eauto].
    + unfold ret in Hk. inversion Hk; subst.
      split; [repeat split; congruence|]. right.
      split; [reflexivity|]. repeat split. { eauto. }
      left. exists c, t. split; [reflexivity|]. congruence.
  - apply bind_inv in Hk.
    destruct Hk as [(e & H & Hr) | (t & w3 & H & Hk)];
      apply now_inv in H; destruct H as [S3 [t3 R3]]; [discriminate|].
    pose proof (same_store_trans _ _ _ S12 S3) as S13.
    destruct S13 as (P13 & U13 & C13 & O13).
    apply bind_inv in Hk.
    destruct Hk as [(e & H & Hr) | (cid & w4 & H & Hk)];
      apply insert_cart_inv in H;
      destruct H as ((P4 & U4 & O4) &
                     [(cid' & R4 & C4) | (e' & R4 & C4 & _)]);
      try discriminate.
    + split; [repeat split; congruence|]. left.
      split; [congruence | eauto].
    + unfold ret in Hk. inversion Hk; subst.
      split; [repeat split; congruence|]. right.
      split; [reflexivity|]. repeat split. { eauto. }
      right. split; [reflexivity|]. exists cid', t. congruence.
Qed.

(** X4.  [add_to_cart] checks before it writes.  A malformed user
    identifier raises the 422 "Invalid user ID" (also when the product
    identifier is malformed too), a malformed product identifier the 422
    "Invalid product ID", both before any store call; a well-formed
    identifier of no product raises the 404 "Product not found" (the
    lookup not raising).  And whichever store calls raise, a run for an
    identifier of no product raises and writes nothing: no cart is created
    or changed for a product that does not exist. *)
Theorem add_to_cart_rejects_without_writing (w : W) user_id product_id q :
  (is_valid user_id = false ->
   add_to_cart user_id product_id q w =
     (Raise (HTTPException HTTP_422_UNPROCESSABLE_ENTITY "Invalid user ID"),
      w)) /\
  (is_valid user_id = true -> is_valid product_id = false ->
   add_to_cart user_id product_id q w =
     (Raise (HTTPException HTTP_422_UNPROCESSABLE_ENTITY
               "Invalid product ID"), w)) /\
  (is_valid user_id = true -> is_valid product_id = true ->
   faulty (steps w) = false ->
   product_by_id (products w) (ObjectId product_id) = None ->
   fst (add_to_cart user_id product_id q w) =
     Raise (HTTPException HTTP_404_NOT_FOUND "Product not found")) /\
  (product_by_id (products w) (ObjectId product_id) = None ->
   forall r w',
     add_to_cart user_id product_id q w = (r, w') ->
     same_store w w' /\ exists e, r = Raise e).
Proof.
  split; [|split; [|split]].
  - intros V. unfold add_to_cart. rewrite V. reflexivity.
  - intros Vu Vp. unfold add_to_cart. rewrite Vu, Vp. reflexivity.
  - intros Vu Vp NFs Hn. unfold add_to_cart. rewrite Vu, Vp. cbn [negb].
    rewrite (bind_ok _ _ _ _ _ (run_find_product_at _ w NFs)), Hn.
    reflexivity.
  - intros Hn r w' H. apply add_to_cart_cases in H.
    destruct H as [(P & U & O) [[C Hr] | (_ & _ & _ & [pr Hp] & _)]].
    + split; [repeat split; assumption | exact Hr].
    + congruence.
Qed.

Lemma set_first_user_ids sel items t l :
  map cart_user_id (set_first sel items t l) = map cart_user_id l.
Proof.
  induction l as [|d rest IH]; simpl.
  - reflexivity.
  - destruct (sel d); simpl; [reflexivity | now rewrite IH].
Qed.

(** Rewriting a cart does not change which cart another user has. *)
Lemma cart_of_user_set_first_other sel items t l uid' :
  (forall d, In d l -> sel d = true -> cart_user_id d <> uid') ->
  cart_of_user (set_first sel items t l) uid' = cart_of_user l uid'.
Proof.
  unfold cart_of_user. induction l as [|d rest IH]; simpl; intros Hsel.
  - reflexivity.
  - destruct (sel d) eqn:Hd; simpl.
    + apply (Hsel d (or_introl eq_refl)) in Hd. apply N.eqb_neq in Hd.
      rewrite Hd. reflexivity.
    + destruct (N.eqb (cart_user_id d) uid'); [reflexivity|].
      apply IH. intros x Hx. apply Hsel. right. exact Hx.
Qed.

Lemma cart_of_user_app_other l c uid' :
  cart_user_id c <> uid' ->
  cart_of_user (l ++ [c]) uid' = cart_of_user l uid'.
Proof.
  intros Hne. unfold cart_of_user. induction l as [|d rest IH]; simpl.
  - apply N.eqb_neq in Hne. rewrite Hne. reflexivity.
  - destruct (N.eqb (cart_user_id d) uid'); [reflexivity | exact IH].
Qed.

(** With distinct [_id]s, the only cart with the [_id] of a stored cart
    is that cart. *)
Lemma same_id_same_cart l (c d : Cart) :
  NoDup (map cart_id l) -> In c l -> In d l -> cart_id d = cart_id c ->
  d = c.
Proof.
  induction l as [|x rest IH]; simpl; intros ND Hc Hd Hid.
  - contradiction.
  - inversion ND as [|y l' Hx Hl]; subst.
    destruct Hc as [Hc|Hc]; destruct Hd as [Hd|Hd].
    + congruence.
    + subst x. exfalso. apply Hx. rewrite <- Hid. apply in_map. exact Hd.
    + subst x. exfalso. apply Hx. rewrite Hid. apply in_map. exact Hc.
    + apply IH; assumption.
Qed.

(** X5.  [add_to_cart] touches one cart only.  Whichever store calls
    raise, it leaves products, users and orders as they were; and (carts
    having distinct [_id]s) the cart every other user has is the same
    before and after. *)
Theorem add_to_cart_frame (w : W) user_id product_id q :
  same_but_carts w (snd (add_to_cart user_id product_id q w)) /\
  (NoDup (map cart_id (carts w)) ->
   forall uid', uid' <> ObjectId user_id ->
     cart_of_user (carts (snd (add_to_cart user_id product_id q w))) uid' =
     cart_of_user (carts w) uid').
Proof.
  destruct (add_to_cart user_id product_id q w) as [r w'] eqn:H.
  apply add_to_cart_cases in H. destruct H as [F H]. cbn [snd].
  split; [exact F|]. intros ND uid' Hne.
  destruct H as [[C _] | (_ & _ & _ & _ & [(c & t & Hc & C) | (Hc & cid & t & C)])];
    rewrite C.
  - reflexivity.
  - apply cart_of_user_in in Hc. destruct Hc as [Hin Hu].
    apply cart_of_user_set_first_other. intros d Hdin Hd.
    apply N.eqb_eq in Hd.
    rewrite (same_id_same_cart _ c d ND Hin Hdin Hd). congruence.
  - apply cart_of_user_app_other. cbn. congruence.
Qed.

(** ** What [checkout] leaves alone *)

Lemma same_catalog_and_users_refl (w : W) : same_catalog_and_users w w.
Proof. split; reflexivity. Qed.

Lemma same_catalog_and_users_trans (w1 w2 w3 : W) :
  same_catalog_and_users w1 w2 -> same_catalog_and_users w2 w3 ->
  same_catalog_and_users w1 w3.
Proof.
  unfold same_catalog_and_users. intros [A1 A2] [B1 B2].
  split; congruence.
Qed.

Lemma same_catalog_and_users_same (w w' : W) :
  same_store w w' -> same_catalog_and_users w w'.
Proof. unfold same_store, same_catalog_and_users. tauto. Qed.

Lemma pres_checkout user_id :
  preserves same_catalog_and_users (checkout user_id).
Proof.
  pose proof same_catalog_and_users_refl as Rr.
  pose proof same_catalog_and_users_trans as Rt.
  pose proof same_catalog_and_users_same as Rs.
  unfold checkout. destruct (is_valid user_id); cbn [negb];
    [|apply (pres_raise _ Rr)].
  apply (pres_bind _ Rt); [apply (pres_same _ Rs), pres_find_cart|].
  intros [c|]; [|apply (pres_raise _ Rr)].
  destruct (is_empty (cart_items c)); [apply (pres_raise _ Rr)|].
  apply (pres_bind _ Rt); [apply (pres_same _ Rs), pres_checkout_loop|].
  intros [lines total].
  apply (pres_bind _ Rt); [apply (pres_same _ Rs), pres_now|].
  intros created.
  apply (pres_bind _ Rt).
  { intros w r w' H. apply insert_order_inv in H. split; apply H. }
  intros oid'.
  apply (pres_bind _ Rt); [apply (pres_same _ Rs), pres_now|].
  intros updated.
  apply (pres_bind _ Rt).
  { intros w r w' H. apply update_cart_inv in H. split; apply H. }
  intros u. apply (pres_ret _ Rr).
Qed.

(** X6.  [checkout] touches the requesting user's cart and the end of
    the orders only.  Whichever store calls raise, it leaves products and
    users as they were, leaves every stored order as it was and appends at
    most one, and the cart every other user has is the same before and
    after. *)
Theorem checkout_frame (w : W) user_id :
  same_catalog_and_users w (snd (checkout user_id w)) /\
  (orders (snd (checkout user_id w)) = orders w \/
   exists o, orders (snd (checkout user_id w)) = orders w ++ [o]) /\
  (forall uid', uid' <> ObjectId user_id ->
     cart_of_user (carts (snd (checkout user_id w))) uid' =
     cart_of_user (carts w) uid').
Proof.
  destruct (checkout user_id w) as [r w'] eqn:H. cbn [snd].
  split; [apply (pres_checkout _ _ _ _ H)|].
  apply checkout_cases in H.
  destruct H as [[S _] | [(o & O & C & _) | (o & resp & t & O & C & _)]].
  - split; [left; apply S|]. intros uid' _.
    replace (carts w') with (carts w) by (symmetry; apply S). reflexivity.
  - split; [right; eauto|]. intros uid' _. rewrite C. reflexivity.
  - split; [right; eauto|]. intros uid' Hne. rewrite C.
    apply cart_of_user_set_first_other. intros d _ Hd.
    apply N.eqb_eq in Hd. congruence.
Qed.

(** ** What [register_user] writes *)

(** The ways a run of [register_user] can end: nothing written; the user
    written and the cart not, the cart's insertion having raised; both
    written. *)
Lemma register_user_cases (w : W) username email password r w' :
  register_user username email password w = (r, w') ->
  same_catalog_and_orders w w' /\
  ((users w' = users w /\ carts w' = carts w /\ exists e, r = Raise e) \/
   (user_matching (users w) username email = None /\
    exists n created,
      users w' =
        users w ++
          [mkUser (gen_id n) username email (hash_password password)
             created] /\
      ((carts w' = carts w /\
        (r = Raise (PyMongoError (InsertOne Carts)) \/
         r = Raise (DuplicateKeyError Carts))) \/
       (exists cid updated,
          carts w' = carts w ++ [mkCart cid (gen_id n) [] updated] /\
          r = Ok (mkRegisterResponse "User registered successfully"
                    (str (gen_id n))))))).
Proof.
  unfold register_user. intros H. apply bind_inv in H.
  destruct H as [(e & H & Hr) | (ou & w1 & H & Hk)];
    apply find_user_inv in H; destruct H as [S1 R1].
  { split; [split; apply S1|]. left. repeat split; try apply S1. eauto. }
  destruct R1 as [R1|R1]; [discriminate|]. inversion R1; subst ou.
  destruct (user_matching (users w) username email) as [u|] eqn:Hm.
  { unfold raise in Hk. inversion Hk; subst.
    split; [split; apply S1|]. left. repeat split; try apply S1. eauto. }
  apply bind_inv in Hk.
  destruct Hk as [(e & H & Hr) | (created & w2 & H & Hk)];
    apply now_inv in H; destruct H as [S2 [t2 R2]]; [discriminate|].
  pose proof (same_store_trans _ _ _ S1 S2) as S12.
  destruct S12 as (P12 & U12 & C12 & O12).
  apply bind_inv in Hk.
  destruct Hk as [(e & H & Hr) | (uid & w3 & H & Hk)];
    apply insert_user_inv in H;
    destruct H as (P3 & C3 & O3 &
                   [(uid' & n & R3 & Hn & U3) | (e' & R3 & U3)]);
    try discriminate.
  { split; [split; congruence|]. left.
    repeat split; try congruence. eauto. }
  inversion R3; subst uid' uid.
  apply bind_inv in Hk.
  destruct Hk as [(e & H & Hr) | (updated & w4 & H & Hk)];
    apply now_inv in H; destruct H as [S4 [t4 R4]]; [discriminate|].
  destruct S4 as (P4 & U4 & C4 & O4).
  apply bind_inv in Hk.
  destruct Hk as [(e & H & Hr) | (cid & w5 & H & Hk)];
    apply insert_cart_inv in H;
    destruct H as ((P5 & U5 & O5) &
                   [(cid' & R5 & C5) | (e' & R5 & C5 & He)]);
    try discriminate.
  - split; [split; congruence|]. right. split; [reflexivity|].
    exists n, created. split; [congruence|]. left.
    split; [congruence|]. inversion R5; subst e' r.
    destruct He; subst; auto.
  - unfold ret in Hk. inversion Hk; subst.
    split; [split; congruence|]. right. split; [reflexivity|].
    exists n, created. split; [congruence|]. right.
    exists cid', updated. split; [congruence | reflexivity].
Qed.

(** X7.  [register_user] only appends.  Whichever store calls raise, it
    leaves products and orders as they were, leaves every stored user and
    cart as it was, appends at most one user (the requested username and
    email, the password field [hash_password password]) and at most one
    cart; a cart is appended only together with the user, it is that
    user's and it is empty; and the run succeeds exactly when both were
    appended. *)
Theorem register_user_effects (w : W) username email password :
  let r := fst (register_user username email password w) in
  let w' := snd (register_user username email password w) in
  same_catalog_and_orders w w' /\
  ((users w' = users w /\ carts w' = carts w /\ exists e, r = Raise e) \/
   (exists uid created,
      users w' =
        users w ++
          [mkUser uid username email (hash_password password) created] /\
      ((carts w' = carts w /\ exists e, r = Raise e) \/
       (exists cid updated resp,
          carts w' = carts w ++ [mkCart cid uid [] updated] /\
          r = Ok resp /\ reg_user_id resp = str uid)))).
Proof.
  intros r w'. subst r w'.
  destruct (register_user username email password w) as [r w'] eqn:H.
  cbn [fst snd]. apply register_user_cases in H.
  destruct H as [F [H | (_ & n & created & U & [[C Hr] | (cid & upd & C & Hr)])]].
  - split; [exact F|]. left. exact H.
  - split; [exact F|]. right. exists (gen_id n), created.
    split; [exact U|]. left. split; [exact C|].
    destruct Hr as [Hr|Hr]; eauto.
  - split; [exact F|]. right. exists (gen_id n), created.
    split; [exact U|]. right. eexists cid, upd, _.
    split; [exact C|]. split; [exact Hr | reflexivity].
Qed.

(** ** One cart per user *)

Lemma cart_of_user_none l uid :
  cart_of_user l uid = None -> ~ In uid (map cart_user_id l).
Proof.
  unfold cart_of_user. intros H Hin. apply in_map_iff in Hin.
  destruct Hin as (c & Hc & Hin).
  pose proof (find_none _ _ H c Hin) as Hn. cbv beta in Hn.
  apply N.eqb_neq in Hn. congruence.
Qed.

Lemma NoDup_snoc (l : list oid) x : NoDup l -> ~ In x l -> NoDup (l ++ [x]).
Proof.
  intros ND Hx. apply NoDup_app; [exact ND | | ].
  - constructor; [simpl; tauto | constructor].
  - intros y Hy [Hy'|[]]. subst y. tauto.
Qed.

(** X8.  The handlers keep "at most one cart per user".  From a store
    in which no two carts have the same [user_id], whichever store calls
    raise: [add_to_cart] and [checkout] end in such a store, for all
    arguments ([add_to_cart] creates a cart only for a user without one);
    and so does [register_user] when the identifiers the driver generates
    are not already the [user_id] of a cart. *)
Theorem handlers_keep_one_cart_per_user (w : W) :
  one_cart_per_user w ->
  (forall user_id product_id q,
     one_cart_per_user (snd (add_to_cart user_id product_id q w))) /\
  (forall user_id, one_cart_per_user (snd (checkout user_id w))) /\
  (fresh_for (map cart_user_id (carts w)) ->
   forall username email password,
     one_cart_per_user (snd (register_user username email password w))).
Proof.
  unfold one_cart_per_user. intros I. split; [|split].
  - intros user_id product_id q.
    destruct (add_to_cart user_id product_id q w) as [r w'] eqn:H.
    cbn [snd]. apply add_to_cart_cases in H. destruct H as [_ H].
    destruct H as [[C _] | (_ & _ & _ & _ & [(c & t & Hc & C) | (Hc & cid & t & C)])];
      rewrite C.
    + exact I.
    + rewrite set_first_user_ids. exact I.
    + rewrite map_app. cbn. apply NoDup_snoc; [exact I|].
      apply cart_of_user_none. exact Hc.
  - intros user_id.
    destruct (checkout user_id w) as [r w'] eqn:H. cbn [snd].
    apply checkout_cases in H.
    destruct H as [[S _] | [(o & _ & C & _) | (o & resp & t & _ & C & _)]].
    + replace (carts w') with (carts w) by (symmetry; apply S). exact I.
    + rewrite C. exact I.
    + rewrite C, set_first_user_ids. exact I.
  - intros F username email password.
    destruct (register_user username email password w) as [r w'] eqn:H.
    cbn [snd]. apply register_user_cases in H. destruct H as [_ H].
    destruct H as [(_ & C & _) | (_ & n & created & _ & [[C _] | (cid & upd & C & _)])];
      rewrite C; try exact I.
    rewrite map_app. cbn. apply NoDup_snoc; [exact I | apply F].
Qed.

(** ** A registration that fails half way *)

Lemma user_matching_app_some l x a b u :
  user_matching l a b = Some u -> user_matching (l ++ [x]) a b = Some u.
Proof.
  unfold user_matching. induction l as [|y rest IH]; simpl; intros H.
  - discriminate.
  - destruct (String.eqb (u_username y) a || String.eqb (u_email y) b);
      [exact H | apply IH; exact H].
Qed.

Lemma bind_raised {A B} (m : M A) (k : A -> M B) w e w' :
  m w = (Raise e, w') -> bind m k w = (Raise e, w').
Proof. intros H. unfold bind. rewrite H. reflexivity. Qed.

Lemma run_insert_user_at a b p t (w : W) :
  faulty (steps w) = false ->
  ~ In (gen_id (steps w)) (map u_id (users w)) ->
  insert_user a b p t w =
  (Ok (gen_id (steps w)),
   set_users (set_steps w (S (steps w)))
     (users w ++ [mkUser (gen_id (steps w)) a b p t])).
Proof.
  intros NFs F. unfold insert_user.
  rewrite (bind_ok _ _ _ _ _ (run_store_call_at _ w NFs)).
  unfold bind, gets. simpl. rewrite (existsb_fresh _ _ _ F). reflexivity.
Qed.

Lemma insert_cart_raises_at uid items t (w : W) :
  faulty (steps w) = true ->
  insert_cart uid items t w =
  (Raise (PyMongoError (InsertOne Carts)), set_steps w (S (steps w))).
Proof.
  intros Fs. unfold insert_cart, store_call, bind, tick. rewrite Fs.
  reflexivity.
Qed.

(** X9.  [register_user] is not all-or-nothing.  When the pre-check
    finds no user and the user's insertion goes through but the cart's
    insertion raises, the run raises and the new user stays stored without
    a cart; a retry with the same username then raises the 409 conflict,
    whatever email and password it carries. *)
Theorem register_user_partial_then_conflict (w : W) username email password :
  faulty (steps w) = false ->
  faulty (steps w + 2) = false ->
  faulty (steps w + 4) = true ->
  faulty (steps w + 5) = false ->
  user_matching (users w) username email = None ->
  ~ In (gen_id (steps w + 2)) (map u_id (users w)) ->
  let w' := snd (register_user username email password w) in
  fst (register_user username email password w) =
    Raise (PyMongoError (InsertOne Carts)) /\
  users w' =
    users w ++
      [mkUser (gen_id (steps w + 2)) username email (hash_password password)
         (utcnow (steps w + 1))] /\
  carts w' = carts w /\
  forall email2 password2,
    fst (register_user username email2 password2 w') =
      Raise (HTTPException HTTP_409_CONFLICT
               "Username or email already exists").
Proof.
  intros F0 F2 F4 F5 Hm Hf w'.
  replace (steps w + 2)%nat with (S (S (steps w))) in * by lia.
  replace (steps w + 4)%nat with (S (S (S (S (steps w))))) in * by lia.
  replace (steps w + 5)%nat with (S (S (S (S (S (steps w)))))) in * by lia.
  replace (steps w + 1)%nat with (S (steps w)) in * by lia.
  assert (R : register_user username email password w =
    (Raise (PyMongoError (InsertOne Carts)),
     mkWorld (products w)
       (users w ++
          [mkUser (gen_id (S (S (steps w)))) username email
             (hash_password password) (utcnow (S (steps w)))])
       (carts w) (orders w) (S (S (S (S (S (steps w)))))))).
  { unfold register_user.
    rewrite (bind_ok _ _ _ _ _ (run_find_user_at _ _ w F0)), Hm.
    rewrite (bind_ok _ _ _ _ _ (run_now _)).
    erewrite bind_ok; [|apply run_insert_user_at; [exact F2 | exact Hf]].
    rewrite (bind_ok _ _ _ _ _ (run_now _)).
    erewrite bind_raised; [|apply insert_cart_raises_at; exact F4].
    reflexivity. }
  subst w'. rewrite R. cbn [fst snd users carts].
  repeat split.
  intros email2 password2. unfold register_user.
  erewrite bind_ok; [|apply run_find_user_at; exact F5].
  cbn [users].
  destruct (user_matching_some
              (users w ++
                 [mkUser (gen_id (S (S (steps w)))) username email
                    (hash_password password) (utcnow (S (steps w)))])
              username email2) as [u' Hu'].
  { eexists. split; [apply in_or_app; right; left; reflexivity|].
    left. reflexivity. }
  rewrite Hu'. reflexivity.
Qed.

(** ** Checkout of any cart *)

Lemma joined_snapshot_quantities ps items :
  sum_Z (map ol_quantity (joined snapshot ps items)) =
  sum_Z (map item_quantity (resolving ps items)).
Proof.
  induction items as [|i rest IH]; simpl.
  - reflexivity.
  - destruct (product_by_id ps (item_product_id i)); simpl;
      rewrite ?sum_Z_cons, IH; reflexivity.
Qed.

Lemma joined_same_quantities ps items :
  map cl_quantity (joined cart_line ps items) =
  map ol_quantity (joined snapshot ps items).
Proof.
  induction items as [|i rest IH]; simpl.
  - reflexivity.
  - destruct (product_by_id ps (item_product_id i)); simpl;
      rewrite ?IH; reflexivity.
Qed.

Lemma joined_same_subtotals ps items :
  map cl_subtotal (joined cart_line ps items) =
  map ol_subtotal (joined snapshot ps items).
Proof.
  induction items as [|i rest IH]; simpl.
  - reflexivity.
  - destruct (product_by_id ps (item_product_id i)); simpl;
      rewrite ?IH; reflexivity.
Qed.

(** X10.  On any non-empty cart, with or without stale entries, when no
    store call raises and the generated order identifier is new,
    [checkout] succeeds and appends one order of that user with status
    "completed"; its lines are, in the cart's order, the snapshots of
    exactly the stored entries whose product resolves; its total is the
    sum of its lines' subtotals; and the reported [total_items] is the sum
    of the stored quantities of the resolving entries only. *)
Theorem checkout_skips_stale_entries (w : W) user_id c :
  no_faults ->
  fresh_for (map o_id (orders w)) ->
  is_valid user_id = true ->
  cart_of_user (carts w) (ObjectId user_id) = Some c ->
  cart_items c <> [] ->
  exists resp o w',
    checkout user_id w = (Ok resp, w') /\
    orders w' = orders w ++ [o] /\
    o_user_id o = ObjectId user_id /\
    o_status o = "completed"%string /\
    co_order_id resp = str (o_id o) /\
    sum_items (co_order_summary resp) = o_items o /\
    Forall2 (is_snapshot (products w))
      (resolving (products w) (cart_items c)) (o_items o) /\
    o_total_amount o = sum_num (map ol_subtotal (o_items o)) /\
    sum_total_amount (co_order_summary resp) = o_total_amount o /\
    sum_total_items (co_order_summary resp) =
      sum_Z (map item_quantity (resolving (products w) (cart_items c))).
Proof.
  intros NF F V Hc Hne.
  pose proof (run_checkout NF w user_id c V Hc Hne F) as R.
  cbv zeta in R.
  eexists _, _, _. split; [exact R|]. cbn.
  repeat split; try reflexivity.
  - apply joined_snapshot_resolving.
  - apply joined_snapshot_quantities.
Qed.

(** X11.  What the cart view shows is what checkout charges.  On a
    non-empty cart, when no store call raises, the lines [get_cart]
    returns and the lines of the order [checkout] creates from the same
    store have, line by line, the same quantities and the same subtotals;
    the view's [total_items] exceeds the order's by the quantities of the
    stale entries. *)
Theorem checkout_agrees_with_cart_view (w : W) user_id c :
  no_faults ->
  fresh_for (map o_id (orders w)) ->
  is_valid user_id = true ->
  cart_of_user (carts w) (ObjectId user_id) = Some c ->
  cart_items c <> [] ->
  exists lines total resp,
    fst (get_cart user_id w) = Ok (CartContents user_id lines total) /\
    fst (checkout user_id w) = Ok resp /\
    map cl_quantity lines =
      map ol_quantity (sum_items (co_order_summary resp)) /\
    map cl_subtotal lines =
      map ol_subtotal (sum_items (co_order_summary resp)) /\
    total = sum_total_items (co_order_summary resp) +
            sum_Z (map item_quantity (stale (products w) (cart_items c))).
Proof.
  intros NF F V Hc Hne.
  pose proof (run_checkout NF w user_id c V Hc Hne F) as R.
  cbv zeta in R.
  pose proof (run_get_cart NF w user_id c V Hc Hne) as G.
  eexists _, _, _. rewrite G, R. cbn [fst].
  split; [reflexivity|]. split; [reflexivity|].
  cbn [co_order_summary sum_items sum_total_items].
  split; [apply joined_same_quantities|].
  split; [apply joined_same_subtotals|].
  rewrite (joined_quantities (products w)), joined_same_quantities.
  reflexivity.
Qed.

(** ** The empty cart *)

Lemma run_get_cart_empty (w : W) user_id :
  is_valid user_id = true ->
  faulty (steps w) = false ->
  (cart_of_user (carts w) (ObjectId user_id) = None \/
   exists c, cart_of_user (carts w) (ObjectId user_id) = Some c /\
             cart_items c = []) ->
  get_cart user_id w =
    (Ok (CartEmpty "Cart is empty" []), set_steps w (S (steps w))).
Proof.
  intros V NFs Hc. unfold get_cart. rewrite V. cbn [negb].
  rewrite (bind_ok _ _ _ _ _ (run_find_cart_at _ w NFs)).
  destruct Hc as [Hc | (c & Hc & Hi)]; rewrite Hc; [reflexivity|].
  rewrite Hi. reflexivity.
Qed.

(** X12.  Edge inputs of the two cart readers.  A malformed user
    identifier makes [get_cart] and [checkout] raise the 422 "Invalid user
    ID" before any store call.  For [get_cart] an absent cart and a cart
    with no entries are not errors: with a valid identifier (the lookup
    not raising) it returns the message "Cart is empty" with an empty list
    of lines, and makes no further store call. *)
Theorem cart_readers_edge_inputs (w : W) user_id :
  (is_valid user_id = false ->
   get_cart user_id w =
     (Raise (HTTPException HTTP_422_UNPROCESSABLE_ENTITY "Invalid user ID"),
      w) /\
   checkout user_id w =
     (Raise (HTTPException HTTP_422_UNPROCESSABLE_ENTITY "Invalid user ID"),
      w)) /\
  (is_valid user_id = true ->
   faulty (steps w) = false ->
   (cart_of_user (carts w) (ObjectId user_id) = None \/
    exists c, cart_of_user (carts w) (ObjectId user_id) = Some c /\
              cart_items c = []) ->
   get_cart user_id w =
     (Ok (CartEmpty "Cart is empty" []), set_steps w (S (steps w)))).
Proof.
  split.
  - intros V. unfold get_cart, checkout. rewrite V. split; reflexivity.
  - apply run_get_cart_empty.
Qed.

(** X13.  A checkout cannot be repeated.  After a successful
    [checkout] (non-empty cart, no store call raising, new order
    identifier), the same user's [get_cart] returns the empty-cart message
    and a second [checkout] raises the 400 "Cart is empty" and writes
    nothing: one order per filled cart. *)
Theorem checkout_empties_the_cart (w : W) user_id c :
  no_faults ->
  fresh_for (map o_id (orders w)) ->
  is_valid user_id = true ->
  cart_of_user (carts w) (ObjectId user_id) = Some c ->
  cart_items c <> [] ->
  let w1 := snd (checkout user_id w) in
  (exists resp, fst (checkout user_id w) = Ok resp) /\
  fst (get_cart user_id w1) = Ok (CartEmpty "Cart is empty" []) /\
  fst (checkout user_id w1) =
    Raise (HTTPException HTTP_400_BAD_REQUEST "Cart is empty") /\
  same_store w1 (snd (checkout user_id w1)).
Proof.
  intros NF F V Hc Hne w1.
  pose proof (run_checkout NF w user_id c V Hc Hne F) as R.
  cbv zeta in R. subst w1. rewrite R. cbn [fst snd].
  split; [eauto|].
  match goal with
  | |- context [get_cart user_id ?x] => set (w1 := x)
  end.
  assert (Hc1 : exists c1, cart_of_user (carts w1) (ObjectId user_id) = Some c1
                           /\ cart_items c1 = []).
  { eexists. split; [apply cart_of_user_set_first; exact Hc | reflexivity]. }
  destruct Hc1 as (c1 & Hc1 & Hi1).
  split; [|split].
  - rewrite (run_get_cart_empty w1 user_id V (NF _)); [reflexivity|].
    right. eauto.
  - unfold checkout. rewrite V. cbn [negb].
    rewrite (bind_ok _ _ _ _ _ (run_find_cart NF _ w1)), Hc1, Hi1.
    reflexivity.
  - unfold checkout. rewrite V. cbn [negb].
    rewrite (bind_ok _ _ _ _ _ (run_find_cart NF _ w1)), Hc1, Hi1.
    cbn. repeat split.
Qed.

(** ** Login *)

Lemma user_matching_in l a b u :
  user_matching l a b = Some u ->
  In u l /\ (u_username u = a \/ u_email u = b).
Proof.
  unfold user_matching. intros H. apply find_some in H.
  destruct H as [H1 H2]. split; [exact H1|].
  apply orb_true_iff in H2. destruct H2 as [H2|H2];
    apply String.eqb_eq in H2; tauto.
Qed.

(** X14.  [login_user] succeeds only against a verified password.
    Whichever store calls raise, a successful login returns the identifier
    and username of a stored user: the first one, in the collection's
    order, whose username or whose email is the identifier given, and the
    password given verifies against that user's stored hash.  Conversely,
    when the lookup does not raise and that first user's hash verifies the
    password, the login succeeds. *)
Theorem login_user_succeeds_only_verified (w : W) x pw :
  (forall resp w',
     login_user x pw w = (Ok resp, w') ->
     exists u,
       user_matching (users w) x x = Some u /\
       In u (users w) /\ (u_username u = x \/ u_email u = x) /\
       verify_password pw (u_password u) = true /\
       resp = mkLoginResponse "Login successful" (str (u_id u))
                (u_username u)) /\
  (forall u,
     faulty (steps w) = false ->
     user_matching (users w) x x = Some u ->
     verify_password pw (u_password u) = true ->
     fst (login_user x pw w) =
       Ok (mkLoginResponse "Login successful" (str (u_id u))
             (u_username u))).
Proof.
  split.
  - intros resp w' H. unfold login_user in H. apply bind_inv in H.
    destruct H as [(e & _ & Hr) | (ou & w1 & H & Hk)]; [discriminate|].
    apply find_user_inv in H. destruct H as [_ R1].
    destruct R1 as [R1|R1]; [discriminate|]. inversion R1; subst ou.
    destruct (user_matching (users w) x x) as [u|] eqn:Hm;
      [|unfold raise in Hk; discriminate].
    destruct (verify_password pw (u_password u)) eqn:Hv; cbn [negb] in Hk;
      [|unfold raise in Hk; discriminate].
    unfold ret in Hk. inversion Hk; subst.
    exists u. pose proof (user_matching_in _ _ _ _ Hm) as [Hin Hx].
    split; [reflexivity|]. split; [exact Hin|].
    split; [destruct Hx; auto|]. split; [exact Hv | reflexivity].
  - intros u NFs Hm Hv. unfold login_user.
    rewrite (bind_ok _ _ _ _ _ (run_find_user_at _ _ w NFs)), Hm, Hv.
    reflexivity.
Qed.

Lemma user_matching_app_none l x a b :
  user_matching l a b = None ->
  u_username x = a \/ u_email x = b ->
  user_matching (l ++ [x]) a b = Some x.
Proof.
  unfold user_matching. induction l as [|y rest IH]; simpl; intros H Hx.
  - assert (Hb : String.eqb (u_username x) a || String.eqb (u_email x) b
                 = true).
    { apply orb_true_iff.
      destruct Hx as [Hx|Hx]; [left|right]; apply String.eqb_eq; exact Hx. }
    rewrite Hb. reflexivity.
  - destruct (String.eqb (u_username y) a || String.eqb (u_email y) b);
      [discriminate | apply IH; assumption].
Qed.

(** X15.  Registration and login round trip.  After a successful
    [register_user] (no store call raising, new generated identifiers, no
    stored user with the username or the email), a login with the
    registered password by the new username, or by the new email, succeeds
    and returns the identifier the registration returned, provided the
    hashing helpers verify a password against its own hash and the
    identifier used did not already resolve to a stored user. *)
Theorem register_then_login (w : W) username email password x :
  no_faults ->
  fresh_for (map u_id (users w)) ->
  fresh_for (map cart_id (carts w)) ->
  user_matching (users w) username email = None ->
  x = username \/ x = email ->
  user_matching (users w) x x = None ->
  verify_password password (hash_password password) = true ->
  exists resp w1 lresp,
    register_user username email password w = (Ok resp, w1) /\
    fst (login_user x password w1) = Ok lresp /\
    login_user_id lresp = reg_user_id resp /\
    login_username lresp = username.
Proof.
  intros NF Fu Fc Hm Hx Hn Hv.
  eexists _, _, _.
  split; [apply (run_register_user NF w _ _ _ Hm Fu Fc)|].
  unfold login_user.
  rewrite (bind_ok _ _ _ _ _ (run_find_user NF _ _ _)). cbn [users].
  rewrite (user_matching_app_none _ _ _ _ Hn).
  2:{ cbn. destruct Hx; subst; auto. }
  cbn [u_password]. rewrite Hv. cbn. repeat split.
Qed.

(** X16.  Registration never takes over an identifier.  Whatever
    [register_user] is called with and however the run ends, an identifier
    that resolved to a stored user before resolves to the same user after,
    so a login with it has the same result (the lookups not raising).  In
    particular a new account whose username is the email of an older
    account is not the one a login by that name reaches. *)
Theorem register_user_keeps_logins (w : W) username email password x u0 :
  user_matching (users w) x x = Some u0 ->
  let w1 := snd (register_user username email password w) in
  user_matching (users w1) x x = Some u0 /\
  (faulty (steps w) = false -> faulty (steps w1) = false ->
   forall pw, fst (login_user x pw w1) = fst (login_user x pw w)).
Proof.
  intros Hm w1.
  assert (Hm1 : user_matching (users w1) x x = Some u0).
  { subst w1.
    destruct (register_user username email password w) as [r w'] eqn:H.
    cbn [snd]. apply register_user_cases in H. destruct H as [_ H].
    destruct H as [(U & _) | (_ & n & created & U & _)]; rewrite U.
    - exact Hm.
    - apply user_matching_app_some. exact Hm. }
  split; [exact Hm1|].
  intros F0 F1 pw. unfold login_user.
  rewrite (bind_ok _ _ _ _ _ (run_find_user_at _ _ w F0)), Hm.
  rewrite (bind_ok _ _ _ _ _ (run_find_user_at _ _ w1 F1)), Hm1.
  destruct (negb (verify_password pw (u_password u0))); reflexivity.
Qed.

(** ** Registration followed by a first addition *)



(** ** Entries stay where they are *)



(** ** The order history *)

Section History.

Context {OE : OrdersEnv}.

Lemma run_find_orders_at uid (w : W) :
  faulty (steps w) = false ->
  find_orders uid w =
  (Ok (sort_created_at_desc (orders_of_user (orders w) uid)),
   set_steps w (S (steps w))).
Proof.
  intros H. unfold find_orders.
  rewrite (bind_ok _ _ _ _ _ (run_store_call_at _ w H)). reflexivity.
Qed.

Lemma run_get_user_orders_at user_id (w : W) :
  is_valid user_id = true ->
  faulty (steps w) = false ->
  get_user_orders user_id w =
  (Ok (mkOrdersResponse user_id
         (map replace_mongo_id_order
            (sort_created_at_desc
               (orders_of_user (orders w) (ObjectId user_id))))
         (Z.of_nat
            (length
               (sort_created_at_desc
                  (orders_of_user (orders w) (ObjectId user_id)))))),
   set_steps w (S (steps w))).
Proof.
  intros V NFs. unfold get_user_orders. rewrite V. cbn [negb].
  rewrite (bind_ok _ _ _ _ _ (run_find_orders_at _ w NFs)). reflexivity.
Qed.

Lemma orders_of_user_in l uid (o : Order num) :
  In o (orders_of_user l uid) <-> In o l /\ o_user_id o = uid.
Proof.
  unfold orders_of_user. rewrite filter_In, N.eqb_eq. reflexivity.
Qed.

(** X19.  [get_user_orders] returns the user's orders, all of them and
    only them, newest first.  With a valid identifier (the query not
    raising, the store sorting as asked), the documents returned are a
    rearrangement of the stored orders whose [user_id] is the user's, each
    followed by one that is not newer; an order of another user is never
    among them; [total_orders] is the number of the user's stored orders;
    and a malformed identifier raises the 422 before any store call. *)
Theorem get_user_orders_lists_newest_first (w : W) user_id :
  (is_valid user_id = false ->
   get_user_orders user_id w =
     (Raise (HTTPException HTTP_422_UNPROCESSABLE_ENTITY "Invalid user ID"),
      w)) /\
  (sorts_newest_first ->
   is_valid user_id = true ->
   faulty (steps w) = false ->
   exists os,
     fst (get_user_orders user_id w) =
       Ok (mkOrdersResponse user_id (map replace_mongo_id_order os)
             (Z.of_nat (length os))) /\
     Permutation (orders_of_user (orders w) (ObjectId user_id)) os /\
     Sorted not_older os /\
     (forall o, In o os <->
                In o (orders w) /\ o_user_id o = ObjectId user_id) /\
     length os = length (orders_of_user (orders w) (ObjectId user_id))).
Proof.
  split.
  - intros V. unfold get_user_orders. rewrite V. reflexivity.
  - intros HS V NFs.
    destruct (HS (orders_of_user (orders w) (ObjectId user_id)))
      as [HP HSo].
    eexists. rewrite (run_get_user_orders_at _ _ V NFs). cbn [fst].
    split; [reflexivity|]. split; [exact HP|]. split; [exact HSo|].
    split.
    + intros o. rewrite <- orders_of_user_in. split; intros H.
      * eapply Permutation_in; [apply Permutation_sym; exact HP | exact H].
      * eapply Permutation_in; [exact HP | exact H].
    + symmetry. apply Permutation_length. exact HP.
Qed.

Lemma orders_of_user_snoc l uid (o : Order num) :
  o_user_id o = uid ->
  orders_of_user (l ++ [o]) uid = orders_of_user l uid ++ [o].
Proof.
  intros H. unfold orders_of_user. rewrite filter_app. simpl.
  apply N.eqb_eq in H. rewrite H. reflexivity.
Qed.

(** X20.  A checkout shows up in the history.  After a successful
    [checkout] (non-empty cart, no store call raising, new order
    identifier, the store sorting as asked), the user's [get_user_orders]
    returns the order just created (the one whose identifier the checkout
    returned, with the lines and the total it reported), and
    [total_orders] is one more than the number of orders the user had. *)
Theorem checkout_then_get_user_orders (w : W) user_id c :
  no_faults ->
  sorts_newest_first ->
  fresh_for (map o_id (orders w)) ->
  is_valid user_id = true ->
  cart_of_user (carts w) (ObjectId user_id) = Some c ->
  cart_items c <> [] ->
  exists resp w1 o os,
    checkout user_id w = (Ok resp, w1) /\
    fst (get_user_orders user_id w1) =
      Ok (mkOrdersResponse user_id (map replace_mongo_id_order os)
            (Z.of_nat (length (orders_of_user (orders w) (ObjectId user_id)))
             + 1)) /\
    In o os /\
    co_order_id resp = str (o_id o) /\
    o_items o = sum_items (co_order_summary resp) /\
    o_total_amount o = sum_total_amount (co_order_summary resp).
Proof.
  intros NF HS F V Hc Hne.
  pose proof (run_checkout NF w user_id c V Hc Hne F) as R.
  cbv zeta in R.
  match type of R with _ = (_, ?x) => set (w1 := x) in * end.
  match type of R with
  | _ = (Ok (mkCheckoutResponse _ (str ?i) (mkOrderSummary ?ls ?tot _)), _) =>
      set (o := mkOrder i (ObjectId user_id) ls tot "completed"
                  (utcnow (steps w + length (cart_items c) + 1)))
  end.
  assert (Ho : orders_of_user (orders w1) (ObjectId user_id) =
               orders_of_user (orders w) (ObjectId user_id) ++ [o]).
  { subst w1. cbn [orders]. apply orders_of_user_snoc. reflexivity. }
  destruct (HS (orders_of_user (orders w1) (ObjectId user_id))) as [HP _].
  eexists _, w1, o, _. split; [exact R|].
  rewrite (run_get_user_orders_at _ _ V (NF _)). cbn [fst].
  split.
  - f_equal. f_equal.
    rewrite <- (Permutation_length HP), Ho, length_app. cbn [length]. lia.
  - split.
    + eapply Permutation_in; [exact HP|]. rewrite Ho.
      apply in_or_app. right. left. reflexivity.
    + repeat split.
Qed.

End History.

End Frames.

(** * The further properties at the concrete store *)




Lemma demo_fresh_history :
  fresh_for (E := demo_env never) [900%N; 901%N; 902%N].
Proof.
  intros n [H|[H|[H|[]]]].
  - change (900 = 4096 + N.of_nat n)%N in H. lia.
  - change (901 = 4096 + N.of_nat n)%N in H. lia.
  - change (902 = 4096 + N.of_nat n)%N in H. lia.
Defined.

Lemma insert_newest_first_perm o l :
  Permutation (o :: l) (insert_newest_first o l).
Proof.
  induction l as [|x rest IH]; simpl.
  - apply Permutation_refl.
  - destruct (String.leb (o_created_at x) (o_created_at o)).
    + apply Permutation_refl.
    + eapply Permutation_trans; [apply perm_swap|].
      apply perm_skip. exact IH.
Defined.

Lemma insert_newest_first_hd x o l :
  not_older (E := demo_env never) x o ->
  HdRel (not_older (E := demo_env never)) x l ->
  HdRel (not_older (E := demo_env never)) x (insert_newest_first o l).
Proof.
  intros Hxo Hl. destruct l as [|y rest]; simpl.
  - constructor. exact Hxo.
  - match goal with
    | |- context [if ?b then _ else _] => destruct b
    end.
    + constructor. exact Hxo.
    + constructor. inversion Hl; assumption.
Defined.

Lemma insert_newest_first_sorted o l :
  Sorted (not_older (E := demo_env never)) l ->
  Sorted (not_older (E := demo_env never)) (insert_newest_first o l).
Proof.
  induction l as [|x rest IH]; simpl; intros HS.
  - constructor; constructor.
  - match goal with
    | |- context [if ?b then _ else _] => destruct b eqn:Hle
    end.
    + constructor; [exact HS|]. constructor. exact Hle.
    + inversion HS as [|y l' HS' Hhd]; subst.
      constructor; [apply IH; exact HS'|].
      apply insert_newest_first_hd; [|exact Hhd].
      unfold not_older.
      destruct (String.leb_total (o_created_at x) (o_created_at o))
        as [H|H]; [|exact H].
      discriminate (eq_trans (eq_sym H) Hle).
Defined.

Lemma demo_sorts_newest_first :
  sorts_newest_first (E := demo_env never) (OE := demo_orders_env never).
Proof.
  intros l. induction l as [|o rest [IHP IHS]]; cbn.
  - split; constructor.
  - split.
    + eapply Permutation_trans;
        [apply perm_skip; exact IHP | apply insert_newest_first_perm].
    + apply insert_newest_first_sorted. exact IHS.
Defined.

Lemma get_product_outcomes_witness :
  get_product (E := demo_env never) "xyz" demo_world =
    (Raise (HTTPException HTTP_422_UNPROCESSABLE_ENTITY
              "Invalid product ID format"), demo_world) /\
  fst (get_product (E := demo_env never) gone_id demo_world) =
    Raise (HTTPException HTTP_404_NOT_FOUND "Product not found").
Proof.
  split.
  - apply (proj1 (get_product_outcomes (E := demo_env never)
                    demo_world "xyz")).
    reflexivity.
  - apply (proj2 (get_product_outcomes (E := demo_env never)
                    demo_world gone_id)); reflexivity.
Defined.

Lemma listed_products_can_be_fetched_witness :
  fst (get_all_products (E := demo_env_rt never) demo_world) =
    Ok demo_products /\
  fst (get_product (E := demo_env_rt never) mug_id demo_world) =
    Ok (mkProduct 2%N "Coffee Mug" "Ceramic coffee mug with handle" 1299
          "https://example.com/mug.jpg" "Home").
Proof.
  destruct (listed_products_can_be_fetched (E := demo_env_rt never)
              demo_world
              (mkProduct 2%N "Coffee Mug" "Ceramic coffee mug with handle"
                 1299 "https://example.com/mug.jpg" "Home"))
    as (H1 & _ & H3).
  - reflexivity.
  - cbn. no_repeats.
  - right. left. reflexivity.
  - split; reflexivity.
  - split; [exact H1 | exact H3].
Defined.

Lemma add_to_cart_rejects_without_writing_witness :
  fst (add_to_cart (E := demo_env never) "bad" "worse" 1 demo_world) =
    Raise (HTTPException HTTP_422_UNPROCESSABLE_ENTITY "Invalid user ID") /\
  fst (add_to_cart (E := demo_env never) alice_id gone_id 1 demo_world) =
    Raise (HTTPException HTTP_404_NOT_FOUND "Product not found") /\
  same_store (E := demo_env never) demo_world
    (snd (add_to_cart (E := demo_env never) alice_id gone_id 1 demo_world)).
Proof.
  pose proof (add_to_cart_rejects_without_writing (E := demo_env never)
                demo_world "bad" "worse" 1) as (H1 & _).
  pose proof (add_to_cart_rejects_without_writing (E := demo_env never)
                demo_world alice_id gone_id 1) as (_ & _ & H3 & H4).
  split; [|split].
  - rewrite H1; reflexivity.
  - apply H3; reflexivity.
  - apply (H4 eq_refl _ _ (surjective_pairing _)).
Defined.

Lemma add_to_cart_frame_witness :
  cart_of_user
    (carts (snd (add_to_cart (E := demo_env never) alice_id laptop_id 1
                   demo_world_two))) 178%N =
  Some (mkCart 501%N 178%N [mkCartItem 2%N 1] "2023-12-31").
Proof.
  apply (proj2 (add_to_cart_frame (E := demo_env never)
                  demo_world_two alice_id laptop_id 1)).
  - cbn. no_repeats.
  - discriminate.
Defined.

Lemma checkout_frame_witness :
  cart_of_user
    (carts (snd (checkout (E := demo_env never) alice_id demo_world_two)))
    178%N =
  Some (mkCart 501%N 178%N [mkCartItem 2%N 1] "2023-12-31").
Proof.
  apply (proj2 (proj2 (checkout_frame (E := demo_env never)
                         demo_world_two alice_id))).
  discriminate.
Defined.

Lemma handlers_keep_one_cart_per_user_witness :
  one_cart_per_user (E := demo_env never)
    (snd (add_to_cart (E := demo_env never) "0000000000000000000000c3"
            laptop_id 1 demo_world_two)) /\
  one_cart_per_user (E := demo_env never)
    (snd (register_user (E := demo_env never) "bob" "bob@example.com" "pw"
            demo_world_two)).
Proof.
  assert (I : one_cart_per_user (E := demo_env never) demo_world_two).
  { unfold one_cart_per_user. cbn. no_repeats. }
  destruct (handlers_keep_one_cart_per_user (E := demo_env never)
              demo_world_two I) as (Ha & _ & Hr).
  split; [apply Ha|]. apply Hr.
  intros n [H|[H|[]]].
  - change (161 = 4096 + N.of_nat n)%N in H. lia.
  - change (178 = 4096 + N.of_nat n)%N in H. lia.
Defined.

Lemma register_user_partial_then_conflict_witness :
  fst (register_user (E := demo_env (Nat.eqb 4)) "bob" "bob@example.com"
         "pw" demo_world) = Raise (PyMongoError (InsertOne Carts)) /\
  length (users (snd (register_user (E := demo_env (Nat.eqb 4)) "bob"
                        "bob@example.com" "pw" demo_world))) = 2%nat /\
  carts (snd (register_user (E := demo_env (Nat.eqb 4)) "bob"
                "bob@example.com" "pw" demo_world)) = carts demo_world /\
  fst (register_user (E := demo_env (Nat.eqb 4)) "bob" "other@example.com"
         "pw2"
         (snd (register_user (E := demo_env (Nat.eqb 4)) "bob"
                 "bob@example.com" "pw" demo_world))) =
    Raise (HTTPException HTTP_409_CONFLICT
             "Username or email already exists").
Proof.
  destruct (register_user_partial_then_conflict (E := demo_env (Nat.eqb 4))
              demo_world "bob" "bob@example.com" "pw")
    as (H1 & H2 & H3 & H4); try reflexivity.
  - intros [H|[]]. change (161 = 4096 + N.of_nat 2)%N in H. discriminate H.
  - split; [exact H1|]. split; [rewrite H2; reflexivity|].
    split; [exact H3 | apply H4].
Defined.

Lemma checkout_skips_stale_entries_witness :
  exists resp o w',
    checkout (E := demo_env never) alice_id demo_world = (Ok resp, w') /\
    orders w' = [o] /\
    length (o_items o) = 1%nat /\
    sum_total_items (co_order_summary resp) = 2.
Proof.
  destruct (checkout_skips_stale_entries (E := demo_env never)
              demo_world alice_id
              (mkCart 500%N 161%N [mkCartItem 1%N 2; mkCartItem 3%N 3]
                 "2023-12-31"))
    as (resp & o & w' & H1 & H2 & _ & _ & _ & _ & H7 & _ & _ & H10).
  - exact never_no_faults.
  - exact demo_fresh_orders.
  - reflexivity.
  - reflexivity.
  - discriminate.
  - exists resp, o, w'. split; [exact H1|]. split; [exact H2|].
    split; [symmetry; apply (Forall2_length H7) | exact H10].
Defined.

Lemma checkout_agrees_with_cart_view_witness :
  exists lines total resp,
    fst (get_cart (E := demo_env never) alice_id demo_world) =
      Ok (CartContents alice_id lines total) /\
    fst (checkout (E := demo_env never) alice_id demo_world) = Ok resp /\
    map cl_subtotal lines =
      map ol_subtotal (sum_items (co_order_summary resp)) /\
    total = sum_total_items (co_order_summary resp) + 3.
Proof.
  destruct (checkout_agrees_with_cart_view (E := demo_env never)
              demo_world alice_id
              (mkCart 500%N 161%N [mkCartItem 1%N 2; mkCartItem 3%N 3]
                 "2023-12-31"))
    as (lines & total & resp & H1 & H2 & _ & H4 & H5).
  - exact never_no_faults.
  - exact demo_fresh_orders.
  - reflexivity.
  - reflexivity.
  - discriminate.
  - exists lines, total, resp. repeat split; assumption.
Defined.

Lemma cart_readers_edge_inputs_witness :
  checkout (E := demo_env never) "bad" demo_world =
    (Raise (HTTPException HTTP_422_UNPROCESSABLE_ENTITY "Invalid user ID"),
     demo_world) /\
  fst (get_cart (E := demo_env never) bob_id demo_world) =
    Ok (CartEmpty "Cart is empty" []) /\
  fst (get_cart (E := demo_env never) alice_id demo_world_empty) =
    Ok (CartEmpty "Cart is empty" []).
Proof.
  split; [|split].
  - apply (proj1 (cart_readers_edge_inputs (E := demo_env never)
                    demo_world "bad")).
    reflexivity.
  - rewrite (proj2 (cart_readers_edge_inputs (E := demo_env never)
                      demo_world bob_id));
      [reflexivity | reflexivity | reflexivity | left; reflexivity].
  - rewrite (proj2 (cart_readers_edge_inputs (E := demo_env never)
                      demo_world_empty alice_id));
      [reflexivity | reflexivity | reflexivity |].
    right. eexists. split; reflexivity.
Defined.

Lemma checkout_empties_the_cart_witness :
  fst (get_cart (E := demo_env never) alice_id
         (snd (checkout (E := demo_env never) alice_id demo_world_full))) =
    Ok (CartEmpty "Cart is empty" []) /\
  fst (checkout (E := demo_env never) alice_id
         (snd (checkout (E := demo_env never) alice_id demo_world_full))) =
    Raise (HTTPException HTTP_400_BAD_REQUEST "Cart is empty").
Proof.
  destruct (checkout_empties_the_cart (E := demo_env never)
              demo_world_full alice_id
              (mkCart 500%N 161%N [mkCartItem 1%N 2; mkCartItem 2%N 1]
                 "2023-12-31"))
    as (_ & H2 & H3 & _).
  - exact never_no_faults.
  - exact demo_fresh_orders.
  - reflexivity.
  - reflexivity.
  - discriminate.
  - split; [exact H2 | exact H3].
Defined.

Lemma login_user_succeeds_only_verified_witness :
  fst (login_user (E := demo_env never) "alice@example.com" "secret"
         demo_world) =
    Ok (mkLoginResponse "Login successful" "0xa1" "alice").
Proof.
  apply (proj2 (login_user_succeeds_only_verified (E := demo_env never)
                  demo_world "alice@example.com" "secret")
           (mkUser 161%N "alice" "alice@example.com" "hash:secret"
              "2023-12-31"));
    reflexivity.
Defined.

Lemma register_then_login_witness :
  exists resp w1 lresp,
    register_user (E := demo_env never) "bob" "bob@example.com" "pw"
      demo_world = (Ok resp, w1) /\
    fst (login_user (E := demo_env never) "bob@example.com" "pw" w1) =
      Ok lresp /\
    login_user_id lresp = reg_user_id resp /\
    login_username lresp = "bob"%string.
Proof.
  apply (register_then_login (E := demo_env never)
           demo_world "bob" "bob@example.com" "pw" "bob@example.com").
  - exact never_no_faults.
  - exact demo_fresh_users.
  - exact demo_fresh_carts.
  - reflexivity.
  - right. reflexivity.
  - reflexivity.
  - reflexivity.
Defined.

Lemma register_user_keeps_logins_witness :
  (exists resp,
     fst (register_user (E := demo_env never) "alice@example.com"
            "second@example.com" "pw" demo_world) = Ok resp) /\
  fst (login_user (E := demo_env never) "alice@example.com" "pw"
         (snd (register_user (E := demo_env never) "alice@example.com"
                 "second@example.com" "pw" demo_world))) =
    Raise (HTTPException HTTP_401_UNAUTHORIZED "Invalid credentials").
Proof.
  split; [eexists; reflexivity|].
  destruct (register_user_keeps_logins (E := demo_env never)
              demo_world "alice@example.com" "second@example.com" "pw"
              "alice@example.com"
              (mkUser 161%N "alice" "alice@example.com" "hash:secret"
                 "2023-12-31"))
    as (_ & H).
  - reflexivity.
  - rewrite H; reflexivity.
Defined.



Lemma get_user_orders_lists_newest_first_witness :
  fst (get_user_orders (E := demo_env never) (OE := demo_orders_env never)
         alice_id demo_world_history) =
    Ok (mkOrdersResponse (E := demo_env never) (OE := demo_orders_env never)
          alice_id
          [ mkOrder 902%N 161%N [] 0 "completed" "2023-12-24";
            mkOrder 900%N 161%N [] 0 "completed" "2023-11-01" ] 2) /\
  exists os,
    fst (get_user_orders (E := demo_env never) (OE := demo_orders_env never)
           alice_id demo_world_history) =
      Ok (mkOrdersResponse (E := demo_env never)
            (OE := demo_orders_env never) alice_id os
            (Z.of_nat (length os))) /\
    Sorted (not_older (E := demo_env never)) os.
Proof.
  split; [reflexivity|].
  destruct (proj2 (get_user_orders_lists_newest_first (E := demo_env never)
                     (OE := demo_orders_env never)
                     demo_world_history alice_id))
    as (os & H1 & _ & H3 & _).
  - exact demo_sorts_newest_first.
  - reflexivity.
  - reflexivity.
  - exists os. split; [|exact H3].
    rewrite H1. cbn. rewrite map_id. reflexivity.
Defined.

Lemma checkout_then_get_user_orders_witness :
  exists resp w1 o os,
    checkout (E := demo_env never) alice_id demo_world_history =
      (Ok resp, w1) /\
    fst (get_user_orders (E := demo_env never) (OE := demo_orders_env never)
           alice_id w1) =
      Ok (mkOrdersResponse (E := demo_env never)
            (OE := demo_orders_env never) alice_id os 3) /\
    In o os /\
    co_order_id resp = HexString.of_N (o_id o).
Proof.
  destruct (checkout_then_get_user_orders (E := demo_env never)
              (OE := demo_orders_env never) demo_world_history alice_id
              (mkCart 500%N 161%N [mkCartItem 1%N 2; mkCartItem 3%N 3]
                 "2023-12-31"))
    as (resp & w1 & o & os & H1 & H2 & H3 & H4 & _).
  - exact never_no_faults.
  - exact demo_sorts_newest_first.
  - exact demo_fresh_history.
  - reflexivity.
  - reflexivity.
  - discriminate.
  - exists resp, w1, o, os. split; [exact H1|].
    split; [|split; [exact H3 | exact H4]].
    rewrite H2. cbn. rewrite map_id. reflexivity.
Defined.

(** * Additions over the store that encodes integers *)

Section Int64Properties.

Context {E : Env}.

Lemma encodable_app l1 l2 :
  encodable (l1 ++ l2) = encodable l1 && encodable l2.
Proof. apply forallb_app. Qed.

Lemma stored_quantity_absent pid items :
  ~ In pid (map item_product_id items) -> stored_quantity pid items = 0.
Proof.
  intros H. rewrite stored_quantity_entries, (entries_of_nil _ _ H).
  reflexivity.
Qed.

Lemma encodable_bump pid q items :
  In pid (map item_product_id items) ->
  encodable items = true ->
  encodable (fst (bump pid q items)) =
  int64 (stored_quantity pid items + q).
Proof.
  unfold stored_quantity.
  induction items as [|i rest IH]; simpl; intros Hin He.
  - contradiction.
  - apply andb_true_iff in He. destruct He as [Hi Hr].
    destruct (N.eqb (item_product_id i) pid) eqn:Hid; simpl.
    + rewrite Hr. apply andb_true_r.
    + apply N.eqb_neq in Hid. destruct Hin as [Hin|Hin]; [congruence|].
      specialize (IH Hin Hr).
      destruct (bump pid q rest) as [r b]. simpl in *.
      rewrite Hi, IH. reflexivity.
Qed.

(** Whether the merged list can be written is whether the product's new
    quantity fits, the stored quantities fitting already. *)
Lemma encodable_merge_item pid q items :
  encodable items = true ->
  encodable (merge_item pid q items) =
  int64 (stored_quantity pid items + q).
Proof.
  intros He.
  destruct (in_dec N.eq_dec pid (map item_product_id items)) as [Hin|Hn].
  - rewrite <- (encodable_bump _ _ _ Hin He). unfold merge_item.
    pose proof (bump_present pid q items Hin) as Hb.
    destruct (bump pid q items) as [r b]. simpl in *. subst b.
    reflexivity.
  - rewrite (merge_item_absent _ _ _ Hn), encodable_app, He.
    rewrite (stored_quantity_absent _ _ Hn). simpl.
    apply andb_true_r.
Qed.

Lemma run_update_cart_int64_refused (NF : no_faults) sel items t (w : W) :
  encodable items = false ->
  update_cart_int64 sel items t w =
  (Raise OverflowError, set_steps w (S (steps w))).
Proof.
  intros He. unfold update_cart_int64. rewrite He.
  rewrite (bind_ok _ _ _ _ _ (run_store_call NF _ w)). reflexivity.
Qed.

Lemma run_insert_cart_int64_refused (NF : no_faults) uid items t (w : W) :
  encodable items = false ->
  insert_cart_int64 uid items t w =
  (Raise OverflowError, set_steps w (S (steps w))).
Proof.
  intros He. unfold insert_cart_int64. rewrite He.
  rewrite (bind_ok _ _ _ _ _ (run_store_call NF _ w)). reflexivity.
Qed.

Lemma run_add_to_cart_int64_existing (NF : no_faults) (w : W)
  user_id product_id q pr c :
  is_valid user_id = true ->
  is_valid product_id = true ->
  product_by_id (products w) (ObjectId product_id) = Some pr ->
  cart_of_user (carts w) (ObjectId user_id) = Some c ->
  add_to_cart_int64 user_id product_id q w =
  if encodable (merge_item (ObjectId product_id) q (cart_items c))
  then add_to_cart user_id product_id q w
  else (Raise OverflowError, set_steps w (steps w + 4)).
Proof.
  intros Vu Vp Hp Hc.
  destruct (encodable (merge_item (ObjectId product_id) q (cart_items c)))
    eqn:He.
  - rewrite (run_add_to_cart_existing NF w _ _ q pr c Vu Vp Hp Hc).
    unfold add_to_cart_int64. rewrite Vu, Vp. cbn [negb].
    rewrite (bind_ok _ _ _ _ _ (run_find_product NF _ w)), Hp.
    rewrite (bind_ok _ _ _ _ _ (run_find_cart NF _ _)).
    cbn [carts set_steps]. rewrite Hc.
    rewrite (bind_ok _ _ _ _ _ (run_now _)).
    unfold update_cart_int64. rewrite He.
    rewrite (bind_ok _ _ _ _ _ (run_update_cart NF _ _ _ _)).
    unfold ret, set_carts, set_steps. cbn [products steps orders users carts].
    replace (S (S (steps w))) with (steps w + 2)%nat by lia.
    replace (S (S (steps w + 2))) with (steps w + 4)%nat by lia.
    reflexivity.
  - unfold add_to_cart_int64. rewrite Vu, Vp. cbn [negb].
    rewrite (bind_ok _ _ _ _ _ (run_find_product NF _ w)), Hp.
    rewrite (bind_ok _ _ _ _ _ (run_find_cart NF _ _)).
    cbn [carts set_steps]. rewrite Hc.
    rewrite (bind_ok _ _ _ _ _ (run_now _)).
    erewrite bind_raised;
      [|apply (run_update_cart_int64_refused NF); exact He].
    unfold set_steps. cbn [products steps orders users carts].
    replace (S (S (S (S (steps w))))) with (steps w + 4)%nat by lia.
    reflexivity.
Qed.

Lemma run_add_to_cart_int64_missing (NF : no_faults) (w : W)
  user_id product_id q pr :
  is_valid user_id = true ->
  is_valid product_id = true ->
  product_by_id (products w) (ObjectId product_id) = Some pr ->
  cart_of_user (carts w) (ObjectId user_id) = None ->
  add_to_cart_int64 user_id product_id q w =
  if int64 q
  then add_to_cart user_id product_id q w
  else (Raise OverflowError, set_steps w (steps w + 4)).
Proof.
  intros Vu Vp Hp Hc.
  assert (Hq : encodable [mkCartItem (ObjectId product_id) q] = int64 q)
    by (simpl; apply andb_true_r).
  unfold add_to_cart_int64, add_to_cart. rewrite Vu, Vp. cbn [negb].
  rewrite !(bind_ok _ _ _ _ _ (run_find_product NF _ w)), Hp.
  rewrite !(bind_ok _ _ _ _ _ (run_find_cart NF _ _)).
  cbn [carts set_steps]. rewrite Hc.
  rewrite !(bind_ok _ _ _ _ _ (run_now _)).
  destruct (int64 q).
  - unfold insert_cart_int64. rewrite Hq. reflexivity.
  - erewrite bind_raised;
      [|apply (run_insert_cart_int64_refused NF); exact Hq].
    unfold set_steps. cbn [products steps orders users carts].
    replace (S (S (S (S (steps w))))) with (steps w + 4)%nat by lia.
    reflexivity.
Qed.

(** C10 (amended).  [add_to_cart] does not look at the sign of
    [quantity].  With valid identifiers and an existing product, when no
    store call raises (the generated identifier being new, carts having
    distinct [_id]s, the stored quantities fitting 64 bits): for every
    integer [q], zero and negative ones too, such that the product's
    resulting quantity (the one stored before, 0 without a cart or an
    entry, plus [q]) fits a signed 64-bit integer, it succeeds, the cart
    then stores that quantity for the product, and without an entry
    before it ends with the entry [{product_id, q}] itself; when the
    resulting quantity does not fit, the write raises [OverflowError] and
    the store is left as it was. *)
Theorem add_to_cart_any_quantity (w : W) user_id product_id (q : Z) pr :
  no_faults ->
  fresh_for (map cart_id (carts w)) ->
  NoDup (map cart_id (carts w)) ->
  is_valid user_id = true ->
  is_valid product_id = true ->
  product_by_id (products w) (ObjectId product_id) = Some pr ->
  let before :=
    match cart_of_user (carts w) (ObjectId user_id) with
    | Some c => cart_items c
    | None => []
    end in
  encodable before = true ->
  (int64 (stored_quantity (ObjectId product_id) before + q) = true ->
   exists w' c',
     add_to_cart_int64 user_id product_id q w = (Ok added, w') /\
     cart_of_user (carts w') (ObjectId user_id) = Some c' /\
     stored_quantity (ObjectId product_id) (cart_items c') =
       stored_quantity (ObjectId product_id) before + q /\
     (~ In (ObjectId product_id) (map item_product_id before) ->
      cart_items c' = before ++ [mkCartItem (ObjectId product_id) q])) /\
  (int64 (stored_quantity (ObjectId product_id) before + q) = false ->
   exists w',
     add_to_cart_int64 user_id product_id q w = (Raise OverflowError, w') /\
     same_store w w').
Proof.
  intros NF F ND Vu Vp Hp before He.
  pose proof (add_to_cart_when_written w user_id product_id q pr
                NF F ND Vu Vp Hp) as Hw.
  cbv zeta in Hw. fold before in Hw.
  assert (R : add_to_cart_int64 user_id product_id q w =
              if int64 (stored_quantity (ObjectId product_id) before + q)
              then add_to_cart user_id product_id q w
              else (Raise OverflowError, set_steps w (steps w + 4))).
  { subst before.
    destruct (cart_of_user (carts w) (ObjectId user_id)) as [c|] eqn:Hc.
    - rewrite (run_add_to_cart_int64_existing NF w _ _ q pr c Vu Vp Hp Hc).
      rewrite (encodable_merge_item _ _ _ He). reflexivity.
    - rewrite (run_add_to_cart_int64_missing NF w _ _ q pr Vu Vp Hp Hc).
      reflexivity. }
  split; intros Hq; rewrite Hq in R; rewrite R.
  - exact Hw.
  - exists (set_steps w (steps w + 4)). split; [reflexivity | repeat split].
Qed.

(** C2 (amended).  With valid identifiers, an existing product and a
    cart that has at most one entry per product (carts having distinct
    [_id]s, the stored quantities fitting 64 bits), when no store call
    raises: for all [q1] and [q2], the positive ones among them, such that
    the product's quantity after the first addition and after the second
    (what was stored before, 0 when there was no entry, plus [q1], and
    plus [q1] plus [q2]) fit a signed 64-bit integer, [add_to_cart] of
    [q1] and then of [q2] for the same product both succeed and leave the
    user's cart with exactly one entry for the product, whose quantity is
    what was stored before plus [q1] plus [q2]; the other products'
    entries are as before; and when the product was not in the cart the
    first call appends the entry [{product_id, q1}] at the end. *)
Theorem add_to_cart_twice_increments (w : W)
  user_id product_id q1 q2 pr c :
  no_faults ->
  is_valid user_id = true ->
  is_valid product_id = true ->
  product_by_id (products w) (ObjectId product_id) = Some pr ->
  NoDup (map cart_id (carts w)) ->
  cart_of_user (carts w) (ObjectId user_id) = Some c ->
  cart_inv c ->
  encodable (cart_items c) = true ->
  int64 (stored_quantity (ObjectId product_id) (cart_items c) + q1) = true ->
  int64 (stored_quantity (ObjectId product_id) (cart_items c) + q1 + q2)
    = true ->
  exists w1 w2 c1 c2,
    add_to_cart_int64 user_id product_id q1 w = (Ok added, w1) /\
    add_to_cart_int64 user_id product_id q2 w1 = (Ok added, w2) /\
    cart_of_user (carts w1) (ObjectId user_id) = Some c1 /\
    cart_of_user (carts w2) (ObjectId user_id) = Some c2 /\
    cart_id c1 = cart_id c /\ cart_id c2 = cart_id c /\
    length (entries_of (ObjectId product_id) (cart_items c2)) = 1%nat /\
    stored_quantity (ObjectId product_id) (cart_items c2) =
      stored_quantity (ObjectId product_id) (cart_items c) + q1 + q2 /\
    (forall pid', pid' <> ObjectId product_id ->
       entries_of pid' (cart_items c2) = entries_of pid' (cart_items c)) /\
    cart_inv c2 /\
    (~ In (ObjectId product_id) (map item_product_id (cart_items c)) ->
     cart_items c1 =
       cart_items c ++ [mkCartItem (ObjectId product_id) q1]).
Proof.
  intros NF Vu Vp Hp ND Hc Inv He H1 H2.
  set (pid := ObjectId product_id) in *.
  set (items1 := merge_item pid q1 (cart_items c)).
  assert (He1 : encodable items1 = true).
  { subst items1. rewrite (encodable_merge_item _ _ _ He). exact H1. }
  pose proof (run_add_to_cart_int64_existing NF w _ _ q1 pr c Vu Vp Hp Hc)
    as A1.
  fold pid in A1. fold items1 in A1. rewrite He1 in A1.
  pose proof (run_add_to_cart_existing NF w _ _ q1 pr c Vu Vp Hp Hc) as R1.
  fold pid in R1. fold items1 in R1.
  set (w1 := snd (add_to_cart user_id product_id q1 w)).
  set (c1 := mkCart (cart_id c) (cart_user_id c) items1
               (utcnow (steps w + 2))).
  assert (Hc1 : cart_of_user (carts w1) (ObjectId user_id) = Some c1).
  { subst w1. rewrite R1. cbn [snd carts].
    apply cart_of_user_set_first_id; assumption. }
  assert (ND1 : NoDup (map cart_id (carts w1))).
  { subst w1. rewrite R1. cbn [snd carts]. rewrite set_first_ids.
    exact ND. }
  assert (Hp1 : product_by_id (products w1) pid = Some pr).
  { subst w1. rewrite R1. exact Hp. }
  set (items2 := merge_item pid q2 items1).
  assert (He2 : encodable items2 = true).
  { subst items2. rewrite (encodable_merge_item _ _ _ He1).
    subst items1. rewrite merge_item_stored. exact H2. }
  pose proof (run_add_to_cart_int64_existing NF w1 _ _ q2 pr c1
                Vu Vp Hp1 Hc1) as A2.
  fold pid in A2. cbn [cart_items c1] in A2. fold items2 in A2.
  rewrite He2 in A2.
  pose proof (run_add_to_cart_existing NF w1 _ _ q2 pr c1 Vu Vp Hp1 Hc1)
    as R2.
  fold pid in R2. cbn [cart_items c1] in R2. fold items2 in R2.
  exists w1, (snd (add_to_cart user_id product_id q2 w1)), c1,
    (mkCart (cart_id c) (cart_user_id c) items2 (utcnow (steps w1 + 2))).
  split; [rewrite A1; subst w1; rewrite R1; reflexivity|].
  split; [rewrite A2, R2; reflexivity|].
  split; [exact Hc1|].
  split.
  { rewrite R2. cbn [snd carts].
    apply (cart_of_user_set_first_id _ _ _ _ c1 ND1 Hc1). }
  split; [reflexivity|]. split; [reflexivity|].
  cbn [cart_items]. subst items2 items1.
  split.
  { apply merge_item_single. apply merge_item_NoDup. exact Inv. }
  split.
  { rewrite !merge_item_stored. lia. }
  split.
  { intros pid' Hne. rewrite !merge_item_other by assumption.
    reflexivity. }
  split.
  { unfold cart_inv. cbn [cart_items].
    apply merge_item_NoDup. apply merge_item_NoDup. exact Inv. }
  intros Hn. subst c1. cbn [cart_items]. apply merge_item_absent. exact Hn.
Qed.

End Int64Properties.

(** * The additions at the concrete store *)

(** C10 as first stated fails: a quantity of 2^63 passes every check of
    the handler, the merged entry would hold 2 + 2^63, the write raises
    [OverflowError] and Alice's cart keeps its 2 laptops. *)
Lemma add_to_cart_any_quantity_counterexample :
  fst (add_to_cart_int64 (E := demo_env never) alice_id laptop_id (2 ^ 63)
         demo_world) = Raise OverflowError /\
  carts (snd (add_to_cart_int64 (E := demo_env never) alice_id laptop_id
                (2 ^ 63) demo_world)) = carts demo_world /\
  ~ (exists w',
       add_to_cart_int64 (E := demo_env never) alice_id laptop_id (2 ^ 63)
         demo_world = (Ok added, w')).
Proof.
  split; [vm_compute; reflexivity|].
  split; [vm_compute; reflexivity|].
  intros [w' H]. vm_compute in H. discriminate H.
Qed.

(** C2 as first stated fails: with 9223372036854775800 laptops stored,
    two additions of 5 are both positive, the first succeeds, the second
    would store 9223372036854775810, raises [OverflowError], and the cart
    keeps the quantity after the first addition. *)
Lemma add_to_cart_twice_increments_counterexample :
  let w1 :=
    snd (add_to_cart_int64 (E := demo_env never) alice_id laptop_id 5
           demo_world_big) in
  let w2 :=
    snd (add_to_cart_int64 (E := demo_env never) alice_id laptop_id 5 w1) in
  fst (add_to_cart_int64 (E := demo_env never) alice_id laptop_id 5
         demo_world_big) = Ok added /\
  fst (add_to_cart_int64 (E := demo_env never) alice_id laptop_id 5 w1) =
    Raise OverflowError /\
  cart_of_user (carts w2) 161%N =
    Some (mkCart 500%N 161%N [mkCartItem 1%N 9223372036854775805]
            "2024-01-01T00:00:00x2") /\
  9223372036854775805 <> 9223372036854775800 + 5 + 5.
Proof.
  cbv zeta. split; [vm_compute; reflexivity|].
  split; [vm_compute; reflexivity|].
  split; [vm_compute; reflexivity | lia].
Qed.

Lemma add_to_cart_any_quantity_witness :
  (exists w' c',
     add_to_cart_int64 (E := demo_env never) alice_id mug_id (-3) demo_world
       = (Ok added, w') /\
     cart_of_user (carts w') 161%N = Some c' /\
     stored_quantity 2%N (cart_items c') = -3 /\
     cart_items c' =
       [mkCartItem 1%N 2; mkCartItem 3%N 3; mkCartItem 2%N (-3)]) /\
  (exists w',
     add_to_cart_int64 (E := demo_env never) alice_id laptop_id
       (- 2 ^ 63 - 3) demo_world = (Raise OverflowError, w') /\
     same_store (E := demo_env never) demo_world w').
Proof.
  split.
  - destruct (add_to_cart_any_quantity (E := demo_env never)
                demo_world alice_id mug_id (-3)
                (mkProduct 2%N "Coffee Mug" "Ceramic coffee mug with handle"
                   1299 "https://example.com/mug.jpg" "Home"))
      as [Hok _].
    + exact never_no_faults.
    + exact demo_fresh_carts.
    + cbn. no_repeats.
    + reflexivity.
    + reflexivity.
    + reflexivity.
    + reflexivity.
    + destruct Hok as (w' & c' & H1 & H2 & H3 & H4); [reflexivity|].
      exists w', c'. split; [exact H1|]. split; [exact H2|].
      split; [exact H3|]. apply H4. cbn.
      intros [H|[H|[]]]; discriminate.
  - destruct (add_to_cart_any_quantity (E := demo_env never)
                demo_world alice_id laptop_id (- 2 ^ 63 - 3)
                (mkProduct 1%N "Laptop" "High-performance gaming laptop"
                   99999 "https://example.com/laptop.jpg" "Electronics"))
      as [_ Hno].
    + exact never_no_faults.
    + exact demo_fresh_carts.
    + cbn. no_repeats.
    + reflexivity.
    + reflexivity.
    + reflexivity.
    + reflexivity.
    + apply Hno. reflexivity.
Defined.

Lemma add_to_cart_twice_increments_witness :
  exists w1 w2 c2,
    add_to_cart_int64 (E := demo_env never) alice_id laptop_id 1 demo_world =
      (Ok added, w1) /\
    add_to_cart_int64 (E := demo_env never) alice_id laptop_id 4 w1 =
      (Ok added, w2) /\
    cart_of_user (carts w2) 161%N = Some c2 /\
    length (entries_of 1%N (cart_items c2)) = 1%nat /\
    stored_quantity 1%N (cart_items c2) = 7.
Proof.
  destruct (add_to_cart_twice_increments (E := demo_env never)
              demo_world alice_id laptop_id 1 4
              (mkProduct 1%N "Laptop" "High-performance gaming laptop" 99999
                 "https://example.com/laptop.jpg" "Electronics")
              (mkCart 500%N 161%N [mkCartItem 1%N 2; mkCartItem 3%N 3]
                 "2023-12-31"))
    as (w1 & w2 & c1 & c2 & H1 & H2 & _ & H4 & _ & _ & H7 & H8 & _).
  - exact never_no_faults.
  - reflexivity.
  - reflexivity.
  - reflexivity.
  - cbn. no_repeats.
  - reflexivity.
  - unfold cart_inv. cbn. no_repeats.
  - reflexivity.
  - reflexivity.
  - reflexivity.
  - exists w1, w2, c2. repeat split; assumption.
Defined.
